(** * RAG chatbot backend: a shallow embedding of the orchestration layer

    The development follows the Python sources under [backend/]:

    - [app/config.py]                     -> [Module config]
    - [services/azure_openai_client.py]   -> [Module azure_openai_client]
    - [services/weaviate_client.py]       -> [Module weaviate_client]
    - [services/document_service.py]      -> [Module document_service]
    - [app/main.py]                       -> [Module main]

    Every hosted capability (embedding, chat generation, vector store, the
    document loaders and splitter of LangChain, the file system) is an
    external collaborator.  The code only sequences calls to them, so the
    model is a small exception-and-log monad: a computation reads the log of
    external calls made so far, may append to it, and ends with a value or
    with a raised exception.  The answers of the collaborators are given by
    a record [World] of oracles that may depend on the whole log, which
    covers any hidden state the services keep. *)

From Stdlib Require Import ZArith String Ascii List SpecFloat.
From stdpp Require Import gmap strings list pretty.

Local Open Scope Z_scope.
Local Open Scope string_scope.

(** ** Python runtime values *)

Module py.

(** Binary64 floats, as in CPython: 53 bits of mantissa, infinities at 2^1024. *)
Abbreviation float := spec_float.
Definition fsub : float -> float -> float := SFsub 53 1024.
Definition float_of_Z (z : Z) : float := binary_normalize 53 1024 z 0 false.

(** [bool(x)] on a float is [x != 0.0]: both zeros are falsy, NaN is truthy. *)
Definition float_truthy (x : float) : bool :=
  match x with
  | S754_zero _ => false
  | _ => true
  end.

(** Numbers produced by arithmetic on int literals and floats. *)
Inductive num :=
| NInt (z : Z)
| NFloat (x : float).

Definition to_float (n : num) : float :=
  match n with
  | NInt z => float_of_Z z
  | NFloat x => x
  end.

(** [a - b]: stays an int on two ints, otherwise both sides are converted. *)
Definition num_sub (a b : num) : num :=
  match a, b with
  | NInt x, NInt y => NInt (x - y)
  | _, _ => NFloat (fsub (to_float a) (to_float b))
  end.

(** Values stored in the dictionaries the services pass around. *)
#[warnings="-register-all"]
Inductive value :=
| VNone
| VBool (b : bool)
| VInt (z : Z)
| VStr (s : string)
| VList (l : list value).

(** Truth value of an object, as tested by [if x] and [not x]. *)
Definition truthy (v : value) : bool :=
  match v with
  | VNone => false
  | VBool b => b
  | VInt z => negb (z =? 0)%Z
  | VStr s => negb (String.eqb s "")
  | VList l => match l with [] => false | _ => true end
  end.

Definition str_truthy (s : string) : bool := negb (String.eqb s "").

(** Exceptions that cross function boundaries in the modelled code.
    [ExternalError] stands for whatever a collaborator raises. *)
Inductive exn :=
| HTTPException (status_code : Z) (detail : string)
| ValueError (msg : string)
| KeyError (key : string)
| IndexError (msg : string)
| ValidationError (msg : string)
| ExternalError (msg : string).

(** [str(e)] *)
Definition str_exn (e : exn) : string :=
  match e with
  | HTTPException c d => pretty c +:+ ": " +:+ d
  | ValueError m => m
  | KeyError k => "'" +:+ k +:+ "'"
  | IndexError m => m
  | ValidationError m => m
  | ExternalError m => m
  end.

Definition is_http (e : exn) : bool :=
  match e with
  | HTTPException _ _ => true
  | _ => false
  end.

(** *** Strings

    A [str] is held as the bytes of its UTF-8 encoding.  Equality,
    concatenation, the search for an ASCII character and the slices cut at
    the positions found are the same on the encoding as on the text.  Case
    mapping is not: [str.lower] follows the Unicode tables of the
    interpreter (the Kelvin sign U+212A becomes [k], [A] with grave becomes
    [a] with grave), so it is left to the world, as [str_lower] below.

    [ascii_lower] is the fold of the 26 ASCII capitals alone.  On text made
    of ASCII characters [str.lower] is this function; the scenarios, whose
    names are ASCII, use it. *)

Definition ascii_lower_char (c : ascii) : ascii :=
  let n := N_of_ascii c in
  if ((65 <=? n) && (n <=? 90))%N then ascii_of_N (n + 32) else c.

Fixpoint ascii_lower (s : string) : string :=
  match s with
  | EmptyString => EmptyString
  | String c r => String (ascii_lower_char c) (ascii_lower r)
  end.

(** [l[-n:]] for a positive [n]: the last [n] items, or all of a shorter list. *)
Definition slice_last {A} (n : nat) (l : list A) : list A :=
  skipn (length l - n) l.

(** [repr] of a string without quotes, backslashes or control characters,
    and of a list of such strings, as an f-string prints a list. *)
Definition repr_str (s : string) : string := "'" +:+ s +:+ "'".

Fixpoint repr_items (l : list string) : string :=
  match l with
  | [] => ""
  | [x] => repr_str x
  | x :: rest => repr_str x +:+ ", " +:+ repr_items rest
  end.

Definition repr_list (l : list string) : string := "[" +:+ repr_items l +:+ "]".

(** The newline character. *)
Definition nl : string := String (ascii_of_nat 10) EmptyString.

(** [sep.join(parts)] *)
Fixpoint join (sep : string) (parts : list string) : string :=
  match parts with
  | [] => ""
  | [p] => p
  | p :: rest => p +:+ sep +:+ join sep rest
  end.

(** [s.rfind(c)]: index of the last occurrence of [c], or -1. *)
Fixpoint rfind_from (c : ascii) (s : string) (i acc : Z) : Z :=
  match s with
  | EmptyString => acc
  | String a r => rfind_from c r (i + 1) (if Ascii.eqb a c then i else acc)
  end.

Definition rfind (c : ascii) (s : string) : Z := rfind_from c s 0 (-1).

(** [s[i:]] and [s[:i]] for [0 <= i]. *)
Definition slice_from (s : string) (i : Z) : string :=
  substring (Z.to_nat i) (String.length s - Z.to_nat i) s.
Definition slice_to (s : string) (i : Z) : string :=
  substring 0 (Z.to_nat i) s.

(** [s.isspace()]-style test used to speak about whitespace-only text:
    space, tab, newline, vertical tab, form feed, carriage return. *)
Definition is_space (c : ascii) : bool :=
  let n := N_of_ascii c in
  ((n =? 32) || ((9 <=? n) && (n <=? 13)))%N.

Fixpoint all_space (s : string) : bool :=
  match s with
  | EmptyString => true
  | String c r => is_space c && all_space r
  end.

(** *** [os.path] on POSIX *)

(** The loop of [genericpath._splitext] that skips leading dots of the last
    path component: [fuel] is [dotIndex - filenameIndex]. *)
Fixpoint splitext_scan (p : string) (filenameIndex dotIndex : Z) (fuel : nat)
  : string * string :=
  match fuel with
  | O => (p, "")
  | S fuel' =>
      if match String.get (Z.to_nat filenameIndex) p with
         | Some a => negb (Ascii.eqb a ".")
         | None => true
         end
      then (slice_to p dotIndex, slice_from p dotIndex)
      else splitext_scan p (filenameIndex + 1) dotIndex fuel'
  end.

Definition splitext (p : string) : string * string :=
  let sepIndex := rfind "/"%char p in
  let dotIndex := rfind "."%char p in
  if (sepIndex <? dotIndex)%Z
  then splitext_scan p (sepIndex + 1) dotIndex (Z.to_nat (dotIndex - (sepIndex + 1)))
  else (p, "").

Definition basename (p : string) : string :=
  slice_from p (rfind "/"%char p + 1).

End py.
Export py.

(** ** Data exchanged with the collaborators *)

Module data.

(** [langchain.schema.Document] *)
Record Document := {
  page_content : string;
  doc_metadata : gmap string value;
}.

(** The three loaders of [langchain_community.document_loaders] in use. *)
Inductive Loader :=
| PyPDFLoader
| UnstructuredMarkdownLoader
| TextLoader.

(** A chat message as sent to the model: the dict [{role, content}]. *)
Record Message := {
  msg_role : string;
  msg_content : string;
}.

(** [models/schemas.py] *)
Record ChatMessage := {
  cm_role : string;
  cm_content : string;
  cm_timestamp : option string;
}.

Record ChatRequest := {
  req_message : string;
  conversation_history : option (list ChatMessage);
  req_stream : bool;
}.

Record ChatResponse := {
  response : string;
  sources : list string;
  conversation_id : option string;
}.

Record IngestRequest := {
  text_content : option string;
  req_filename : option string;
}.

Record IngestResponse := {
  success : bool;
  message : string;
  document_id : option string;
  chunks_created : Z;
}.

(** [fastapi.UploadFile]: the name given by the client and the bytes sent. *)
Record UploadFile := {
  upload_filename : string;
  upload_body : list Byte.byte;
}.

(** Embedding API response: [response.data[i].embedding]. *)
Record Embedding := { embedding : list float }.
Record CreateEmbeddingResponse := { data : list Embedding }.

(** Chat API, streaming: [chunk.choices[0].delta.content]. *)
Record ChoiceDelta := { delta_content : option string }.
Record ChunkChoice := { delta : ChoiceDelta }.
Record ChatCompletionChunk := { chunk_choices : list ChunkChoice }.

(** Chat API, complete: [response.choices[0].message.content]. *)
Record ChatCompletionMessage := { message_content : option string }.
Record Choice := { choice_message : ChatCompletionMessage }.
Record ChatCompletion := { choices : list Choice }.

(** An object returned by a Weaviate query.  Its properties follow the schema
    that [_create_collection_if_not_exists] declares (TEXT, TEXT, INT, TEXT,
    DATE); a property the store did not return is [None]. *)
Record Properties := {
  prop_content : option string;
  prop_filename : option string;
  prop_chunk_index : option Z;
  prop_file_type : option string;
  prop_upload_date : option string;
}.

Record MetadataReturn := { distance : option float }.

Record QueryObject := {
  properties : Properties;
  obj_metadata : option MetadataReturn;
}.

(** The dict built by [similarity_search] for one object. *)
Record ResultMetadata := {
  md_filename : string;
  md_chunk_index : Z;
  md_file_type : string;
  md_upload_date : string;
  md_distance : option float;
}.

Record RetrievalResult := {
  rr_content : string;
  rr_metadata : ResultMetadata;
  rr_score : num;
}.

(** One server-sent event of the chat stream, before [json.dumps] and the
    [data: ...] framing: [{sources: [...]}], [{content: ...}], the literal
    [[DONE]] and [{error: ...}]. *)
Inductive sse_event :=
| SourcesEvent (filenames : list string)
| ContentEvent (fragment : string)
| DoneEvent
| ErrorEvent (error : string).

End data.
Export data.

(** ** [app/config.py] *)

Module config.

Record Settings := {
  azure_openai_deployment_name : string;
  azure_openai_embedding_deployment : string;
  max_file_size : Z;
  allowed_file_types : list string;
  chunk_size : Z;
  chunk_overlap : Z;
  max_retrieved_docs : Z;
  temperature : float;
  max_tokens : Z;
}.

(** The defaults of the class [Settings]; the environment may override them.
    [0.7] is the binary64 number 6305039478318694 * 2^-53. *)
Definition default_settings : Settings := {|
  azure_openai_deployment_name := "gpt-35-turbo";
  azure_openai_embedding_deployment := "text-embedding-ada-002";
  max_file_size := 10 * 1024 * 1024;
  allowed_file_types := [".pdf"; ".txt"; ".md"; ".docx"];
  chunk_size := 1000;
  chunk_overlap := 200;
  max_retrieved_docs := 5;
  temperature := S754_finite false 6305039478318694 (-53);
  max_tokens := 1000;
|}.

End config.
Export config.

(** ** Effects: external calls, exceptions, generators *)

Module effects.

(** One entry of the log per call that leaves the process or reaches one of
    the LangChain components. *)
Inductive call :=
| SplitDocuments (documents : list Document)
| EmbeddingsCreate (model : string) (input : list string)
| ChatCompletionsCreate (model : string) (messages : list Message)
    (temperature : float) (max_tokens : Z) (stream : bool)
| DataInsert (properties : gmap string value) (vector : list float)
| QueryNearVector (near_vector : list float) (limit : Z)
| LoaderLoad (loader : Loader) (file_path : string)
| PathGetsize (path : string)
| UploadRead (file : UploadFile)
| TempFileWrite (suffix : string) (body : list Byte.byte)
| OsUnlink (path : string)
| DatetimeNow.

(** A generator run to its end: what it yielded, then how it stopped. *)
Definition Gen (E A : Type) : Type := list E * (exn + A).

Definition gret {E A} (a : A) : Gen E A := ([], inr a).
Definition gyield {E} (e : E) : Gen E unit := ([e], inr tt).
Definition graise {E A} (e : exn) : Gen E A := ([], inl e).

Definition gbind {E A B} (m : Gen E A) (k : A -> Gen E B) : Gen E B :=
  match m with
  | (ys, inl e) => (ys, inl e)
  | (ys, inr a) => let (ys', r) := k a in ((ys ++ ys')%list, r)
  end.

(** [try: m except Exception as e: h e] inside a generator. *)
Definition gtry {E A} (m : Gen E A) (h : exn -> Gen E A) : Gen E A :=
  match m with
  | (ys, inl e) => let (ys', r) := h e in ((ys ++ ys')%list, r)
  | (ys, inr a) => (ys, inr a)
  end.

Fixpoint for_items {E A} (items : list A) (body : A -> Gen E unit) : Gen E unit :=
  match items with
  | [] => gret tt
  | a :: rest => gbind (body a) (fun _ => for_items rest body)
  end.

(** [for a in it: body a], where the iterator [it] may itself raise after
    its last item. *)
Definition for_each {E A} (it : Gen A unit) (body : A -> Gen E unit) : Gen E unit :=
  gbind (for_items (fst it) body)
        (fun _ => match snd it with
                  | inl e => graise e
                  | inr _ => gret tt
                  end).

Definition yielded {E A} (g : Gen E A) : list E := fst g.
Definition stopped {E A} (g : Gen E A) : exn + A := snd g.

(** Answers of the collaborators.  Each oracle sees the log of the calls made
    before the one it answers.  [str_lower] is [str.lower] of the
    interpreter, a function of the text alone; nothing is assumed of it. *)
Record World := {
  settings : Settings;
  str_lower : string -> string;
  split_documents_answer : list call -> list Document -> exn + list Document;
  embeddings_answer : list call -> list string -> exn + CreateEmbeddingResponse;
  chat_stream_answer :
    list call -> list Message -> float -> Z -> exn + Gen ChatCompletionChunk unit;
  chat_answer : list call -> list Message -> float -> Z -> exn + ChatCompletion;
  insert_answer : list call -> gmap string value -> list float -> exn + string;
  near_vector_answer : list call -> list float -> Z -> exn + list QueryObject;
  load_answer : list call -> Loader -> string -> exn + list Document;
  getsize_answer : list call -> string -> exn + Z;
  tempfile_answer : list call -> string -> list Byte.byte -> exn + string;
  unlink_answer : list call -> string -> exn + unit;
  now_answer : list call -> string;
}.

(** Computations: from the log so far to an outcome and the extended log. *)
Definition M (A : Type) : Type := list call -> (exn + A) * list call.

Definition ret {A} (a : A) : M A := fun tr => (inr a, tr).
Definition raise {A} (e : exn) : M A := fun tr => (inl e, tr).

Definition bind {A B} (m : M A) (k : A -> M B) : M B :=
  fun tr =>
    match m tr with
    | (inl e, tr') => (inl e, tr')
    | (inr a, tr') => k a tr'
    end.

(** [try: m except Exception as e: h e] *)
Definition try_except {A} (m : M A) (h : exn -> M A) : M A :=
  fun tr =>
    match m tr with
    | (inl e, tr') => h e tr'
    | (inr a, tr') => (inr a, tr')
    end.

(** [try: m finally: f] *)
Definition try_finally {A} (m : M A) (f : M unit) : M A :=
  fun tr =>
    match m tr with
    | (r, tr') =>
        match f tr' with
        | (inl e, tr'') => (inl e, tr'')
        | (inr _, tr'') => (r, tr'')
        end
    end.

(** The handlers [except Exception as e: logger.error(...); raise]. *)
Definition log_and_reraise {A} (m : M A) : M A :=
  try_except m (fun e => raise e).

(** An external call: logged, answered by the oracle on the earlier log. *)
Definition extern {A} (c : call) (answer : list call -> exn + A) : M A :=
  fun tr => (answer tr, (tr ++ [c])%list).

(** Turns a raised exception into a value, for code that hands it on. *)
Definition attempt {A} (m : M A) : M (exn + A) :=
  fun tr => let (r, tr') := m tr in (inr r, tr').

(** The outcome of a computation started on the log [tr], and the log it
    leaves. *)
Definition outcome {A} (m : M A) (tr : list call) : exn + A := fst (m tr).
Definition log_after {A} (m : M A) (tr : list call) : list call := snd (m tr).

End effects.
Export effects.

Declare Scope effect_scope.
Delimit Scope effect_scope with eff.
Notation "x <- m ;; k" := (bind m (fun x => k))
  (at level 100, m at next level, right associativity) : effect_scope.
Notation "x <~ m ;; k" := (gbind m (fun x => k))
  (at level 100, m at next level, right associativity) : effect_scope.
Notation "m ;;~ k" := (gbind m (fun _ => k))
  (at level 100, right associativity) : effect_scope.
Local Open Scope effect_scope.

(** ** [services/azure_openai_client.py] *)

Module azure_openai_client.
Section client.
Variable W : World.

Definition create_embeddings (texts : list string) : M (list (list float)) :=
  log_and_reraise (
    response <- extern
      (EmbeddingsCreate (azure_openai_embedding_deployment (settings W)) texts)
      (fun tr => embeddings_answer W tr texts) ;;
    let embeddings := map embedding (data response) in
    ret embeddings).

(** [self.create_embeddings([text])[0]] *)
Definition create_embedding (text : string) : M (list float) :=
  embeddings <- create_embeddings [text] ;;
  match embeddings with
  | first :: _ => ret first
  | [] => raise (IndexError "list index out of range")
  end.

(** The body of the loop over the upstream chunks. *)
Definition stream_chunk (chunk : ChatCompletionChunk) : Gen string unit :=
  match chunk_choices chunk with
  | first :: _ =>
      match delta_content (delta first) with
      | Some content => gyield content
      | None => gret tt
      end
  | [] => gret tt
  end.

(** An async generator: the request is sent when the generator starts, and
    a failure of the request or of the upstream iteration is raised to the
    consumer after the fragments already yielded. *)
Definition chat_completion_stream (messages : list Message)
    (temperature : float) (max_tokens : Z) : M (Gen string unit) :=
  created <- attempt (extern
    (ChatCompletionsCreate (azure_openai_deployment_name (settings W))
       messages temperature max_tokens true)
    (fun tr => chat_stream_answer W tr messages temperature max_tokens)) ;;
  ret (gtry
         (response <~ match created with
                      | inl e => graise e
                      | inr r => gret r
                      end ;;
          for_each response stream_chunk)
         (fun e => graise e)).

Definition chat_completion (messages : list Message)
    (temperature : float) (max_tokens : Z) : M string :=
  log_and_reraise (
    response <- extern
      (ChatCompletionsCreate (azure_openai_deployment_name (settings W))
         messages temperature max_tokens false)
      (fun tr => chat_answer W tr messages temperature max_tokens) ;;
    match choices response with
    | first :: _ =>
        match message_content (choice_message first) with
        | Some c => ret (if str_truthy c then c else "")
        | None => ret ""
        end
    | [] => ret "No response generated"
    end).

End client.

Definition system_prompt : string :=
  "You are a helpful AI assistant that answers questions based on the provided context. "
  +:+ nl +:+
  "        Use the context documents to answer the user's question. If the answer cannot be found in the context, "
  +:+ nl +:+
  "        say so clearly. Always cite the source documents when possible.".

(** One entry of the joined context text. *)
Definition context_entry (doc : RetrievalResult) : string :=
  "Document: " +:+ md_filename (rr_metadata doc) +:+ nl +:+
  "Content: " +:+ rr_content doc.

Definition create_rag_prompt (query : string) (context_docs : list RetrievalResult)
  : list Message :=
  let context_text := join (nl +:+ nl) (map context_entry context_docs) in
  let user_prompt :=
    "Context Documents:" +:+ nl +:+
    context_text +:+ nl +:+
    nl +:+
    "User Question: " +:+ query +:+ nl +:+
    nl +:+
    "Please provide a helpful answer based on the context above." in
  [ {| msg_role := "system"; msg_content := system_prompt |};
    {| msg_role := "user"; msg_content := user_prompt |} ].

End azure_openai_client.
Export azure_openai_client.

(** ** [services/weaviate_client.py] *)

Module weaviate_client.
Section client.
Variable W : World.

(** [{k: v for k, v in doc.items() if k not in [id, vector]}] *)
Definition without_reserved (doc : gmap string value) : gmap string value :=
  filter (fun kv => kv.1 ∉ ["id"; "vector"]) doc.

(** The loop of [add_documents] over [zip(documents, vectors)]; [uuids] is
    the list accumulated so far. *)
Fixpoint add_documents_loop (pairs : list (gmap string value * list float))
    (uuids : list string) : M (list string) :=
  match pairs with
  | [] => ret uuids
  | (doc, vector) :: rest =>
      let properties := without_reserved doc in
      uuid <- extern (DataInsert properties vector)
                     (fun tr => insert_answer W tr properties vector) ;;
      add_documents_loop rest (uuids ++ [uuid])%list
  end.

Definition add_documents (documents : list (gmap string value))
    (vectors : list (list float)) : M (list string) :=
  log_and_reraise (add_documents_loop (zip documents vectors) []).

(** The dict appended to [results] for one returned object. *)
Definition search_result (item : QueryObject) : RetrievalResult := {|
  rr_content := default "" (prop_content (properties item));
  rr_metadata := {|
    md_filename := default "" (prop_filename (properties item));
    md_chunk_index := default 0 (prop_chunk_index (properties item));
    md_file_type := default "" (prop_file_type (properties item));
    md_upload_date := default "" (prop_upload_date (properties item));
    md_distance := match obj_metadata item with
                   | Some md => distance md
                   | None => None
                   end
  |};
  rr_score :=
    num_sub (NInt 1)
      match obj_metadata item with
      | Some md =>
          match distance md with
          | Some d => if float_truthy d then NFloat d else NInt 0
          | None => NInt 0
          end
      | None => NInt 0
      end
|}.

Definition similarity_search (query_vector : list float) (limit : Z)
  : M (list RetrievalResult) :=
  log_and_reraise (
    objects <- extern (QueryNearVector query_vector limit)
                      (fun tr => near_vector_answer W tr query_vector limit) ;;
    ret (map search_result objects)).

End client.
End weaviate_client.
Export weaviate_client.

(** ** [services/document_service.py] *)

Module document_service.

(** The dict returned by the two ingestion entry points.  The keys
    [success], [message], [filename] and [chunks_created] are in every
    returned dict; [file_size] and [document_ids] are [None] in a dict that
    has no such key. *)
Record IngestResult := {
  r_success : bool;
  r_message : string;
  r_filename : string;
  r_chunks_created : Z;
  r_file_size : option Z;
  r_document_ids : option (list string);
}.

Section service.
Variable W : World.

Definition load_document (file_path file_type : string) : M (list Document) :=
  log_and_reraise (
    loader <- (if String.eqb (str_lower W file_type) ".pdf" then ret PyPDFLoader
               else if String.eqb (str_lower W file_type) ".md"
                    then ret UnstructuredMarkdownLoader
               else if bool_decide (str_lower W file_type ∈ [".txt"; ".text"])
                    then ret TextLoader
               else raise (ValueError ("Unsupported file type: " +:+ file_type))) ;;
    documents <- extern (LoaderLoad loader file_path)
                        (fun tr => load_answer W tr loader file_path) ;;
    ret documents).

Definition split_documents (documents : list Document) : M (list Document) :=
  log_and_reraise (
    chunks <- extern (SplitDocuments documents)
                     (fun tr => split_documents_answer W tr documents) ;;
    ret chunks).

Definition process_text_content (text_content filename : string)
  : M (list Document) :=
  log_and_reraise (
    let document := {| page_content := text_content;
                       doc_metadata := {[ "source" := VStr filename ]} |} in
    chunks <- extern (SplitDocuments [document])
                     (fun tr => split_documents_answer W tr [document]) ;;
    ret chunks).

(** The loop that prepares the objects for Weaviate, over
    [enumerate(zip(chunks, embeddings))]. *)
Fixpoint weaviate_docs_loop (filename file_type : string)
    (pairs : list (Document * list float)) (i : Z)
    (weaviate_docs : list (gmap string value)) : M (list (gmap string value)) :=
  match pairs with
  | [] => ret weaviate_docs
  | (chunk, _) :: rest =>
      upload_date <- extern DatetimeNow (fun tr => inr (now_answer W tr)) ;;
      weaviate_docs_loop filename file_type rest (i + 1)
        (weaviate_docs ++
         [ <[ "content" := VStr (page_content chunk) ]>
           (<[ "filename" := VStr filename ]>
           (<[ "chunk_index" := VInt i ]>
           (<[ "file_type" := VStr file_type ]>
           (<[ "upload_date" := VStr upload_date ]> ∅)))) ])%list
  end.

(** [if not filename: filename = os.path.basename(file_path)] *)
Definition effective_filename (file_path : string) (filename : option string)
  : string :=
  match filename with
  | Some f => if str_truthy f then f else basename file_path
  | None => basename file_path
  end.

(** [filename] is rebound before anything can raise, so the handler sees the
    rebound name. *)
Definition ingest_document (file_path : string) (filename : option string)
  : M IngestResult :=
  let filename := effective_filename file_path filename in
  try_except (
    let file_type := snd (splitext filename) in
    file_size <- extern (PathGetsize file_path)
                        (fun tr => getsize_answer W tr file_path) ;;
    documents <- load_document file_path file_type ;;
    chunks <- split_documents documents ;;
    let chunk_texts := map page_content chunks in
    embeddings <- create_embeddings W chunk_texts ;;
    weaviate_docs <- weaviate_docs_loop filename file_type
                       (zip chunks embeddings) 0 [] ;;
    document_ids <- add_documents W weaviate_docs embeddings ;;
    ret {| r_success := true;
           r_message := "Successfully ingested " +:+ filename;
           r_filename := filename;
           r_chunks_created := Z.of_nat (length chunks);
           r_file_size := Some file_size;
           r_document_ids := Some document_ids |})
  (fun e =>
    ret {| r_success := false;
           r_message := "Failed to ingest document: " +:+ str_exn e;
           r_filename := filename;
           r_chunks_created := 0;
           r_file_size := None;
           r_document_ids := None |}).

Definition ingest_text_content (text_content filename : string)
  : M IngestResult :=
  try_except (
    chunks <- process_text_content text_content filename ;;
    let chunk_texts := map page_content chunks in
    embeddings <- create_embeddings W chunk_texts ;;
    weaviate_docs <- weaviate_docs_loop filename ".txt"
                       (zip chunks embeddings) 0 [] ;;
    document_ids <- add_documents W weaviate_docs embeddings ;;
    ret {| r_success := true;
           r_message := "Successfully ingested text content";
           r_filename := filename;
           r_chunks_created := Z.of_nat (length chunks);
           r_file_size := None;
           r_document_ids := Some document_ids |})
  (fun e =>
    ret {| r_success := false;
           r_message := "Failed to ingest text content: " +:+ str_exn e;
           r_filename := filename;
           r_chunks_created := 0;
           r_file_size := None;
           r_document_ids := None |}).

Definition retrieve_relevant_documents (query : string) (limit : option Z)
  : M (list RetrievalResult) :=
  log_and_reraise (
    let limit := match limit with
                 | None => max_retrieved_docs (settings W)
                 | Some l => l
                 end in
    query_embedding <- create_embedding W query ;;
    results <- similarity_search W query_embedding limit ;;
    ret results).

End service.
End document_service.
Export document_service.

(** ** [app/main.py] *)

Module main.

(** What [chat_stream] hands to the framework: a streaming body, run here to
    its end, or a JSON response. *)
Inductive ChatResult :=
| StreamingResponse (body : Gen sse_event unit)
| JSONResponse (r : ChatResponse).

Section app.
Variable W : World.

(** The two [except] clauses that close every ingestion endpoint. *)
Definition http_errors {A} (prefix : string) (m : M A) : M A :=
  try_except m (fun e =>
    if is_http e then raise e
    else raise (HTTPException 500 (prefix +:+ str_exn e))).

(** [result.get(document_ids, [None])[0] if result.get(document_ids) else None] *)
Definition first_document_id (result : IngestResult) : option string :=
  match r_document_ids result with
  | Some (first :: _) => Some first
  | _ => None
  end.

Definition ingest_text (request : IngestRequest) : M IngestResponse :=
  http_errors "Failed to ingest text: " (
    match text_content request with
    | None => raise (HTTPException 400 "Text content is required")
    | Some text =>
        if negb (str_truthy text)
        then raise (HTTPException 400 "Text content is required")
        else
          let filename :=
            match req_filename request with
            | Some f => if str_truthy f then f else "text_input"
            | None => "text_input"
            end in
          result <- ingest_text_content W text filename ;;
          if negb (r_success result)
          then raise (HTTPException 500 (r_message result))
          else ret {| success := true;
                      message := r_message result;
                      document_id := first_document_id result;
                      chunks_created := r_chunks_created result |}
    end).

Definition ingest_file (file : UploadFile) : M IngestResponse :=
  http_errors "Failed to ingest file: " (
    let file_extension := str_lower W (snd (splitext (upload_filename file))) in
    if negb (bool_decide (file_extension ∈ allowed_file_types (settings W)))
    then raise (HTTPException 400
           ("File type " +:+ file_extension +:+ " not supported. Allowed types: "
            +:+ repr_list (allowed_file_types (settings W))))
    else
      file_content <- extern (UploadRead file) (fun _ => inr (upload_body file)) ;;
      if (max_file_size (settings W) <? Z.of_nat (length file_content))%Z
      then raise (HTTPException 400
             ("File size exceeds maximum allowed size of "
              +:+ pretty (max_file_size (settings W)) +:+ " bytes"))
      else
        temp_file_path <- extern (TempFileWrite file_extension file_content)
          (fun tr => tempfile_answer W tr file_extension file_content) ;;
        try_finally (
          result <- ingest_document W temp_file_path (Some (upload_filename file)) ;;
          if negb (r_success result)
          then raise (HTTPException 500 (r_message result))
          else ret {| success := true;
                      message := r_message result;
                      document_id := first_document_id result;
                      chunks_created := r_chunks_created result |})
        (extern (OsUnlink temp_file_path)
                (fun tr => unlink_answer W tr temp_file_path))).

(** [messages[i]] *)
Definition getitem {A} (l : list A) (i : nat) : M A :=
  match l !! i with
  | Some a => ret a
  | None => raise (IndexError "list index out of range")
  end.

Definition history_message (msg : ChatMessage) : Message :=
  {| msg_role := cm_role msg; msg_content := cm_content msg |}.

(** The generator behind the streaming response. *)
Definition generate_response (relevant_docs : list RetrievalResult)
    (messages : list Message) : M (Gen sse_event unit) :=
  stream <- chat_completion_stream W messages
              (temperature (settings W)) (max_tokens (settings W)) ;;
  ret (gtry
         (let response_data :=
            map (fun doc => md_filename (rr_metadata doc)) relevant_docs in
          gyield (SourcesEvent response_data) ;;~
          for_each stream (fun chunk => gyield (ContentEvent chunk)) ;;~
          gyield DoneEvent)
         (fun e => gyield (ErrorEvent (str_exn e)))).

Definition chat_stream (request : ChatRequest) : M ChatResult :=
  try_except (
    relevant_docs <- retrieve_relevant_documents W (req_message request) None ;;
    let messages := create_rag_prompt (req_message request) relevant_docs in
    messages <-
      match conversation_history request with
      | Some ((_ :: _) as history) =>
          let history_messages := map history_message (slice_last 10 history) in
          first <- getitem messages 0 ;;
          second <- getitem messages 1 ;;
          ret ([first] ++ history_messages ++ [second])%list
      | _ => ret messages
      end ;;
    if req_stream request
    then
      body <- generate_response relevant_docs messages ;;
      ret (StreamingResponse body)
    else
      response_content <- chat_completion W messages
                            (temperature (settings W)) (max_tokens (settings W)) ;;
      ret (JSONResponse
             {| response := response_content;
                sources := map (fun doc => md_filename (rr_metadata doc)) relevant_docs;
                conversation_id := None |}))
  (fun e => raise (HTTPException 500 ("Chat failed: " +:+ str_exn e))).

End app.
End main.
Export main.

(** ** [app/main.py]: the connectivity test *)

Module azure_test.

(** The dict returned by [test_azure_openai]; a key that a return path
    leaves out is [None]. *)
Record TestResult := {
  t_status : string;
  t_azure_openai_chat_response : option string;
  t_embedding_dimensions : option Z;
  t_error : option string;
  t_test_message : string;
}.

(** [0.1] is the binary64 number 7205759403792794 * 2^-56. *)
Definition one_tenth : float := S754_finite false 7205759403792794 (-56).

Section app.
Variable W : World.

(** The body of the request is a dict with string values. *)
Definition test_azure_openai (request : gmap string string) : M TestResult :=
  try_except (
    let test_message :=
      default
        "Hello, this is a test message. Please respond with 'Azure OpenAI is working correctly!'"
        (request !! "message") in
    let messages :=
      [ {| msg_role := "system";
           msg_content := "You are a helpful assistant. Respond exactly as requested." |};
        {| msg_role := "user"; msg_content := test_message |} ] in
    response <- chat_completion W messages one_tenth 100 ;;
    test_embedding <- create_embeddings W [test_message] ;;
    ret {| t_status := "success";
           t_azure_openai_chat_response := Some response;
           t_embedding_dimensions :=
             Some match test_embedding with
                  | first :: _ => Z.of_nat (length first)
                  | [] => 0
                  end;
           t_error := None;
           t_test_message := test_message |})
  (fun e =>
    ret {| t_status := "error";
           t_azure_openai_chat_response := None;
           t_embedding_dimensions := None;
           t_error := Some (str_exn e);
           t_test_message :=
             default "Hello, this is a test message." (request !! "message") |}).

End app.
End azure_test.
Export azure_test.

(** ** A log monad over any call and exception type

    For the parts of the code that talk to collaborators outside the
    ingestion and chat paths. *)

Module logged.

Definition Run (C X A : Type) : Type := list C -> (X + A) * list C.

Definition done {C X A} (a : A) : Run C X A := fun tr => (inr a, tr).
Definition fail {C X A} (e : X) : Run C X A := fun tr => (inl e, tr).

Definition and_then {C X A B} (m : Run C X A) (k : A -> Run C X B) : Run C X B :=
  fun tr =>
    match m tr with
    | (inl e, tr') => (inl e, tr')
    | (inr a, tr') => k a tr'
    end.

(** [try: m except ... as e: h e] *)
Definition rescue {C X A} (m : Run C X A) (h : X -> Run C X A) : Run C X A :=
  fun tr =>
    match m tr with
    | (inl e, tr') => h e tr'
    | (inr a, tr') => (inr a, tr')
    end.

Definition ask {C X A} (c : C) (answer : list C -> X + A) : Run C X A :=
  fun tr => (answer tr, (tr ++ [c])%list).

End logged.
Export logged.

Notation "x <-- m ;; k" := (and_then m (fun x => k))
  (at level 100, m at next level, right associativity) : effect_scope.

(** ** [services/weaviate_client.py]: the collection, and the endpoints of
    [app/main.py] that only use it *)

Module weaviate_admin.

Inductive DataType := TEXT | INT | DATE.

Inductive store_call :=
| ConnectToLocal (host : string) (port : Z) (skip_init_checks : bool)
| CollectionsExists (name : string)
| CollectionsCreate (name : string) (properties : list (string * DataType))
| DataDeleteMany (name : string)
| AggregateOverAll (name : string)
| ClientClose.

(** Answers of the Weaviate server to these calls, and the version string of
    the settings. *)
Record Store := {
  app_version : string;
  connect_answer : list store_call -> exn + unit;
  exists_answer : list store_call -> string -> exn + bool;
  create_answer :
    list store_call -> string -> list (string * DataType) -> exn + unit;
  delete_many_answer : list store_call -> string -> exn + unit;
  aggregate_answer : list store_call -> string -> exn + Z;
  close_answer : list store_call -> exn + unit;
}.

Definition collection_name : string := "Documents".

(** The property schema of the collection; the vectorizer is none. *)
Definition schema : list (string * DataType) :=
  [ ("content", TEXT); ("filename", TEXT); ("chunk_index", INT);
    ("file_type", TEXT); ("upload_date", DATE) ].

Section client.
Variable S : Store.

Definition _create_collection_if_not_exists : Run store_call exn unit :=
  rescue (
    present <-- ask (CollectionsExists collection_name)
                    (fun tr => exists_answer S tr collection_name) ;;
    if negb present
    then ask (CollectionsCreate collection_name schema)
             (fun tr => create_answer S tr collection_name schema)
    else done tt)
  (fun e => fail e).

Definition _initialize_client : Run store_call exn unit :=
  rescue (
    _ <-- ask (ConnectToLocal "localhost" 8080 true) (connect_answer S) ;;
    _create_collection_if_not_exists)
  (fun e => fail e).

Definition delete_all_documents : Run store_call exn unit :=
  rescue (ask (DataDeleteMany collection_name)
              (fun tr => delete_many_answer S tr collection_name))
         (fun e => fail e).

Definition get_document_count : Run store_call exn Z :=
  rescue (
    total_count <-- ask (AggregateOverAll collection_name)
                        (fun tr => aggregate_answer S tr collection_name) ;;
    done total_count)
  (fun e => done 0).

(** [self.client] is [None] until the connection is made. *)
Definition close (client : option unit) : Run store_call exn unit :=
  match client with
  | Some _ => ask ClientClose (close_answer S)
  | None => done tt
  end.

(** *** Endpoints *)

Record Health := {
  h_status : string;
  h_weaviate_connected : bool;
  h_documents_count : Z;
  h_version : string;
}.

Definition health_check : Run store_call exn Health :=
  rescue (
    doc_count <-- get_document_count ;;
    done {| h_status := "healthy";
            h_weaviate_connected := true;
            h_documents_count := doc_count;
            h_version := app_version S |})
  (fun e => fail (HTTPException 503 ("Service unhealthy: " +:+ str_exn e))).

(** Returns the [message] of the response dict. *)
Definition clear_documents : Run store_call exn string :=
  rescue (
    _ <-- delete_all_documents ;;
    done "All documents cleared successfully")
  (fun e => fail (HTTPException 500 ("Failed to clear documents: " +:+ str_exn e))).

(** The endpoint [/documents/count]; returns the [count] of the response
    dict. *)
Definition documents_count : Run store_call exn Z :=
  rescue (
    count <-- get_document_count ;;
    done count)
  (fun e => fail (HTTPException 500 ("Failed to get document count: " +:+ str_exn e))).

End client.
End weaviate_admin.
Export weaviate_admin.

(** ** [app/heygen_routes.py] *)

Module heygen_routes.

(** A parsed JSON document; an object is the list of its items, with
    distinct keys. *)
#[warnings="-register-all"]
Inductive json :=
| JNull
| JBool (b : bool)
| JInt (z : Z)
| JFloat (x : float)
| JStr (s : string)
| JArr (items : list json)
| JObj (items : list (string * json)).

(** [type(v).__name__] *)
Definition type_name (v : json) : string :=
  match v with
  | JNull => "NoneType"
  | JBool _ => "bool"
  | JInt _ => "int"
  | JFloat _ => "float"
  | JStr _ => "str"
  | JArr _ => "list"
  | JObj _ => "dict"
  end.

Fixpoint items_get (key : string) (items : list (string * json)) : option json :=
  match items with
  | [] => None
  | (k, v) :: rest => if String.eqb k key then Some v else items_get key rest
  end.

(** What the handlers of this module tell apart: the exceptions of
    [requests], a failed attribute access, and the rest. *)
Inductive raised :=
| RequestException (msg : string)
| AttributeError (msg : string)
| Raised (e : exn).

Definition str_raised (e : raised) : string :=
  match e with
  | RequestException m => m
  | AttributeError m => m
  | Raised e => str_exn e
  end.

(** [v.get(key, fallback)]: only a dict has the method. *)
Definition json_get (v : json) (key : string) (fallback : json) : raised + json :=
  match v with
  | JObj items => inr (default fallback (items_get key items))
  | _ => inl (AttributeError
                ("'" +:+ type_name v +:+ "' object has no attribute 'get'"))
  end.

(** [requests.Response]: [response.json()] parses the body when called and
    raises a [requests] exception on a body that is not JSON. *)
Record Response := {
  status_code : Z;
  text : string;
  json_body : raised + json;
}.

Inductive http_call :=
| RequestsPost (url : string) (headers : list (string * string))
| RequestsGet (url : string) (headers : list (string * string)).

Record Heygen := {
  heygen_api_key : string;
  heygen_avatar_id : string;
  heygen_voice_id : string;
  post_answer :
    list http_call -> string -> list (string * string) -> raised + Response;
  get_answer :
    list http_call -> string -> list (string * string) -> raised + Response;
}.

Record Token := {
  tk_success : bool;
  tk_token : json;
  tk_expires_at : json;
}.

Record HeygenConfig := {
  avatar_id : string;
  voice_id : string;
}.

Section routes.
Variable H : Heygen.

Definition headers : list (string * string) :=
  [ ("x-api-key", heygen_api_key H); ("Content-Type", "application/json") ].

(** The two [except] clauses shared by the three routes. *)
Definition heygen_errors {A} (m : Run http_call raised A) : Run http_call raised A :=
  rescue m (fun e =>
    match e with
    | RequestException _ =>
        fail (Raised (HTTPException 500 ("Network error: " +:+ str_raised e)))
    | _ =>
        fail (Raised (HTTPException 500 ("Internal error: " +:+ str_raised e)))
    end).

Definition lift_result {A} (r : raised + A) : Run http_call raised A :=
  match r with
  | inl e => fail e
  | inr a => done a
  end.

Definition create_heygen_token : Run http_call raised Token :=
  heygen_errors (
    let url := "https://api.heygen.com/v1/streaming.create_token" in
    response <-- ask (RequestsPost url headers)
                     (fun tr => post_answer H tr url headers) ;;
    if (status_code response =? 200)%Z
    then
      data <-- lift_result (json_body response) ;;
      inner <-- lift_result (json_get data "data" (JObj [])) ;;
      token <-- lift_result (json_get inner "token" JNull) ;;
      inner' <-- lift_result (json_get data "data" (JObj [])) ;;
      expires_at <-- lift_result (json_get inner' "expires_at" JNull) ;;
      done {| tk_success := true; tk_token := token; tk_expires_at := expires_at |}
    else
      fail (Raised (HTTPException (status_code response)
                      ("Failed to create HeyGen token: " +:+ text response)))).

Definition list_avatars : Run http_call raised json :=
  heygen_errors (
    let url := "https://api.heygen.com/v2/avatars" in
    response <-- ask (RequestsGet url headers)
                     (fun tr => get_answer H tr url headers) ;;
    if (status_code response =? 200)%Z
    then lift_result (json_body response)
    else
      fail (Raised (HTTPException (status_code response)
                      ("Failed to list avatars: " +:+ text response)))).

Definition list_voices : Run http_call raised json :=
  heygen_errors (
    let url := "https://api.heygen.com/v2/voices" in
    response <-- ask (RequestsGet url headers)
                     (fun tr => get_answer H tr url headers) ;;
    if (status_code response =? 200)%Z
    then lift_result (json_body response)
    else
      fail (Raised (HTTPException (status_code response)
                      ("Failed to list voices: " +:+ text response)))).

Definition get_heygen_config : HeygenConfig :=
  {| avatar_id := heygen_avatar_id H; voice_id := heygen_voice_id H |}.

End routes.
End heygen_routes.
Export heygen_routes.

(** ** A scripted world for running the code on concrete requests *)

Module scenario.

Definition half : float := S754_finite false 4503599627370496 (-53).
Definition quarter : float := S754_finite false 4503599627370496 (-54).

Definition text_chunk (s : option string) : ChatCompletionChunk :=
  {| chunk_choices := [ {| delta := {| delta_content := s |} |} ] |}.
Definition keep_alive : ChatCompletionChunk := {| chunk_choices := [] |}.

Definition stored (content filename : string) (i : Z) (d : option MetadataReturn)
  : QueryObject :=
  {| properties := {| prop_content := Some content;
                      prop_filename := Some filename;
                      prop_chunk_index := Some i;
                      prop_file_type := Some ".md";
                      prop_upload_date := Some "2024-05-01T10:00:00Z" |};
     obj_metadata := d |}.

Definition hits : list QueryObject :=
  [ stored "Install with pip." "guide.md" 0 (Some {| distance := Some (S754_zero false) |});
    stored "Run the server." "guide.md" 1 (Some {| distance := Some quarter |});
    stored "Licence: MIT." "about.md" 0 (Some {| distance := None |});
    stored "Contact us." "about.md" 1 None ].

(** The splitter keeps a short document as one chunk and gives no chunk for
    a document that is only whitespace; the embedding service refuses an
    empty batch and otherwise answers one vector per text; the store numbers
    its identifiers by the position of the call in the log. *)
Definition scripted (upstream : exn + Gen ChatCompletionChunk unit) : World := {|
  settings := default_settings;
  str_lower := ascii_lower;
  split_documents_answer := fun _ docs =>
    inr (List.filter (fun d => negb (all_space (page_content d))) docs);
  embeddings_answer := fun _ texts =>
    match texts with
    | [] => inl (ExternalError "Error code: 400 - input must not be empty")
    | _ => inr {| data := map (fun t =>
                    {| embedding := [float_of_Z (Z.of_nat (String.length t))] |}) texts |}
    end;
  chat_stream_answer := fun _ _ _ _ => upstream;
  chat_answer := fun _ _ _ _ =>
    inr {| choices := [ {| choice_message := {| message_content := Some "Hello" |} |} ] |};
  insert_answer := fun tr _ _ => inr ("uuid-" +:+ pretty (length tr));
  near_vector_answer := fun _ _ _ => inr hits;
  load_answer := fun _ _ _ =>
    inr [ {| page_content := "Quarterly figures."; doc_metadata := ∅ |} ];
  getsize_answer := fun _ _ => inr 2048;
  tempfile_answer := fun _ suffix _ => inr ("/tmp/tmpk3x9" +:+ suffix);
  unlink_answer := fun _ _ => inr tt;
  now_answer := fun _ => "2024-05-02T08:30:00Z";
|}.

Definition fluent : exn + Gen ChatCompletionChunk unit :=
  inr ([ text_chunk (Some "Use "); text_chunk None; keep_alive; text_chunk (Some "pip.") ],
       inr tt).

Definition broken : exn + Gen ChatCompletionChunk unit :=
  inr ([ text_chunk (Some "Use ") ], inl (ExternalError "Connection reset by peer")).

Definition calm : World := scripted fluent.
Definition flaky : World := scripted broken.

Definition turn (n : nat) : ChatMessage :=
  {| cm_role := if Nat.even n then "user" else "assistant";
     cm_content := "turn " +:+ pretty n;
     cm_timestamp := None |}.

Definition fifteen_turns : list ChatMessage := map turn (seq 0 15).

Definition long_chat : ChatRequest :=
  {| req_message := "How do I install it?";
     conversation_history := Some fifteen_turns;
     req_stream := true |}.

Definition blank_text : IngestRequest :=
  {| text_content := Some "   "; req_filename := None |}.

Definition note_text : IngestRequest :=
  {| text_content := Some "Install with pip."; req_filename := Some "note" |}.

(** Objects for the store; the second carries a reserved key. *)
Definition plain_doc (content : string) (i : Z) : gmap string value :=
  <[ "content" := VStr content ]> (<[ "chunk_index" := VInt i ]> ∅).

Definition three_docs : list (gmap string value) :=
  [ plain_doc "alpha" 0;
    <[ "id" := VStr "caller-chosen" ]> (plain_doc "beta" 1);
    plain_doc "gamma" 2 ].

Definition two_docs : list (gmap string value) := firstn 2 three_docs.

Definition two_vectors : list (list float) := [ [half]; [quarter; half] ].

Definition docx_upload : UploadFile :=
  {| upload_filename := "report.docx"; upload_body := [Byte.x50; Byte.x4b] |}.

Definition exe_upload : UploadFile :=
  {| upload_filename := "setup.EXE"; upload_body := [Byte.x4d; Byte.x5a] |}.

End scenario.

(** ** Vocabulary of the properties *)

Module props.

(** [parts] occur in [s] one after the other, without overlap. *)
Fixpoint occurs_in_order (parts : list string) (s : string) : Prop :=
  match parts with
  | [] => True
  | p :: rest => exists before after, s = before +:+ p +:+ after /\ occurs_in_order rest after
  end.

(** The file types for which [load_document] has a loader. *)
Definition supported_file_type (W : World) (file_type : string) : Prop :=
  str_lower W file_type ∈ [".pdf"; ".md"; ".txt"; ".text"].

(** Calls that load, chunk, embed or store. *)
Definition processing_call (c : call) : bool :=
  match c with
  | LoaderLoad _ _ | SplitDocuments _ | EmbeddingsCreate _ _ | DataInsert _ _ => true
  | _ => false
  end.

Definition embedding_call (c : call) : bool :=
  match c with
  | EmbeddingsCreate _ _ => true
  | _ => false
  end.

(** The fragments a chunk of the upstream contributes: none or one. *)
Definition fragments (chunks : list ChatCompletionChunk) : list string :=
  flat_map (fun c => yielded (stream_chunk c)) chunks.

(** What the result built for an object of the store must say, given the
    distance the store reports for that object: with a distance [d] the
    score is [1 - d] and the result repeats [d]; with no metadata or no
    distance the score is the int [1] and the result reports no distance. *)
Definition score_follows_store (item : QueryObject) (r : RetrievalResult) : Prop :=
  match obj_metadata item with
  | Some md =>
      match distance md with
      | Some d =>
          to_float (rr_score r) = fsub (float_of_Z 1) d /\
          md_distance (rr_metadata r) = Some d
      | None => rr_score r = NInt 1 /\ md_distance (rr_metadata r) = None
      end
  | None => rr_score r = NInt 1 /\ md_distance (rr_metadata r) = None
  end.

(** The store accepts every insert. *)
Definition store_accepts (W : World) : Prop :=
  forall tr properties vector, exists uuid, insert_answer W tr properties vector = inr uuid.

(** The identifiers the store generated for [pairs], inserted one after the
    other from the log [tr] on. *)
Inductive inserted (W : World)
  : list call -> list (gmap string value * list float) -> list string -> list call -> Prop :=
| inserted_nil tr : inserted W tr [] [] tr
| inserted_cons tr doc vector rest uuid uuids tr' :
    insert_answer W tr (without_reserved doc) vector = inr uuid ->
    inserted W (tr ++ [DataInsert (without_reserved doc) vector])%list rest uuids tr' ->
    inserted W tr ((doc, vector) :: rest) (uuid :: uuids) tr'.

(** The log entry of the insert of one pair. *)
Definition insert_of (pair : gmap string value * list float) : call :=
  DataInsert (without_reserved pair.1) pair.2.

(** A computation only appends to the log. *)
Definition grows {A} (m : M A) : Prop :=
  forall tr, exists new, log_after m tr = (tr ++ new)%list.

End props.
Export props.

(** ** More scripted collaborators *)

Module scenario_more.

(** As [scenario.calm], with an upload limit of four bytes. *)
Definition strict : World := {|
  settings := {|
    azure_openai_deployment_name := "gpt-35-turbo";
    azure_openai_embedding_deployment := "text-embedding-ada-002";
    max_file_size := 4;
    allowed_file_types := [".pdf"; ".txt"; ".md"; ".docx"];
    chunk_size := 1000;
    chunk_overlap := 200;
    max_retrieved_docs := 5;
    temperature := temperature default_settings;
    max_tokens := 1000;
  |};
  str_lower := ascii_lower;
  split_documents_answer := split_documents_answer scenario.calm;
  embeddings_answer := embeddings_answer scenario.calm;
  chat_stream_answer := chat_stream_answer scenario.calm;
  chat_answer := chat_answer scenario.calm;
  insert_answer := insert_answer scenario.calm;
  near_vector_answer := near_vector_answer scenario.calm;
  load_answer := load_answer scenario.calm;
  getsize_answer := getsize_answer scenario.calm;
  tempfile_answer := tempfile_answer scenario.calm;
  unlink_answer := unlink_answer scenario.calm;
  now_answer := now_answer scenario.calm;
|}.

(** As [scenario.calm], but the embedding service answers one vector less
    than it was sent texts, and the splitter cuts a document in two halves. *)
Definition short_changed : World := {|
  settings := default_settings;
  str_lower := ascii_lower;
  split_documents_answer := fun _ docs =>
    inr (flat_map (fun d =>
           let n := Nat.div2 (String.length (page_content d)) in
           [ {| page_content := substring 0 n (page_content d);
                doc_metadata := doc_metadata d |};
             {| page_content := substring n (String.length (page_content d) - n)
                                  (page_content d);
                doc_metadata := doc_metadata d |} ]) docs);
  embeddings_answer := fun _ texts =>
    inr {| data := map (fun t => {| embedding := [scenario.half] |}) (tail texts) |};
  chat_stream_answer := chat_stream_answer scenario.calm;
  chat_answer := chat_answer scenario.calm;
  insert_answer := insert_answer scenario.calm;
  near_vector_answer := near_vector_answer scenario.calm;
  load_answer := load_answer scenario.calm;
  getsize_answer := getsize_answer scenario.calm;
  tempfile_answer := tempfile_answer scenario.calm;
  unlink_answer := unlink_answer scenario.calm;
  now_answer := now_answer scenario.calm;
|}.

(** As [scenario.calm], but the store refuses the insert that would be the
    second entry of the log, and the vector search is down. *)
Definition refusing : World := {|
  settings := default_settings;
  str_lower := ascii_lower;
  split_documents_answer := split_documents_answer scenario.calm;
  embeddings_answer := embeddings_answer scenario.calm;
  chat_stream_answer := chat_stream_answer scenario.calm;
  chat_answer := chat_answer scenario.calm;
  insert_answer := fun tr _ _ =>
    if (length tr =? 1)%nat then inl (ExternalError "store is read-only")
    else inr ("uuid-" +:+ pretty (length tr));
  near_vector_answer := fun _ _ _ => inl (ExternalError "connection refused");
  load_answer := load_answer scenario.calm;
  getsize_answer := getsize_answer scenario.calm;
  tempfile_answer := tempfile_answer scenario.calm;
  unlink_answer := unlink_answer scenario.calm;
  now_answer := now_answer scenario.calm;
|}.

Definition pdf_upload : UploadFile :=
  {| upload_filename := "Report.PDF";
     upload_body := [Byte.x25; Byte.x50; Byte.x44; Byte.x46; Byte.x2d] |}.

Definition small_pdf_upload : UploadFile :=
  {| upload_filename := "Report.PDF"; upload_body := [Byte.x25; Byte.x50] |}.

Definition short_chat : ChatRequest :=
  {| req_message := "How do I install it?";
     conversation_history := Some (map scenario.turn (seq 0 3));
     req_stream := false |}.

(** Whether the log holds the creation of the collection [name]. *)
Definition created (name : string) (tr : list store_call) : bool :=
  existsb (fun c => match c with
                    | CollectionsCreate n _ => String.eqb n name
                    | _ => false
                    end) tr.

(** A server that holds the collections created so far and 12 objects. *)
Definition server : Store := {|
  app_version := "1.0.0";
  connect_answer := fun _ => inr tt;
  exists_answer := fun tr name => inr (created name tr);
  create_answer := fun _ _ _ => inr tt;
  delete_many_answer := fun _ _ => inr tt;
  aggregate_answer := fun _ _ => inr 12;
  close_answer := fun _ => inr tt;
|}.

(** A server that cannot be reached. *)
Definition unreachable : Store := {|
  app_version := "1.0.0";
  connect_answer := fun _ => inl (ExternalError "Connection refused");
  exists_answer := fun _ _ => inl (ExternalError "Connection refused");
  create_answer := fun _ _ _ => inl (ExternalError "Connection refused");
  delete_many_answer := fun _ _ => inl (ExternalError "Connection refused");
  aggregate_answer := fun _ _ => inl (ExternalError "Connection refused");
  close_answer := fun _ => inl (ExternalError "Connection refused");
|}.

(** The avatar service answering every request with [response]. *)
Definition avatar_service (response : raised + Response) : Heygen := {|
  heygen_api_key := "key-123";
  heygen_avatar_id := "default";
  heygen_voice_id := "default";
  post_answer := fun _ _ _ => response;
  get_answer := fun _ _ _ => response;
|}.

Definition unauthorized : Response :=
  {| status_code := 401;
     text := "Unauthorized";
     json_body := inl (RequestException "Expecting value: line 1 column 1 (char 0)") |}.

Definition token_issued : Response :=
  {| status_code := 200;
     text := "...";
     json_body := inr (JObj [ ("error", JNull);
                              ("data", JObj [ ("token", JStr "tok-9f2c") ]) ]) |}.

Definition null_data : Response :=
  {| status_code := 200;
     text := "...";
     json_body := inr (JObj [ ("data", JNull) ]) |}.

End scenario_more.

(** ** More vocabulary *)

Module props_more.

(** A computation only appends calls that satisfy [P]. *)
Definition emits {A} (P : call -> bool) (m : M A) : Prop :=
  forall tr, exists new, log_after m tr = (tr ++ new)%list /\ forallb P new = true.

(** Calls of the raw-text pipeline. *)
Definition text_pipeline_call (c : call) : bool :=
  match c with
  | SplitDocuments _ | EmbeddingsCreate _ _ | DatetimeNow | DataInsert _ _ => true
  | _ => false
  end.

(** Calls of the file pipeline: the above, the size query and the loader. *)
Definition file_pipeline_call (c : call) : bool :=
  match c with
  | PathGetsize _ | LoaderLoad _ _ => true
  | _ => text_pipeline_call c
  end.

(** Calls that only read: embedding, search, generation. *)
Definition chat_call (c : call) : bool :=
  match c with
  | EmbeddingsCreate _ _ | QueryNearVector _ _ | ChatCompletionsCreate _ _ _ _ _ => true
  | _ => false
  end.

(** Calls of the retrieval step: embedding and search. *)
Definition retrieval_call (c : call) : bool :=
  match c with
  | EmbeddingsCreate _ _ | QueryNearVector _ _ => true
  | _ => false
  end.

(** The loader that goes with a file type: by the lower-cased extension. *)
Definition loader_of (W : World) (file_type : string) (loader : Loader) : Prop :=
  str_lower W file_type = ".pdf" /\ loader = PyPDFLoader \/
  str_lower W file_type = ".md" /\ loader = UnstructuredMarkdownLoader \/
  (str_lower W file_type = ".txt" \/ str_lower W file_type = ".text") /\
    loader = TextLoader.

(** The objects a pipeline hands to the store for the pairs of chunks and
    vectors: object [k] holds the content of chunk [k], the name and the
    type of the file, the index [k] and the time read for it, the first
    reading being made on the log [tr]. *)
Definition prepared_objects (W : World) (filename file_type : string)
    (tr : list call) (pairs : list (Document * list float))
  : list (gmap string value) :=
  imap (fun k (pair : Document * list float) =>
          <[ "content" := VStr (page_content pair.1) ]>
          (<[ "filename" := VStr filename ]>
          (<[ "chunk_index" := VInt (Z.of_nat k) ]>
          (<[ "file_type" := VStr file_type ]>
          (<[ "upload_date" :=
                VStr (now_answer W (tr ++ replicate k DatetimeNow)%list) ]>
             (∅ : gmap string value))))))
       pairs.

(** No oracle of the file system raises an HTTP error of its own. *)
Definition plain_file_errors (W : World) : Prop :=
  (forall tr suffix body e,
     tempfile_answer W tr suffix body = inl e -> is_http e = false) /\
  (forall tr path e, unlink_answer W tr path = inl e -> is_http e = false).

(** The error an endpoint raises is an HTTP error of one of the statuses. *)
Definition http_status_in (statuses : list Z) (e : exn) : Prop :=
  exists status detail, e = HTTPException status detail /\ status ∈ statuses.

(** The server answers [exists] by what was created before, and accepts
    every creation. *)
Definition remembers (S : Store) : Prop :=
  (forall tr name, exists_answer S tr name = inr (scenario_more.created name tr)) /\
  (forall tr name properties, create_answer S tr name properties = inr tt).

End props_more.
Export props_more.

(** * Properties *)

(** ** The Python helpers on examples *)

Example splitext_plain : splitext "notes.docx" = ("notes", ".docx").
Proof. reflexivity. Qed.
Example splitext_dotfile : splitext "/tmp/.bashrc" = ("/tmp/.bashrc", "").
Proof. reflexivity. Qed.
Example splitext_two : splitext "a.b/c.tar.GZ" = ("a.b/c.tar", ".GZ").
Proof. reflexivity. Qed.
Example splitext_none : splitext "a.b/c" = ("a.b/c", "").
Proof. reflexivity. Qed.
Example lower_mixed : ascii_lower ".PdF" = ".pdf".
Proof. reflexivity. Qed.
Example basename_tmp : basename "/tmp/tmpk3x9.docx" = "tmpk3x9.docx".
Proof. reflexivity. Qed.
Example slice_last_short : slice_last 10 [1; 2; 3] = [1; 2; 3].
Proof. reflexivity. Qed.
Example system_prompt_length : String.length system_prompt = 269%nat.
Proof. reflexivity. Qed.
Example one_minus_quarter :
  fsub (float_of_Z 1) scenario.quarter = S754_finite false 6755399441055744 (-53).
Proof. reflexivity. Qed.

(** ** Strings *)

Lemma append_assoc (a b c : string) : (a +:+ b) +:+ c = a +:+ (b +:+ c).
Proof.
  induction a as [|x a IH]; [reflexivity |].
  change (String x ((a +:+ b) +:+ c) = String x (a +:+ (b +:+ c))).
  now rewrite IH.
Qed.

Lemma occurs_skip (a : string) parts s :
  occurs_in_order parts s -> occurs_in_order parts (a +:+ s).
Proof.
  destruct parts as [|p rest]; simpl; [trivial |].
  intros (before & after & -> & Hrest).
  exists (a +:+ before), after. split; [| exact Hrest].
  now rewrite append_assoc.
Qed.

Lemma occurs_here p rest s :
  occurs_in_order rest s -> occurs_in_order (p :: rest) (p +:+ s).
Proof. intros H. simpl. exists "", s. split; [reflexivity | exact H]. Qed.

Lemma occurs_entry doc rest s :
  occurs_in_order rest s ->
  occurs_in_order (md_filename (rr_metadata doc) :: rr_content doc :: rest)
                  (context_entry doc +:+ s).
Proof.
  intros H. unfold context_entry. rewrite !append_assoc.
  apply occurs_skip, occurs_here, occurs_skip, occurs_skip, occurs_here, H.
Qed.

Lemma occurs_context docs rest s :
  occurs_in_order rest s ->
  occurs_in_order
    (flat_map (fun d => [md_filename (rr_metadata d); rr_content d]) docs ++ rest)%list
    (join (nl +:+ nl) (map context_entry docs) +:+ s).
Proof.
  intros H. induction docs as [|d ds IH]; [exact H |].
  destruct ds as [|d' ds].
  - apply (occurs_entry d rest s H).
  - change (join (nl +:+ nl) (map context_entry (d :: d' :: ds)))
      with (context_entry d +:+ (nl +:+ nl) +:+ join (nl +:+ nl) (map context_entry (d' :: ds))).
    rewrite !append_assoc.
    change (flat_map (fun d => [md_filename (rr_metadata d); rr_content d]) (d :: d' :: ds) ++ rest)%list
      with (md_filename (rr_metadata d) :: rr_content d ::
            (flat_map (fun d => [md_filename (rr_metadata d); rr_content d]) (d' :: ds) ++ rest))%list.
    apply occurs_entry. rewrite <- append_assoc. apply occurs_skip, IH.
Qed.

(** ** The effect monad *)

Lemma log_and_reraise_id {A} (m : M A) tr : log_and_reraise m tr = m tr.
Proof.
  unfold log_and_reraise, try_except, raise.
  destruct (m tr) as [[e | a] tr']; reflexivity.
Qed.

Lemma bind_run {A B} (m : M A) (k : A -> M B) tr :
  bind m k tr = match m tr with
                | (inl e, tr') => (inl e, tr')
                | (inr a, tr') => k a tr'
                end.
Proof. reflexivity. Qed.

Lemma try_except_run {A} (m : M A) (h : exn -> M A) tr :
  try_except m h tr = match m tr with
                      | (inl e, tr') => h e tr'
                      | (inr a, tr') => (inr a, tr')
                      end.
Proof. reflexivity. Qed.

Lemma for_items_yield {E A} (f : A -> E) (items : list A) :
  for_items items (fun a => gyield (f a)) = (map f items, inr tt).
Proof.
  induction items as [|a rest IH]; [reflexivity |].
  simpl. rewrite IH. reflexivity.
Qed.

(** ** Embedding gateway *)

(** C9: [create_embedding text] is the first element of
    [create_embeddings [text]]: it makes the same call, hands on the same
    exception, and returns the first vector of the batch result (an empty
    batch result makes the indexing fail). *)
Theorem C9_create_embedding_first (W : World) (text : string) (tr : list call) :
  create_embedding W text tr =
  match create_embeddings W [text] tr with
  | (inr (first :: _), tr') => (inr first, tr')
  | (inr [], tr') => (inl (IndexError "list index out of range"), tr')
  | (inl e, tr') => (inl e, tr')
  end.
Proof.
  unfold create_embedding, bind.
  destruct (create_embeddings W [text] tr) as [[e | [| first rest]] tr']; reflexivity.
Qed.

(** C2: whenever [similarity_search] returns, the store answered the query
    with a list of objects and the results are built one per object, in the
    order of the store: for an object the store reports a distance [d] for,
    the score of its result is [1 - d], and for an object without metadata
    or without a distance the score is [1]. *)
Theorem C2_score_derivation (W : World) (query_vector : list float) (limit : Z)
    (tr tr' : list call) (results : list RetrievalResult) :
  similarity_search W query_vector limit tr = (inr results, tr') ->
  exists objects,
    near_vector_answer W tr query_vector limit = inr objects /\
    Forall2 score_follows_store objects results.
Proof.
  unfold similarity_search. rewrite log_and_reraise_id.
  unfold bind, extern, ret.
  destruct (near_vector_answer W tr query_vector limit) as [e | objects]; [discriminate |].
  intros [= <- _]. exists objects. split; [reflexivity |].
  induction objects as [| item objects IH]; [constructor |].
  cbn [map]. constructor; [| exact IH].
  unfold score_follows_store, search_result. cbn.
  destruct (obj_metadata item) as [[[d |]] |]; [| split; reflexivity ..].
  destruct d; split; reflexivity.
Qed.

Lemma C2_score_derivation_witness :
  similarity_search scenario.calm [] 5 [] =
    (inr [ {| rr_content := "Install with pip.";
              rr_metadata := {| md_filename := "guide.md"; md_chunk_index := 0;
                                md_file_type := ".md";
                                md_upload_date := "2024-05-01T10:00:00Z";
                                md_distance := Some (S754_zero false) |};
              rr_score := NInt 1 |};
           {| rr_content := "Run the server.";
              rr_metadata := {| md_filename := "guide.md"; md_chunk_index := 1;
                                md_file_type := ".md";
                                md_upload_date := "2024-05-01T10:00:00Z";
                                md_distance := Some scenario.quarter |};
              rr_score := NFloat (S754_finite false 6755399441055744 (-53)) |};
           {| rr_content := "Licence: MIT.";
              rr_metadata := {| md_filename := "about.md"; md_chunk_index := 0;
                                md_file_type := ".md";
                                md_upload_date := "2024-05-01T10:00:00Z";
                                md_distance := None |};
              rr_score := NInt 1 |};
           {| rr_content := "Contact us.";
              rr_metadata := {| md_filename := "about.md"; md_chunk_index := 1;
                                md_file_type := ".md";
                                md_upload_date := "2024-05-01T10:00:00Z";
                                md_distance := None |};
              rr_score := NInt 1 |} ],
     [QueryNearVector [] 5]) /\
  exists objects,
    near_vector_answer scenario.calm [] [] 5 = inr objects /\
    Forall2 score_follows_store objects
      [ {| rr_content := "Install with pip.";
           rr_metadata := {| md_filename := "guide.md"; md_chunk_index := 0;
                             md_file_type := ".md";
                             md_upload_date := "2024-05-01T10:00:00Z";
                             md_distance := Some (S754_zero false) |};
           rr_score := NInt 1 |};
        {| rr_content := "Run the server.";
           rr_metadata := {| md_filename := "guide.md"; md_chunk_index := 1;
                             md_file_type := ".md";
                             md_upload_date := "2024-05-01T10:00:00Z";
                             md_distance := Some scenario.quarter |};
           rr_score := NFloat (S754_finite false 6755399441055744 (-53)) |};
        {| rr_content := "Licence: MIT.";
           rr_metadata := {| md_filename := "about.md"; md_chunk_index := 0;
                             md_file_type := ".md";
                             md_upload_date := "2024-05-01T10:00:00Z";
                             md_distance := None |};
           rr_score := NInt 1 |};
        {| rr_content := "Contact us.";
           rr_metadata := {| md_filename := "about.md"; md_chunk_index := 1;
                             md_file_type := ".md";
                             md_upload_date := "2024-05-01T10:00:00Z";
                             md_distance := None |};
           rr_score := NInt 1 |} ].
Proof.
  split; [vm_compute; reflexivity |].
  apply (C2_score_derivation scenario.calm [] 5 [] [QueryNearVector [] 5]).
  vm_compute. reflexivity.
Defined.

(** ** Prompt assembly *)

(** C6: [create_rag_prompt] returns exactly two messages: the system message
    with the fixed instructions, three lines of text that depend neither on
    the query nor on the chunks, then a user message in which the filename
    and the content of every context chunk occur in the order of the chunks,
    followed by the query as given.  ["010"] is the newline character. *)
Theorem C6_create_rag_prompt_shape (query : string) (context_docs : list RetrievalResult) :
  exists user_prompt,
    create_rag_prompt query context_docs =
      [ {| msg_role := "system";
           msg_content :=
             "You are a helpful AI assistant that answers questions based on the provided context. "
             +:+ String "010"%char
             ("        Use the context documents to answer the user's question. If the answer cannot be found in the context, "
              +:+ String "010"%char
              "        say so clearly. Always cite the source documents when possible.") |};
        {| msg_role := "user"; msg_content := user_prompt |} ] /\
    occurs_in_order
      (flat_map (fun d => [md_filename (rr_metadata d); rr_content d]) context_docs
       ++ [query])%list
      user_prompt.
Proof.
  eexists. split; [reflexivity |].
  apply occurs_skip, occurs_skip, occurs_context.
  apply occurs_skip, occurs_skip, occurs_skip, occurs_here. exact I.
Qed.

(** ** Streaming chat *)

Lemma for_each_yield {E A} (f : A -> E) (it : Gen A unit) :
  for_each it (fun a => gyield (f a)) = (map f (yielded it), stopped it).
Proof.
  destruct it as [items [e | []]]; unfold for_each, yielded, stopped; simpl;
    rewrite for_items_yield; simpl; rewrite app_nil_r; reflexivity.
Qed.

Lemma for_items_stream_chunk (chunks : list ChatCompletionChunk) :
  for_items chunks stream_chunk = (fragments chunks, inr tt).
Proof.
  induction chunks as [|c rest IH]; [reflexivity |].
  unfold fragments in *. simpl. rewrite IH. unfold stream_chunk, yielded.
  destruct (chunk_choices c) as [|first others]; [reflexivity |].
  destruct (delta_content (delta first)); reflexivity.
Qed.

Lemma for_each_stream_chunk (upstream : Gen ChatCompletionChunk unit) :
  for_each upstream stream_chunk = (fragments (yielded upstream), stopped upstream).
Proof.
  destruct upstream as [chunks [e | []]]; unfold for_each, yielded, stopped; simpl;
    rewrite for_items_stream_chunk; simpl; rewrite app_nil_r; reflexivity.
Qed.

(** The generator of the gateway: the fragments of the upstream chunks, in
    their order, and the way the upstream stopped. *)
Lemma chat_completion_stream_run (W : World) messages temperature max_tokens tr :
  chat_completion_stream W messages temperature max_tokens tr =
  (inr match chat_stream_answer W tr messages temperature max_tokens with
       | inl e => ([], inl e)
       | inr upstream => (fragments (yielded upstream), stopped upstream)
       end,
   (tr ++ [ChatCompletionsCreate (azure_openai_deployment_name (settings W))
             messages temperature max_tokens true])%list).
Proof.
  unfold chat_completion_stream, bind, attempt, extern, ret.
  destruct (chat_stream_answer W tr messages temperature max_tokens) as [e | upstream].
  - reflexivity.
  - unfold gbind at 1, gret at 1. rewrite for_each_stream_chunk.
    destruct (stopped upstream) as [e | u] eqn:Hstop; simpl;
      rewrite ?app_nil_r; reflexivity.
Qed.

(** C4: the events of a streaming chat response are, in this order: one
    sources event with the filename of every retrieval result (one entry per
    result, repeats kept), one content event per fragment in arrival order,
    and then either the [DONE] sentinel, when the upstream ended normally,
    or one error event with the failure message, when the upstream failed;
    nothing follows the error event. *)
Theorem C4_stream_events (W : World) (relevant_docs : list RetrievalResult)
    (messages : list Message) (tr : list call) :
  exists stream tr',
    chat_completion_stream W messages
      (temperature (settings W)) (max_tokens (settings W)) tr = (inr stream, tr') /\
    stream =
      match chat_stream_answer W tr messages
              (temperature (settings W)) (max_tokens (settings W)) with
      | inl e => ([], inl e)
      | inr upstream => (fragments (yielded upstream), stopped upstream)
      end /\
    generate_response W relevant_docs messages tr =
      (inr ((SourcesEvent (map (fun doc => md_filename (rr_metadata doc)) relevant_docs)
             :: map ContentEvent (yielded stream)
             ++ [ match stopped stream with
                  | inr _ => DoneEvent
                  | inl e => ErrorEvent (str_exn e)
                  end ])%list,
            inr tt),
       tr').
Proof.
  eexists _, _. split; [apply chat_completion_stream_run |]. split; [reflexivity |].
  unfold generate_response, bind. rewrite chat_completion_stream_run. unfold ret.
  f_equal. f_equal.
  rewrite for_each_yield.
  set (stream := match chat_stream_answer W tr messages _ _ with
                 | inl e => _
                 | inr upstream => _
                 end).
  destruct stream as [fs [e | []]]; unfold yielded, stopped; simpl;
    rewrite ?app_nil_r; reflexivity.
Qed.

(** A streaming request whose retrieval succeeded is answered with the run
    of [generate_response] on the retrieval results. *)
Lemma chat_stream_streaming (W : World) (request : ChatRequest) tr relevant_docs tr1 :
  req_stream request = true ->
  retrieve_relevant_documents W (req_message request) None tr = (inr relevant_docs, tr1) ->
  exists messages body tr',
    generate_response W relevant_docs messages tr1 = (inr body, tr') /\
    chat_stream W request tr = (inr (StreamingResponse body), tr').
Proof.
  intros Hstream Hdocs. unfold chat_stream.
  rewrite try_except_run, bind_run, Hdocs, bind_run, Hstream.
  assert (Hgen : forall messages, exists body tr',
            generate_response W relevant_docs messages tr1 = (inr body, tr')).
  { intros messages. unfold generate_response.
    rewrite bind_run, chat_completion_stream_run. unfold ret. eauto. }
  destruct (conversation_history request) as [[|first_turn turns] |].
  - destruct (Hgen (create_rag_prompt (req_message request) relevant_docs))
      as (body & tr' & Hbody).
    eexists _, body, tr'. split; [exact Hbody |].
    unfold ret at 1. rewrite bind_run, Hbody. reflexivity.
  - unfold getitem, create_rag_prompt. cbn [lookup list_lookup].
    unfold bind, ret.
    match goal with
    | |- context [generate_response W relevant_docs ?ms tr1] =>
        destruct (Hgen ms) as (body & tr' & Hbody)
    end.
    eexists _, body, tr'. split; [exact Hbody |].
    rewrite Hbody. reflexivity.
  - destruct (Hgen (create_rag_prompt (req_message request) relevant_docs))
      as (body & tr' & Hbody).
    eexists _, body, tr'. split; [exact Hbody |].
    unfold ret at 1. rewrite bind_run, Hbody. reflexivity.
Qed.

(** ** Conversation history *)

Lemma slice_last_split {A} (n : nat) (l : list A) :
  (n <= length l)%nat ->
  l = (firstn (length l - n) l ++ slice_last n l)%list /\ length (slice_last n l) = n.
Proof.
  intros Hn. unfold slice_last. split.
  - symmetry. apply firstn_skipn.
  - rewrite length_skipn. lia.
Qed.

(** C5: with a history of more than 10 messages, the prompt sent to the
    model is the system message, then exactly the last 10 history messages
    in their order, each with its role and its content, then the user
    message with the query; the older messages are left out. *)
Theorem C5_history_truncation (W : World) (request : ChatRequest)
    (history : list ChatMessage) (tr tr1 : list call)
    (relevant_docs : list RetrievalResult) :
  conversation_history request = Some history ->
  (10 < length history)%nat ->
  retrieve_relevant_documents W (req_message request) None tr = (inr relevant_docs, tr1) ->
  exists system user older recent,
    create_rag_prompt (req_message request) relevant_docs = [system; user] /\
    history = (older ++ recent)%list /\
    length recent = 10%nat /\
    log_after (chat_stream W request) tr =
      (tr1 ++ [ChatCompletionsCreate (azure_openai_deployment_name (settings W))
                 (system ::
                  map (fun m => {| msg_role := cm_role m; msg_content := cm_content m |}) recent
                  ++ [user])
                 (temperature (settings W)) (max_tokens (settings W))
                 (req_stream request)])%list.
Proof.
  intros Hhist Hlen Hdocs.
  destruct (slice_last_split 10 history) as [Hsplit Hrecent]; [lia |].
  eexists _, _, (firstn (length history - 10) history), (slice_last 10 history).
  split; [reflexivity |]. split; [exact Hsplit |]. split; [exact Hrecent |].
  unfold log_after, chat_stream, try_except, bind. rewrite Hdocs, Hhist.
  destruct history as [|first_turn turns]; [simpl in Hlen; lia |].
  unfold getitem, create_rag_prompt. cbn [lookup list_lookup]. unfold ret.
  destruct (req_stream request).
  - unfold generate_response, bind. rewrite chat_completion_stream_run. reflexivity.
  - unfold chat_completion. rewrite log_and_reraise_id. unfold bind, extern, ret.
    destruct (chat_answer W tr1 _ _ _) as [e | completion]; [reflexivity |].
    destruct (choices completion) as [|c cs]; [reflexivity |].
    destruct (message_content (choice_message c)); reflexivity.
Qed.

Lemma C5_history_truncation_witness :
  (10 < length scenario.fifteen_turns)%nat /\
  exists system user older recent,
    create_rag_prompt "How do I install it?" (map search_result scenario.hits)
      = [system; user] /\
    scenario.fifteen_turns = (older ++ recent)%list /\
    length recent = 10%nat /\
    log_after (chat_stream scenario.calm scenario.long_chat) [] =
      ([ EmbeddingsCreate "text-embedding-ada-002" ["How do I install it?"];
         QueryNearVector [float_of_Z 20] 5 ] ++
       [ ChatCompletionsCreate "gpt-35-turbo"
           (system ::
            map (fun m => {| msg_role := cm_role m; msg_content := cm_content m |}) recent
            ++ [user])
           (temperature default_settings) 1000 true ])%list.
Proof.
  split; [simpl; lia |].
  apply (C5_history_truncation scenario.calm scenario.long_chat
           scenario.fifteen_turns []
           [ EmbeddingsCreate "text-embedding-ada-002" ["How do I install it?"];
             QueryNearVector [float_of_Z 20] 5 ]
           (map search_result scenario.hits)).
  - reflexivity.
  - simpl; lia.
  - reflexivity.
Defined.

(** ** Vector store gateway: insertion *)

Section insertion.
Variable W : World.

Lemma inserted_length tr pairs ids tr' :
  inserted W tr pairs ids tr' -> length ids = length pairs.
Proof. induction 1; simpl; congruence. Qed.

Lemma inserted_log tr pairs ids tr' :
  inserted W tr pairs ids tr' -> tr' = (tr ++ map insert_of pairs)%list.
Proof.
  induction 1 as [tr | tr doc vector rest uuid uuids tr' Hanswer Hrest IH].
  - now rewrite app_nil_r.
  - rewrite IH, <- app_assoc. reflexivity.
Qed.

(** A normal return of the loop: the accumulated list grew by the
    identifiers of all pairs, in their order. *)
Lemma add_documents_loop_returns pairs : forall uuids tr ids tr',
  add_documents_loop W pairs uuids tr = (inr ids, tr') ->
  exists new, ids = (uuids ++ new)%list /\ inserted W tr pairs new tr'.
Proof.
  induction pairs as [|[doc vector] rest IH]; intros uuids tr ids tr' Hrun.
  - injection Hrun as <- <-. exists []. split; [now rewrite app_nil_r | constructor].
  - simpl in Hrun. unfold bind, extern in Hrun.
    destruct (insert_answer W tr (without_reserved doc) vector) as [e | uuid] eqn:Hanswer;
      [discriminate |].
    apply IH in Hrun as (new & -> & Hrest).
    exists (uuid :: new). split; [now rewrite <- app_assoc |].
    now apply inserted_cons.
Qed.


(** When the store accepts every insert, the loop returns. *)
Lemma add_documents_loop_total pairs : store_accepts W -> forall uuids tr,
  exists ids tr', add_documents_loop W pairs uuids tr = (inr ids, tr').
Proof.
  intros Haccepts. induction pairs as [|[doc vector] rest IH]; intros uuids tr.
  - eexists _, _. reflexivity.
  - simpl. unfold bind, extern.
    destruct (Haccepts tr (without_reserved doc) vector) as [uuid ->].
    apply IH.
Qed.

End insertion.

(** C8: [add_documents] on [N] documents and [N] vectors returns, whenever
    it returns, exactly [N] identifiers: the one the store generated for the
    first pair, then the one for the second pair, and so on; and it does
    return when the store accepts every insert. *)
Theorem C8_one_identifier_per_pair (W : World)
    (documents : list (gmap string value)) (vectors : list (list float))
    (tr : list call) :
  length documents = length vectors ->
  (forall ids tr',
     add_documents W documents vectors tr = (inr ids, tr') ->
     length ids = length documents /\
     inserted W tr (zip documents vectors) ids tr') /\
  (store_accepts W ->
   exists ids tr', add_documents W documents vectors tr = (inr ids, tr')).
Proof.
  intros Hlen. unfold add_documents. rewrite log_and_reraise_id. split.
  - intros ids tr' Hrun.
    apply add_documents_loop_returns in Hrun as (new & -> & Hins).
    split; [| exact Hins].
    apply inserted_length in Hins. simpl. rewrite Hins, length_zip_with. lia.
  - intros Haccepts. apply add_documents_loop_total, Haccepts.
Qed.


Lemma calm_store_accepts upstream : store_accepts (scenario.scripted upstream).
Proof. intros tr properties vector. eexists. reflexivity. Qed.

Example add_documents_two :
  add_documents scenario.calm scenario.two_docs scenario.two_vectors [] =
    (inr ["uuid-0"; "uuid-1"],
     [ DataInsert (scenario.plain_doc "alpha" 0) [scenario.half];
       DataInsert (scenario.plain_doc "beta" 1) [scenario.quarter; scenario.half] ]).
Proof. vm_compute. reflexivity. Qed.

Lemma C8_one_identifier_per_pair_witness :
  length scenario.two_docs = length scenario.two_vectors /\
  exists ids tr',
    add_documents scenario.calm scenario.two_docs scenario.two_vectors [] = (inr ids, tr') /\
    length ids = length scenario.two_docs /\
    inserted scenario.calm [] (zip scenario.two_docs scenario.two_vectors) ids tr'.
Proof.
  split; [reflexivity |].
  destruct (C8_one_identifier_per_pair scenario.calm scenario.two_docs
              scenario.two_vectors [] eq_refl) as [Hreturns Htotal].
  destruct (Htotal (calm_store_accepts scenario.fluent)) as (ids & tr' & Hrun).
  exists ids, tr'. split; [exact Hrun |]. exact (Hreturns ids tr' Hrun).
Defined.


(** ** The log only grows *)

Lemma grows_ret {A} (a : A) : grows (ret a).
Proof. intros tr. exists []. unfold log_after. simpl. now rewrite app_nil_r. Qed.

Lemma grows_raise {A} (e : exn) : grows (@raise A e).
Proof. intros tr. exists []. unfold log_after. simpl. now rewrite app_nil_r. Qed.

Lemma grows_extern {A} (c : call) (answer : list call -> exn + A) :
  grows (extern c answer).
Proof. intros tr. exists [c]. reflexivity. Qed.

Lemma grows_bind {A B} (m : M A) (k : A -> M B) :
  grows m -> (forall a, grows (k a)) -> grows (bind m k).
Proof.
  intros Hm Hk tr. destruct (Hm tr) as [new Hnew].
  unfold log_after in *. rewrite bind_run.
  destruct (m tr) as [[e | a] tr']; simpl in Hnew; subst tr'.
  - exists new. reflexivity.
  - destruct (Hk a (tr ++ new)%list) as [new' Hnew'].
    exists (new ++ new')%list. unfold log_after in Hnew'.
    now rewrite Hnew', app_assoc.
Qed.

Lemma grows_try_except {A} (m : M A) (h : exn -> M A) :
  grows m -> (forall e, grows (h e)) -> grows (try_except m h).
Proof.
  intros Hm Hh tr. destruct (Hm tr) as [new Hnew].
  unfold log_after in *. rewrite try_except_run.
  destruct (m tr) as [[e | a] tr']; simpl in Hnew; subst tr'.
  - destruct (Hh e (tr ++ new)%list) as [new' Hnew'].
    exists (new ++ new')%list. unfold log_after in Hnew'.
    now rewrite Hnew', app_assoc.
  - exists new. reflexivity.
Qed.

Lemma grows_log_and_reraise {A} (m : M A) : grows m -> grows (log_and_reraise m).
Proof. intros Hm. apply grows_try_except; [exact Hm | intros e; apply grows_raise]. Qed.

Lemma grows_try_finally {A} (m : M A) (f : M unit) :
  grows m -> grows f -> grows (try_finally m f).
Proof.
  intros Hm Hf tr. destruct (Hm tr) as [new Hnew].
  unfold log_after, try_finally in *.
  destruct (m tr) as [r tr']; simpl in Hnew; subst tr'.
  destruct (Hf (tr ++ new)%list) as [new' Hnew']. unfold log_after in Hnew'.
  exists (new ++ new')%list.
  destruct (f (tr ++ new)%list) as [[e | u] tr'']; simpl in *; subst tr'';
    now rewrite app_assoc.
Qed.

Create HintDb grows.
#[export] Hint Resolve grows_ret grows_raise grows_extern grows_bind
  grows_try_except grows_log_and_reraise grows_try_finally : grows.

Lemma grows_create_embeddings W texts : grows (create_embeddings W texts).
Proof. unfold create_embeddings. auto with grows. Qed.

Lemma grows_add_documents_loop W pairs : forall uuids,
  grows (add_documents_loop W pairs uuids).
Proof.
  induction pairs as [|[doc vector] rest IH]; intros uuids; simpl; auto with grows.
Qed.

Lemma grows_add_documents W documents vectors :
  grows (add_documents W documents vectors).
Proof.
  unfold add_documents. apply grows_log_and_reraise, grows_add_documents_loop.
Qed.

Lemma grows_weaviate_docs_loop W filename file_type pairs : forall i docs,
  grows (weaviate_docs_loop W filename file_type pairs i docs).
Proof.
  induction pairs as [|[chunk vector] rest IH]; intros i docs; simpl; auto with grows.
Qed.

#[export] Hint Resolve grows_create_embeddings grows_add_documents
  grows_weaviate_docs_loop : grows.

(** Two gateways that are one external call each. *)
Lemma create_embeddings_run W texts tr :
  create_embeddings W texts tr =
  (match embeddings_answer W tr texts with
   | inl e => inl e
   | inr response => inr (map embedding (data response))
   end,
   (tr ++ [EmbeddingsCreate (azure_openai_embedding_deployment (settings W)) texts])%list).
Proof.
  unfold create_embeddings. rewrite log_and_reraise_id. unfold bind, extern, ret.
  destruct (embeddings_answer W tr texts); reflexivity.
Qed.

Lemma process_text_content_run W text filename tr :
  let document := {| page_content := text;
                     doc_metadata := {[ "source" := VStr filename ]} |} in
  process_text_content W text filename tr =
  (split_documents_answer W tr [document], (tr ++ [SplitDocuments [document]])%list).
Proof.
  intros document. unfold process_text_content. rewrite log_and_reraise_id.
  unfold bind, extern, ret. fold document.
  destruct (split_documents_answer W tr [document]); reflexivity.
Qed.

(** The objects prepared for the store, written out: one per pair, in the
    order of the pairs, numbered from [i] on, each stamped with the answer
    of the clock to the reading made for it. *)
Lemma weaviate_docs_loop_run W filename file_type pairs : forall i acc tr,
  weaviate_docs_loop W filename file_type pairs i acc tr =
    (inr (acc ++
          imap (fun k (pair : Document * list float) =>
                  <[ "content" := VStr (page_content pair.1) ]>
                  (<[ "filename" := VStr filename ]>
                  (<[ "chunk_index" := VInt (i + Z.of_nat k) ]>
                  (<[ "file_type" := VStr file_type ]>
                  (<[ "upload_date" :=
                        VStr (now_answer W (tr ++ replicate k DatetimeNow)%list) ]>
                     (∅ : gmap string value))))))
               pairs)%list,
     (tr ++ replicate (length pairs) DatetimeNow)%list).
Proof.
  induction pairs as [|[chunk vector] rest IH]; intros i acc tr.
  - simpl. unfold ret. rewrite !app_nil_r. reflexivity.
  - simpl weaviate_docs_loop. rewrite bind_run. unfold extern at 1. rewrite IH.
    rewrite <- !app_assoc. f_equal. f_equal. f_equal. cbn [imap app].
    f_equal.
    + cbn [replicate fst]. rewrite Z.add_0_r, app_nil_r. reflexivity.
    + apply imap_ext. intros k pair _. cbn [compose replicate].
      replace (i + 1 + Z.of_nat k) with (i + Z.of_nat (S k)) by lia.
      rewrite <- app_assoc. reflexivity.
Qed.

(** ** Ingestion of raw text *)

Section text_ingestion.
Variable W : World.

(** The dict of a successful raw-text ingestion, as the code builds it. *)
Lemma ingest_text_content_success text filename tr r tr' :
  ingest_text_content W text filename tr = (inr r, tr') ->
  r_success r = true ->
  exists chunks tr1 embeddings tr2 weaviate_docs tr3 ids,
    process_text_content W text filename tr = (inr chunks, tr1) /\
    create_embeddings W (map page_content chunks) tr1 = (inr embeddings, tr2) /\
    weaviate_docs_loop W filename ".txt" (zip chunks embeddings) 0 [] tr2
      = (inr weaviate_docs, tr3) /\
    add_documents W weaviate_docs embeddings tr3 = (inr ids, tr') /\
    r = {| r_success := true;
           r_message := "Successfully ingested text content";
           r_filename := filename;
           r_chunks_created := Z.of_nat (length chunks);
           r_file_size := None;
           r_document_ids := Some ids |}.
Proof.
  unfold ingest_text_content. rewrite try_except_run, bind_run.
  destruct (process_text_content W text filename tr) as [[e | chunks] tr1] eqn:H1;
    [intros [= <- _]; discriminate |].
  rewrite bind_run.
  destruct (create_embeddings W (map page_content chunks) tr1)
    as [[e | embeddings] tr2] eqn:H2; [intros [= <- _]; discriminate |].
  rewrite bind_run.
  destruct (weaviate_docs_loop W filename ".txt" (zip chunks embeddings) 0 [] tr2)
    as [[e | weaviate_docs] tr3] eqn:H3; [intros [= <- _]; discriminate |].
  rewrite bind_run.
  destruct (add_documents W weaviate_docs embeddings tr3) as [[e | ids] tr4] eqn:H4;
    [intros [= <- _]; discriminate |].
  intros [= <- <-] _.
  exists chunks, tr1, embeddings, tr2, weaviate_docs, tr3, ids. auto.
Qed.

(** The pipeline never raises past its boundary. *)
Lemma ingest_text_content_returns text filename tr :
  exists r tr', ingest_text_content W text filename tr = (inr r, tr').
Proof.
  unfold ingest_text_content. rewrite try_except_run.
  match goal with |- context [match ?m tr with _ => _ end] => destruct (m tr) as [[e | r] tr'] end;
    unfold ret; eauto.
Qed.

Lemma grows_ingest_text_content text filename :
  grows (ingest_text_content W text filename).
Proof.
  unfold ingest_text_content, process_text_content.
  apply grows_try_except; auto 10 with grows.
Qed.

(** Once the splitter has answered, the embedding service is called next. *)
Lemma ingest_text_content_log text filename chunks tr :
  split_documents_answer W tr
    [ {| page_content := text; doc_metadata := {[ "source" := VStr filename ]} |} ]
    = inr chunks ->
  exists rest,
    log_after (ingest_text_content W text filename) tr =
    (tr ++ [ SplitDocuments
               [ {| page_content := text;
                    doc_metadata := {[ "source" := VStr filename ]} |} ];
             EmbeddingsCreate (azure_openai_embedding_deployment (settings W))
                              (map page_content chunks) ] ++ rest)%list.
Proof.
  intros Hsplit. unfold log_after, ingest_text_content.
  rewrite try_except_run, bind_run, process_text_content_run, Hsplit.
  rewrite bind_run, create_embeddings_run.
  set (tr2 := ((tr ++ _) ++ _)%list).
  assert (Htr2 : forall rest, (tr2 ++ rest)%list =
    (tr ++ [ SplitDocuments
               [ {| page_content := text;
                    doc_metadata := {[ "source" := VStr filename ]} |} ];
             EmbeddingsCreate (azure_openai_embedding_deployment (settings W))
                              (map page_content chunks) ] ++ rest)%list).
  { intros rest. unfold tr2. now rewrite <- !app_assoc. }
  destruct (embeddings_answer W _ _) as [e | answer].
  - exists []. rewrite <- Htr2, app_nil_r. reflexivity.
  - set (k := bind _ _).
    assert (Hk : grows k) by (unfold k; auto 10 with grows).
    destruct (Hk tr2) as [rest Hrest]. exists rest. rewrite <- Htr2, <- Hrest.
    unfold log_after. destruct (k tr2) as [[e | r] tr']; reflexivity.
Qed.

(** The endpoint adds no call of its own to those of the pipeline. *)
Lemma ingest_text_log request text tr :
  text_content request = Some text ->
  text <> "" ->
  log_after (ingest_text W request) tr =
  log_after (ingest_text_content W text
               match req_filename request with
               | Some f => if str_truthy f then f else "text_input"
               | None => "text_input"
               end) tr.
Proof.
  intros Htext Hne. unfold log_after, ingest_text, http_errors.
  rewrite try_except_run, Htext.
  assert (Htruthy : negb (str_truthy text) = false).
  { unfold str_truthy. destruct (String.eqb_spec text ""); [contradiction | reflexivity]. }
  rewrite Htruthy, bind_run.
  destruct (ingest_text_content W text _ tr) as [[e | r] tr'].
  - destruct (is_http e); reflexivity.
  - destruct (r_success r); reflexivity.
Qed.

(** Text that is not empty passes the check of the endpoint whatever it is
    made of: once the splitter has answered, the embedding service is
    called. *)
Lemma nonempty_text_reaches_embedding request text chunks tr :
  text_content request = Some text ->
  text <> "" ->
  split_documents_answer W tr
    [ {| page_content := text;
         doc_metadata :=
           {[ "source" := VStr match req_filename request with
                               | Some f => if str_truthy f then f else "text_input"
                               | None => "text_input"
                               end ]} |} ]
    = inr chunks ->
  EmbeddingsCreate (azure_openai_embedding_deployment (settings W))
                   (map page_content chunks)
    ∈ log_after (ingest_text W request) tr.
Proof.
  intros Htext Hne Hsplit. rewrite (ingest_text_log request text tr Htext Hne).
  destruct (ingest_text_content_log text _ chunks tr Hsplit) as [rest ->].
  rewrite !elem_of_app, !elem_of_cons. auto.
Qed.

End text_ingestion.

(** C1: an ingest-by-text request whose text is missing or empty is rejected
    with the precondition error (status 400) before any call is made: the
    log is left as it was, so no chunk is created and the embedding service
    is not reached. *)
Theorem C1_empty_text_rejected (W : World) (request : IngestRequest) (tr : list call) :
  text_content request = None \/ text_content request = Some "" ->
  ingest_text W request tr =
    (inl (HTTPException 400 "Text content is required"), tr).
Proof.
  intros [Htext | Htext]; unfold ingest_text, http_errors;
    rewrite try_except_run, Htext; reflexivity.
Qed.

Lemma C1_empty_text_rejected_witness :
  text_content {| text_content := Some ""; req_filename := Some "note" |} = Some "" /\
  ingest_text scenario.calm {| text_content := Some ""; req_filename := Some "note" |}
    [DatetimeNow] =
    (inl (HTTPException 400 "Text content is required"), [DatetimeNow]).
Proof.
  split; [reflexivity |].
  apply (C1_empty_text_rejected scenario.calm
           {| text_content := Some ""; req_filename := Some "note" |} [DatetimeNow]).
  right. reflexivity.
Defined.

(** Text of three spaces is whitespace-only, yet the endpoint lets it
    through: the splitter and then the embedding service are called, and the
    request ends in status 500, not in the precondition error. *)
Lemma C1_whitespace_counterexample :
  all_space "   " = true /\
  ingest_text scenario.calm scenario.blank_text [] =
    (inl (HTTPException 500
            "Failed to ingest text content: Error code: 400 - input must not be empty"),
     [ SplitDocuments
         [ {| page_content := "   ";
              doc_metadata := {[ "source" := VStr "text_input" ]} |} ];
       EmbeddingsCreate "text-embedding-ada-002" [] ]) /\
  existsb embedding_call (log_after (ingest_text scenario.calm scenario.blank_text) [])
    = true.
Proof. vm_compute. auto. Qed.

(** C7: the dict of a successful raw-text ingestion holds the success flag,
    the fixed message, the filename label, the number of chunks the splitter
    produced and the list of identifiers, and no file-size entry.  The
    identifiers are the ones the store generated, in order, for the inserts
    of this ingestion: one object per (chunk, vector) pair, object [k]
    holding the content of chunk [k], the label, the index [k], the type
    [.txt] and the time read for it, stored with vector [k]. *)
Theorem C7_text_ingestion_result (W : World) (text filename : string)
    (tr tr' : list call) (r : IngestResult) :
  ingest_text_content W text filename tr = (inr r, tr') ->
  r_success r = true ->
  let document := {| page_content := text;
                     doc_metadata := {[ "source" := VStr filename ]} |} in
  exists chunks response ids,
    split_documents_answer W tr [document] = inr chunks /\
    embeddings_answer W (tr ++ [SplitDocuments [document]])%list
      (map page_content chunks) = inr response /\
    let embeddings := map embedding (data response) in
    let tr2 :=
      (tr ++ [ SplitDocuments [document];
               EmbeddingsCreate (azure_openai_embedding_deployment (settings W))
                                (map page_content chunks) ])%list in
    let objects :=
      imap (fun k (pair : Document * list float) =>
              <[ "content" := VStr (page_content pair.1) ]>
              (<[ "filename" := VStr filename ]>
              (<[ "chunk_index" := VInt (Z.of_nat k) ]>
              (<[ "file_type" := VStr ".txt" ]>
              (<[ "upload_date" :=
                    VStr (now_answer W (tr2 ++ replicate k DatetimeNow)%list) ]>
                 (∅ : gmap string value))))))
           (zip chunks embeddings) in
    inserted W (tr2 ++ replicate (length objects) DatetimeNow)%list
      (zip objects embeddings) ids tr' /\
    r = {| r_success := true;
           r_message := "Successfully ingested text content";
           r_filename := filename;
           r_chunks_created := Z.of_nat (length chunks);
           r_file_size := None;
           r_document_ids := Some ids |}.
Proof.
  intros Hrun Hok document.
  destruct (ingest_text_content_success W text filename tr r tr' Hrun Hok)
    as (chunks & tr1 & embeddings & tr2 & weaviate_docs & tr3 & ids
        & H1 & H2 & H3 & H4 & ->).
  rewrite process_text_content_run in H1. fold document in H1.
  injection H1 as Hsplit <-.
  rewrite create_embeddings_run in H2.
  destruct (embeddings_answer W _ _) as [e | response] eqn:Hembed; [discriminate |].
  injection H2 as <- <-.
  rewrite weaviate_docs_loop_run in H3. injection H3 as <- <-.
  unfold add_documents in H4. rewrite log_and_reraise_id in H4.
  apply add_documents_loop_returns in H4 as (new & -> & Hins).
  exists chunks, response, new.
  split; [exact Hsplit |]. split; [exact Hembed |].
  cbv zeta. split; [| reflexivity].
  match type of Hins with
  | context [((tr ++ [?a]) ++ [?b])%list] =>
      replace ((tr ++ [a]) ++ [b])%list with (tr ++ [a; b])%list in Hins
        by (rewrite <- app_assoc; reflexivity)
  end.
  rewrite length_imap. exact Hins.
Qed.

Lemma C7_text_ingestion_result_witness :
  ingest_text_content scenario.calm "Install with pip." "note" [] =
    (inr {| r_success := true;
            r_message := "Successfully ingested text content";
            r_filename := "note";
            r_chunks_created := 1;
            r_file_size := None;
            r_document_ids := Some ["uuid-3"] |},
     [ SplitDocuments
         [ {| page_content := "Install with pip.";
              doc_metadata := {[ "source" := VStr "note" ]} |} ];
       EmbeddingsCreate "text-embedding-ada-002" ["Install with pip."];
       DatetimeNow;
       DataInsert
         (<[ "content" := VStr "Install with pip." ]>
          (<[ "filename" := VStr "note" ]>
          (<[ "chunk_index" := VInt 0 ]>
          (<[ "file_type" := VStr ".txt" ]>
          (<[ "upload_date" := VStr "2024-05-02T08:30:00Z" ]> ∅)))))
         [float_of_Z 17] ]) /\
  exists chunks response ids,
    split_documents_answer scenario.calm []
      [ {| page_content := "Install with pip.";
           doc_metadata := {[ "source" := VStr "note" ]} |} ] = inr chunks /\
    embeddings_answer scenario.calm
      ([] ++ [ SplitDocuments
                 [ {| page_content := "Install with pip.";
                      doc_metadata := {[ "source" := VStr "note" ]} |} ] ])%list
      (map page_content chunks) = inr response /\
    inserted scenario.calm
      (([] ++ [ SplitDocuments
                  [ {| page_content := "Install with pip.";
                       doc_metadata := {[ "source" := VStr "note" ]} |} ];
                EmbeddingsCreate
                  (azure_openai_embedding_deployment (settings scenario.calm))
                  (map page_content chunks) ]) ++
       replicate
         (length
            (imap (fun k (pair : Document * list float) =>
                     <[ "content" := VStr (page_content pair.1) ]>
                     (<[ "filename" := VStr "note" ]>
                     (<[ "chunk_index" := VInt (Z.of_nat k) ]>
                     (<[ "file_type" := VStr ".txt" ]>
                     (<[ "upload_date" :=
                           VStr (now_answer scenario.calm
                                   (([] ++ [ SplitDocuments
                                               [ {| page_content := "Install with pip.";
                                                    doc_metadata :=
                                                      {[ "source" := VStr "note" ]} |} ];
                                             EmbeddingsCreate
                                               (azure_openai_embedding_deployment
                                                  (settings scenario.calm))
                                               (map page_content chunks) ]) ++
                                    replicate k DatetimeNow)%list) ]>
                        (∅ : gmap string value))))))
                  (zip chunks (map embedding (data response)))))
         DatetimeNow)%list
      (zip
         (imap (fun k (pair : Document * list float) =>
                  <[ "content" := VStr (page_content pair.1) ]>
                  (<[ "filename" := VStr "note" ]>
                  (<[ "chunk_index" := VInt (Z.of_nat k) ]>
                  (<[ "file_type" := VStr ".txt" ]>
                  (<[ "upload_date" :=
                        VStr (now_answer scenario.calm
                                (([] ++ [ SplitDocuments
                                            [ {| page_content := "Install with pip.";
                                                 doc_metadata :=
                                                   {[ "source" := VStr "note" ]} |} ];
                                          EmbeddingsCreate
                                            (azure_openai_embedding_deployment
                                               (settings scenario.calm))
                                            (map page_content chunks) ]) ++
                                 replicate k DatetimeNow)%list) ]>
                     (∅ : gmap string value))))))
               (zip chunks (map embedding (data response))))
         (map embedding (data response)))
      ids
      [ SplitDocuments
          [ {| page_content := "Install with pip.";
               doc_metadata := {[ "source" := VStr "note" ]} |} ];
        EmbeddingsCreate "text-embedding-ada-002" ["Install with pip."];
        DatetimeNow;
        DataInsert
          (<[ "content" := VStr "Install with pip." ]>
           (<[ "filename" := VStr "note" ]>
           (<[ "chunk_index" := VInt 0 ]>
           (<[ "file_type" := VStr ".txt" ]>
           (<[ "upload_date" := VStr "2024-05-02T08:30:00Z" ]> ∅)))))
          [float_of_Z 17] ] /\
    {| r_success := true;
       r_message := "Successfully ingested text content";
       r_filename := "note";
       r_chunks_created := 1;
       r_file_size := None;
       r_document_ids := Some ["uuid-3"] |} =
    {| r_success := true;
       r_message := "Successfully ingested text content";
       r_filename := "note";
       r_chunks_created := Z.of_nat (length chunks);
       r_file_size := None;
       r_document_ids := Some ids |}.
Proof.
  split; [vm_compute; reflexivity |].
  apply (C7_text_ingestion_result scenario.calm "Install with pip." "note" []).
  - vm_compute. reflexivity.
  - reflexivity.
Defined.

(** A successful raw-text ingestion whose dict has no file size: the claim
    that the size is reported, as 0, fails on it. *)
Lemma C7_file_size_counterexample :
  outcome (ingest_text_content scenario.calm "Install with pip." "note") [] =
    inr {| r_success := true;
           r_message := "Successfully ingested text content";
           r_filename := "note";
           r_chunks_created := 1;
           r_file_size := None;
           r_document_ids := Some ["uuid-3"] |} /\
  (forall r, outcome (ingest_text_content scenario.calm "Install with pip." "note") [] = inr r ->
             r_file_size r <> Some 0).
Proof.
  split; [vm_compute; reflexivity |].
  intros r. vm_compute. intros [= <-]. discriminate.
Qed.

(** ** Ingestion of files *)

Section file_ingestion.
Variable W : World.

(** Without a loader for the type, [load_document] raises before it
    constructs or runs a loader. *)
Lemma load_document_unsupported file_path file_type tr :
  ~ supported_file_type W file_type ->
  load_document W file_path file_type tr =
    (inl (ValueError ("Unsupported file type: " +:+ file_type)), tr).
Proof.
  unfold supported_file_type. intros Hunsupported.
  unfold load_document. rewrite log_and_reraise_id, bind_run.
  destruct (String.eqb_spec (str_lower W file_type) ".pdf") as [Heq | _];
    [exfalso; apply Hunsupported; rewrite Heq, !elem_of_cons; auto |].
  destruct (String.eqb_spec (str_lower W file_type) ".md") as [Heq | _];
    [exfalso; apply Hunsupported; rewrite Heq, !elem_of_cons; auto |].
  rewrite bool_decide_eq_false_2; [reflexivity |].
  intros Hin. apply Hunsupported. revert Hin. rewrite !elem_of_cons. tauto.
Qed.

(** The pipeline asks for the size of the file, then fails on the type. *)
Lemma ingest_document_unsupported file_path filename tr :
  ~ supported_file_type W (snd (splitext (effective_filename file_path filename))) ->
  exists r,
    ingest_document W file_path filename tr =
      (inr r, (tr ++ [PathGetsize file_path])%list) /\
    r_success r = false /\
    r_chunks_created r = 0 /\
    r_document_ids r = None.
Proof.
  intros Hunsupported. unfold ingest_document.
  rewrite try_except_run, bind_run. unfold extern at 1.
  destruct (getsize_answer W tr file_path) as [e | file_size].
  - eexists. split; [reflexivity |]. auto.
  - rewrite bind_run, (load_document_unsupported _ _ _ Hunsupported).
    eexists. split; [reflexivity |]. auto.
Qed.

(** Outside the allow-list the endpoint stops at once. *)
Lemma ingest_file_not_allowed file tr :
  str_lower W (snd (splitext (upload_filename file))) ∉ allowed_file_types (settings W) ->
  ingest_file W file tr =
    (inl (HTTPException 400
            ("File type " +:+ str_lower W (snd (splitext (upload_filename file)))
             +:+ " not supported. Allowed types: "
             +:+ repr_list (allowed_file_types (settings W)))),
     tr).
Proof.
  intros Hout. unfold ingest_file, http_errors.
  rewrite try_except_run, bool_decide_eq_false_2 by exact Hout. reflexivity.
Qed.

(** A named upload without a loader for its type ends in an HTTP error,
    and none of the calls made for it loads, chunks, embeds or stores. *)
Lemma ingest_file_unsupported file tr :
  upload_filename file <> "" ->
  ~ supported_file_type W (snd (splitext (upload_filename file))) ->
  exists status detail new,
    ingest_file W file tr = (inl (HTTPException status detail), (tr ++ new)%list) /\
    forallb (fun c => negb (processing_call c)) new = true.
Proof.
  intros Hnamed Hunsupported.
  destruct (decide (str_lower W (snd (splitext (upload_filename file)))
                    ∈ allowed_file_types (settings W))) as [Hin | Hout].
  2: { eexists _, _, []. rewrite app_nil_r.
       split; [apply ingest_file_not_allowed, Hout | reflexivity]. }
  unfold ingest_file, http_errors.
  rewrite try_except_run, bool_decide_eq_true_2 by exact Hin.
  cbn [negb]. rewrite bind_run. unfold extern at 1.
  destruct (max_file_size (settings W) <? Z.of_nat (length (upload_body file)))%Z.
  { eexists _, _, [_]. split; reflexivity. }
  rewrite bind_run. unfold extern at 1.
  destruct (tempfile_answer W _ _ _) as [e | temp_file_path].
  { destruct e; eexists _, _, [_; _]; rewrite <- app_assoc; split; reflexivity. }
  unfold try_finally. rewrite bind_run.
  assert (Hname : effective_filename temp_file_path (Some (upload_filename file))
                  = upload_filename file).
  { unfold effective_filename, str_truthy.
    destruct (String.eqb_spec (upload_filename file) ""); [contradiction | reflexivity]. }
  destruct (ingest_document_unsupported temp_file_path (Some (upload_filename file))
              ((tr ++ [UploadRead file]) ++
               [TempFileWrite (str_lower W (snd (splitext (upload_filename file))))
                  (upload_body file)])%list)
    as (r & -> & Hfail & _); [now rewrite Hname |].
  rewrite Hfail. cbn [negb]. unfold raise at 1, extern at 1.
  destruct (unlink_answer W _ _) as [e | []].
  - destruct e; eexists _, _, [_; _; _; _]; rewrite <- !app_assoc; split; reflexivity.
  - eexists _, _, [_; _; _; _]. rewrite <- !app_assoc. split; reflexivity.
Qed.

End file_ingestion.

(** C3: for a file whose extension has no loader, no loading, chunking,
    embedding or storage call is made and the ingestion does not succeed:
    the pipeline only asks for the size of the file and returns a failure
    result with no chunk, and the endpoint answers a named upload with an
    HTTP error.  The endpoint rejects the upload with status 400 before any
    call when the lower-cased extension is outside the configured
    allow-list. *)
Theorem C3_unsupported_file_type (W : World) :
  (forall file tr,
     str_lower W (snd (splitext (upload_filename file))) ∉ allowed_file_types (settings W) ->
     exists detail, ingest_file W file tr = (inl (HTTPException 400 detail), tr)) /\
  (forall file tr,
     upload_filename file <> "" ->
     ~ supported_file_type W (snd (splitext (upload_filename file))) ->
     exists status detail new,
       ingest_file W file tr = (inl (HTTPException status detail), (tr ++ new)%list) /\
       forallb (fun c => negb (processing_call c)) new = true) /\
  (forall file_path filename tr,
     ~ supported_file_type W (snd (splitext (effective_filename file_path filename))) ->
     exists r,
       ingest_document W file_path filename tr =
         (inr r, (tr ++ [PathGetsize file_path])%list) /\
       r_success r = false /\
       r_chunks_created r = 0).
Proof.
  split; [| split].
  - intros file tr Hout. eexists. apply ingest_file_not_allowed, Hout.
  - intros file tr. apply ingest_file_unsupported.
  - intros file_path filename tr Hunsupported.
    destruct (ingest_document_unsupported W file_path filename tr Hunsupported)
      as (r & Hrun & Hfail & Hzero & _).
    eauto.
Qed.

Ltac not_in_list :=
  let Hin := fresh "Hin" in
  vm_compute; intros Hin;
  repeat (apply elem_of_cons in Hin as [Hin | Hin]; [discriminate Hin |]);
  apply elem_of_nil in Hin; exact Hin.

Lemma unsupported_exe : ~ supported_file_type scenario.calm ".EXE".
Proof. unfold supported_file_type. not_in_list. Qed.

Lemma unsupported_csv : ~ supported_file_type scenario.calm ".csv".
Proof. unfold supported_file_type. not_in_list. Qed.

Lemma unsupported_docx : ~ supported_file_type scenario.calm ".docx".
Proof. unfold supported_file_type. not_in_list. Qed.

Lemma C3_unsupported_file_type_witness :
  ((str_lower scenario.calm (snd (splitext (upload_filename scenario.exe_upload)))
      ∉ allowed_file_types (settings scenario.calm)) /\
   exists detail,
     ingest_file scenario.calm scenario.exe_upload [] =
       (inl (HTTPException 400 detail), [])) /\
  (~ supported_file_type scenario.calm (snd (splitext (upload_filename scenario.docx_upload))) /\
   exists status detail new,
     ingest_file scenario.calm scenario.docx_upload [] =
       (inl (HTTPException status detail), ([] ++ new)%list) /\
     forallb (fun c => negb (processing_call c)) new = true) /\
  (~ supported_file_type scenario.calm (snd (splitext (effective_filename "/data/table.csv" None))) /\
   exists r,
     ingest_document scenario.calm "/data/table.csv" None [] =
       (inr r, ([] ++ [PathGetsize "/data/table.csv"])%list) /\
     r_success r = false /\
     r_chunks_created r = 0).
Proof.
  assert (Hexe : str_lower scenario.calm (snd (splitext (upload_filename scenario.exe_upload)))
                 ∉ allowed_file_types (settings scenario.calm))
    by not_in_list.
  destruct (C3_unsupported_file_type scenario.calm) as (Hgate & Hendpoint & Hpipeline).
  split; [| split].
  - split; [exact Hexe | exact (Hgate scenario.exe_upload [] Hexe)].
  - split; [exact unsupported_docx |].
    apply (Hendpoint scenario.docx_upload []); [discriminate | exact unsupported_docx].
  - split; [exact unsupported_csv |].
    apply (Hpipeline "/data/table.csv" None []). exact unsupported_csv.
Defined.

(** Two ingestions of files without a loader in which calls are made before
    the failure is found.  The pipeline, given a [.csv] path, asks the file
    system for the size and then returns a failure result.  The endpoint
    lets a [.docx] upload through its allow-list, reads it, writes the
    temporary file and asks for its size; the failure comes back as status
    500. *)
Lemma C3_io_before_rejection_counterexample :
  ~ supported_file_type scenario.calm (snd (splitext "table.csv")) /\
  ingest_document scenario.calm "/data/table.csv" None [] =
    (inr {| r_success := false;
            r_message := "Failed to ingest document: Unsupported file type: .csv";
            r_filename := "table.csv";
            r_chunks_created := 0;
            r_file_size := None;
            r_document_ids := None |},
     [ PathGetsize "/data/table.csv" ]) /\
  ~ supported_file_type scenario.calm (snd (splitext "report.docx")) /\
  ingest_file scenario.calm scenario.docx_upload [] =
    (inl (HTTPException 500 "Failed to ingest document: Unsupported file type: .docx"),
     [ UploadRead scenario.docx_upload;
       TempFileWrite ".docx" [Byte.x50; Byte.x4b];
       PathGetsize "/tmp/tmpk3x9.docx";
       OsUnlink "/tmp/tmpk3x9.docx" ]).
Proof.
  split; [exact unsupported_csv |]. split; [vm_compute; reflexivity |].
  split; [exact unsupported_docx |]. vm_compute. reflexivity.
Qed.

(** ** The endpoints on the scripted world *)

Example chat_stream_calm :
  outcome (chat_stream scenario.calm scenario.long_chat) [] =
    inr (StreamingResponse
           ([ SourcesEvent ["guide.md"; "guide.md"; "about.md"; "about.md"];
              ContentEvent "Use "; ContentEvent "pip."; DoneEvent ],
            inr tt)).
Proof. vm_compute. reflexivity. Qed.

Example chat_stream_flaky :
  outcome (chat_stream scenario.flaky scenario.long_chat) [] =
    inr (StreamingResponse
           ([ SourcesEvent ["guide.md"; "guide.md"; "about.md"; "about.md"];
              ContentEvent "Use "; ErrorEvent "Connection reset by peer" ],
            inr tt)).
Proof. vm_compute. reflexivity. Qed.

Example chat_stream_refused_upstream :
  outcome (chat_stream (scenario.scripted (inl (ExternalError "Rate limit reached")))
             scenario.long_chat) [] =
    inr (StreamingResponse
           ([ SourcesEvent ["guide.md"; "guide.md"; "about.md"; "about.md"];
              ErrorEvent "Rate limit reached" ],
            inr tt)).
Proof. vm_compute. reflexivity. Qed.

Example ingest_text_note :
  outcome (ingest_text scenario.calm scenario.note_text) [] =
    inr {| success := true;
           message := "Successfully ingested text content";
           document_id := Some "uuid-3";
           chunks_created := 1 |}.
Proof. vm_compute. reflexivity. Qed.

Example ingest_file_exe :
  ingest_file scenario.calm scenario.exe_upload [] =
    (inl (HTTPException 400
            "File type .exe not supported. Allowed types: ['.pdf', '.txt', '.md', '.docx']"),
     []).
Proof. vm_compute. reflexivity. Qed.

(** * Further properties of the code *)

(** ** What a computation may append to the log *)

Lemma emits_ret {A} P (a : A) : emits P (ret a).
Proof. intros tr. exists []. unfold log_after. simpl. now rewrite app_nil_r. Qed.

Lemma emits_raise {A} P (e : exn) : emits P (@raise A e).
Proof. intros tr. exists []. unfold log_after. simpl. now rewrite app_nil_r. Qed.

Lemma emits_extern {A} (P : call -> bool) (c : call) (answer : list call -> exn + A) :
  P c = true -> emits P (extern c answer).
Proof. intros Hc tr. exists [c]. split; [reflexivity |]. simpl. now rewrite Hc. Qed.

Lemma emits_bind {A B} P (m : M A) (k : A -> M B) :
  emits P m -> (forall a, emits P (k a)) -> emits P (bind m k).
Proof.
  intros Hm Hk tr. destruct (Hm tr) as (new & Hnew & HP).
  unfold log_after in *. rewrite bind_run.
  destruct (m tr) as [[e | a] tr']; simpl in Hnew; subst tr'.
  - exists new. auto.
  - destruct (Hk a (tr ++ new)%list) as (new' & Hnew' & HP').
    exists (new ++ new')%list. unfold log_after in Hnew'.
    rewrite Hnew', app_assoc, forallb_app, HP, HP'. auto.
Qed.

Lemma emits_try_except {A} P (m : M A) (h : exn -> M A) :
  emits P m -> (forall e, emits P (h e)) -> emits P (try_except m h).
Proof.
  intros Hm Hh tr. destruct (Hm tr) as (new & Hnew & HP).
  unfold log_after in *. rewrite try_except_run.
  destruct (m tr) as [[e | a] tr']; simpl in Hnew; subst tr'.
  - destruct (Hh e (tr ++ new)%list) as (new' & Hnew' & HP').
    exists (new ++ new')%list. unfold log_after in Hnew'.
    rewrite Hnew', app_assoc, forallb_app, HP, HP'. auto.
  - exists new. auto.
Qed.

Lemma emits_log_and_reraise {A} P (m : M A) : emits P m -> emits P (log_and_reraise m).
Proof. intros Hm. apply emits_try_except; [exact Hm | intros e; apply emits_raise]. Qed.

Lemma emits_try_finally {A} P (m : M A) (f : M unit) :
  emits P m -> emits P f -> emits P (try_finally m f).
Proof.
  intros Hm Hf tr. destruct (Hm tr) as (new & Hnew & HP).
  unfold log_after, try_finally in *.
  destruct (m tr) as [r tr']; simpl in Hnew; subst tr'.
  destruct (Hf (tr ++ new)%list) as (new' & Hnew' & HP'). unfold log_after in Hnew'.
  exists (new ++ new')%list.
  destruct (f (tr ++ new)%list) as [[e | u] tr'']; simpl in *; subst tr'';
    rewrite app_assoc, forallb_app, HP, HP'; auto.
Qed.

Lemma emits_weaken {A} (P Q : call -> bool) (m : M A) :
  (forall c, P c = true -> Q c = true) -> emits P m -> emits Q m.
Proof.
  intros HPQ Hm tr. destruct (Hm tr) as (new & Hnew & HP).
  exists new. split; [exact Hnew |].
  rewrite forallb_forall in *. auto.
Qed.

(** Splits a goal [emits P m] along the structure of [m]. *)
Ltac emits_step :=
  first
    [ apply emits_ret
    | apply emits_raise
    | apply emits_extern; reflexivity
    | apply emits_log_and_reraise
    | apply emits_try_except
    | apply emits_try_finally
    | apply emits_bind
    | match goal with
      | |- emits _ (match ?x with _ => _ end) => destruct x
      | |- emits _ (if ?b then _ else _) => destruct b
      | |- forall _, _ => intro
      end ].

Ltac emits_auto := repeat emits_step.

Section pipeline_calls.
Variable W : World.

Lemma emits_add_documents_loop P pairs : forall uuids,
  (forall properties vector, P (DataInsert properties vector) = true) ->
  emits P (add_documents_loop W pairs uuids).
Proof.
  induction pairs as [|[doc vector] rest IH]; intros uuids HP; simpl.
  - apply emits_ret.
  - apply emits_bind; [apply emits_extern, HP | intros uuid; apply IH, HP].
Qed.

Lemma emits_add_documents P documents vectors :
  (forall properties vector, P (DataInsert properties vector) = true) ->
  emits P (add_documents W documents vectors).
Proof.
  intros HP. unfold add_documents.
  apply emits_log_and_reraise, emits_add_documents_loop, HP.
Qed.

Lemma emits_weaviate_docs_loop P filename file_type pairs : forall i docs,
  P DatetimeNow = true ->
  emits P (weaviate_docs_loop W filename file_type pairs i docs).
Proof.
  induction pairs as [|[chunk vector] rest IH]; intros i docs HP; simpl.
  - apply emits_ret.
  - apply emits_bind; [apply emits_extern, HP | intros date; apply IH, HP].
Qed.

Lemma emits_ingest_text_content text filename :
  emits text_pipeline_call (ingest_text_content W text filename).
Proof.
  unfold ingest_text_content, process_text_content, create_embeddings.
  emits_auto; try (apply emits_weaviate_docs_loop; reflexivity);
    try (apply emits_add_documents_loop; reflexivity).
Qed.

Lemma emits_ingest_document file_path filename :
  emits file_pipeline_call (ingest_document W file_path filename).
Proof.
  unfold ingest_document, load_document, split_documents, create_embeddings.
  emits_auto; try (apply emits_weaviate_docs_loop; reflexivity);
    try (apply emits_add_documents_loop; reflexivity).
Qed.

Lemma emits_retrieve_relevant_documents query limit :
  emits retrieval_call (retrieve_relevant_documents W query limit).
Proof.
  unfold retrieve_relevant_documents, create_embedding, create_embeddings,
    similarity_search.
  emits_auto.
Qed.

Lemma emits_attempt {A} P (m : M A) : emits P m -> emits P (attempt m).
Proof.
  intros Hm tr. destruct (Hm tr) as (new & Hnew & HP). exists new.
  unfold log_after, attempt in *. destruct (m tr) as [r tr']. auto.
Qed.

Lemma emits_generate_response relevant_docs messages :
  emits chat_call (generate_response W relevant_docs messages).
Proof.
  unfold generate_response, chat_completion_stream.
  apply emits_bind; [| intros; apply emits_ret].
  apply emits_bind; [| intros; apply emits_ret].
  apply emits_attempt, emits_extern. reflexivity.
Qed.

Lemma emits_chat_completion messages temperature max_tokens :
  emits chat_call (chat_completion W messages temperature max_tokens).
Proof. unfold chat_completion. emits_auto. Qed.

(** The closing handlers of an endpoint add nothing to the log. *)
Lemma http_errors_log {A} prefix (m : M A) tr :
  log_after (http_errors prefix m) tr = log_after m tr.
Proof.
  unfold log_after, http_errors. rewrite try_except_run.
  destruct (m tr) as [[e | a] tr']; [destruct (is_http e) |]; reflexivity.
Qed.

(** Nor do they let anything but an HTTP error out, and an HTTP error
    raised inside passes unchanged. *)
Lemma http_errors_outcome {A} prefix (m : M A) tr e :
  outcome (http_errors prefix m) tr = inl e ->
  exists cause,
    outcome m tr = inl cause /\
    e = if is_http cause then cause else HTTPException 500 (prefix +:+ str_exn cause).
Proof.
  unfold outcome, http_errors. rewrite try_except_run.
  destruct (m tr) as [[cause | a] tr']; [| discriminate].
  exists cause. split; [reflexivity |].
  destruct (is_http cause); simpl in *; congruence.
Qed.

End pipeline_calls.

(** ** What the endpoints call *)

Lemma ingest_text_without_text (W : World) (request : IngestRequest) tr :
  text_content request = None \/ text_content request = Some "" ->
  ingest_text W request tr = (inl (HTTPException 400 "Text content is required"), tr).
Proof.
  intros [Htext | Htext]; unfold ingest_text, http_errors;
    rewrite try_except_run, Htext; reflexivity.
Qed.

(** X1: the ingest-by-text endpoint only calls the splitter, the embedding
    service, the clock and the insert of the store: it reads and writes no
    file, runs no search and no generation. *)
Theorem text_endpoint_calls (W : World) (request : IngestRequest) :
  emits text_pipeline_call (ingest_text W request).
Proof.
  intros tr.
  assert (Hnone : text_content request = None \/ text_content request = Some "" ->
                  exists new, log_after (ingest_text W request) tr = (tr ++ new)%list /\
                              forallb text_pipeline_call new = true).
  { intros Hempty. exists []. unfold log_after.
    rewrite (ingest_text_without_text W request tr Hempty), app_nil_r. auto. }
  destruct (text_content request) as [text |] eqn:Htext; [| auto].
  destruct (String.eqb_spec text "") as [-> | Hne]; [auto |].
  rewrite (ingest_text_log W request text tr Htext Hne).
  apply emits_ingest_text_content.
Qed.

(** X2: a chat request only calls the embedding service, the vector search
    and the chat model: it never inserts into the store and never touches a
    file. *)
Theorem chat_endpoint_calls (W : World) (request : ChatRequest) :
  emits chat_call (chat_stream W request).
Proof.
  unfold chat_stream, getitem.
  apply emits_try_except; [| intros; apply emits_raise].
  apply emits_bind.
  { apply (emits_weaken retrieval_call); [intros []; simpl; congruence |].
    apply emits_retrieve_relevant_documents. }
  intros relevant_docs. apply emits_bind.
  { destruct (conversation_history request) as [[|first_turn turns] |];
      unfold create_rag_prompt; cbn [lookup list_lookup]; emits_auto. }
  intros messages. destruct (req_stream request).
  - apply emits_bind; [apply emits_generate_response | intros; apply emits_ret].
  - apply emits_bind; [apply emits_chat_completion | intros; apply emits_ret].
Qed.

(** ** Uploads *)

Lemma try_finally_extern_log {A} (m : M A) (c : call) (answer : list call -> exn + unit) tr :
  log_after (try_finally m (extern c answer)) tr = (log_after m tr ++ [c])%list.
Proof.
  unfold log_after, try_finally, extern.
  destruct (m tr) as [r tr']. simpl. destruct (answer tr'); reflexivity.
Qed.

(** X3: once the temporary file of an upload is written, the endpoint
    deletes it as its last call, whatever the pipeline did in between; the
    calls in between are those of the file pipeline. *)
Theorem upload_temp_file_removed (W : World) (file : UploadFile) (tr : list call)
    (temp_file_path : string) :
  let file_extension := str_lower W (snd (splitext (upload_filename file))) in
  file_extension ∈ allowed_file_types (settings W) ->
  (Z.of_nat (length (upload_body file)) <= max_file_size (settings W))%Z ->
  tempfile_answer W (tr ++ [UploadRead file])%list file_extension (upload_body file)
    = inr temp_file_path ->
  exists between,
    log_after (ingest_file W file) tr =
      (tr ++ [UploadRead file; TempFileWrite file_extension (upload_body file)]
          ++ between ++ [OsUnlink temp_file_path])%list /\
    forallb file_pipeline_call between = true.
Proof.
  intros file_extension Hallowed Hsize Htemp.
  unfold ingest_file. rewrite http_errors_log. fold file_extension.
  rewrite bool_decide_eq_true_2 by exact Hallowed. cbn [negb].
  unfold log_after at 1. rewrite bind_run. unfold extern at 1.
  assert (Hfits : (max_file_size (settings W) <? Z.of_nat (length (upload_body file)))%Z
                  = false) by (apply Z.ltb_ge; lia).
  rewrite Hfits, bind_run. unfold extern at 1. rewrite Htemp.
  match goal with
  | |- context [try_finally ?m (extern ?c ?answer) ?tr0] =>
      change (snd (try_finally m (extern c answer) tr0))
        with (log_after (try_finally m (extern c answer)) tr0);
      rewrite (try_finally_extern_log m c answer tr0);
      assert (Hm : emits file_pipeline_call m)
  end.
  { apply emits_bind; [apply emits_ingest_document |].
    intros result. destruct (r_success result); [apply emits_ret | apply emits_raise]. }
  destruct (Hm ((tr ++ [UploadRead file]) ++
                [TempFileWrite file_extension (upload_body file)])%list)
    as (between & -> & Hbetween).
  exists between. split; [| exact Hbetween].
  now rewrite <- !app_assoc.
Qed.

Lemma upload_temp_file_removed_witness :
  exists between,
    log_after (ingest_file scenario.calm scenario_more.pdf_upload) [] =
      ([] ++ [ UploadRead scenario_more.pdf_upload;
               TempFileWrite ".pdf" (upload_body scenario_more.pdf_upload) ]
          ++ between ++ [OsUnlink "/tmp/tmpk3x9.pdf"])%list /\
    forallb file_pipeline_call between = true.
Proof.
  apply (upload_temp_file_removed scenario.calm scenario_more.pdf_upload []
           "/tmp/tmpk3x9.pdf").
  - apply list_elem_of_In. vm_compute. auto.
  - vm_compute. discriminate.
  - reflexivity.
Defined.

(** X4: an upload of an allowed type that is larger than the configured
    maximum is rejected with status 400 right after it was read: no
    temporary file is written and the pipeline is not entered. *)
Theorem oversized_upload_rejected (W : World) (file : UploadFile) (tr : list call) :
  str_lower W (snd (splitext (upload_filename file))) ∈ allowed_file_types (settings W) ->
  (max_file_size (settings W) < Z.of_nat (length (upload_body file)))%Z ->
  ingest_file W file tr =
    (inl (HTTPException 400
            ("File size exceeds maximum allowed size of "
             +:+ pretty (max_file_size (settings W)) +:+ " bytes")),
     (tr ++ [UploadRead file])%list).
Proof.
  intros Hallowed Hsize. unfold ingest_file, http_errors.
  rewrite try_except_run, bool_decide_eq_true_2 by exact Hallowed. cbn [negb].
  rewrite bind_run. unfold extern at 1.
  assert (Hbig : (max_file_size (settings W) <? Z.of_nat (length (upload_body file)))%Z
                 = true) by (apply Z.ltb_lt; lia).
  rewrite Hbig. reflexivity.
Qed.

Lemma oversized_upload_rejected_witness :
  ingest_file scenario_more.strict scenario_more.pdf_upload [] =
    (inl (HTTPException 400 "File size exceeds maximum allowed size of 4 bytes"),
     [UploadRead scenario_more.pdf_upload]).
Proof.
  apply (oversized_upload_rejected scenario_more.strict scenario_more.pdf_upload []).
  - apply list_elem_of_In. vm_compute. auto.
  - vm_compute. reflexivity.
Defined.

(** ** The two pipelines *)

Section pipelines.
Variable W : World.

(** The objects prepared for the store: one per pair, numbered from [i] on
    in the order of the pairs, each stamped with the time read for it. *)
Lemma weaviate_docs_loop_spec filename file_type pairs : forall i acc tr,
  exists docs,
    weaviate_docs_loop W filename file_type pairs i acc tr =
      (inr (acc ++ docs)%list, (tr ++ replicate (length pairs) DatetimeNow)%list) /\
    length docs = length pairs /\
    forall k chunk vector,
      pairs !! k = Some (chunk, vector) ->
      exists upload_date,
        docs !! k =
          Some (<[ "content" := VStr (page_content chunk) ]>
               (<[ "filename" := VStr filename ]>
               (<[ "chunk_index" := VInt (i + Z.of_nat k) ]>
               (<[ "file_type" := VStr file_type ]>
               (<[ "upload_date" := VStr upload_date ]> ∅))))).
Proof.
  induction pairs as [|[chunk0 vector0] rest IH]; intros i acc tr.
  - exists []. simpl. unfold ret. rewrite !app_nil_r.
    split; [reflexivity |]. split; [reflexivity |]. intros k chunk vector Hk.
    rewrite lookup_nil in Hk. discriminate.
  - simpl weaviate_docs_loop. rewrite bind_run. unfold extern at 1.
    match goal with
    | |- context [weaviate_docs_loop W filename file_type rest ?i' ?acc' ?tr'] =>
        destruct (IH i' acc' tr') as (docs & Hrun & Hlen & Hdocs)
    end.
    eexists (_ :: docs). rewrite Hrun. split; [| split].
    + simpl. rewrite <- !app_assoc. reflexivity.
    + simpl. now rewrite Hlen.
    + intros [|k] chunk vector Hk; simpl in Hk.
      * injection Hk as <- <-. exists (now_answer W tr). simpl.
        rewrite Z.add_0_r. reflexivity.
      * destruct (Hdocs k chunk vector Hk) as [date Hd]. exists date. simpl.
        rewrite Hd. replace (i + 1 + Z.of_nat k) with (i + Z.of_nat (S k)) by lia.
        reflexivity.
Qed.

(** Both pipelines end with a result, whatever happens inside. *)
Lemma ingest_document_returns file_path filename tr :
  exists r tr', ingest_document W file_path filename tr = (inr r, tr').
Proof.
  unfold ingest_document. rewrite try_except_run.
  match goal with
  | |- context [match ?m tr with _ => _ end] => destruct (m tr) as [[e | r] tr']
  end; unfold ret; eauto.
Qed.

(** A failure result of the raw-text pipeline. *)
Lemma ingest_text_content_failure text filename tr r tr' :
  ingest_text_content W text filename tr = (inr r, tr') ->
  r_success r = false ->
  exists cause,
    r = {| r_success := false;
           r_message := "Failed to ingest text content: " +:+ str_exn cause;
           r_filename := filename;
           r_chunks_created := 0;
           r_file_size := None;
           r_document_ids := None |}.
Proof.
  unfold ingest_text_content. rewrite try_except_run.
  match goal with
  | |- context [match ?m tr with _ => _ end] =>
      destruct (m tr) as [[cause | r0] tr0] eqn:Hrun
  end.
  - unfold ret. intros [= <- _] _. eauto.
  - intros [= <- _] Hfail. exfalso. revert Hrun Hfail.
    rewrite bind_run. destruct (process_text_content W text filename tr) as [[e | a] t1];
      [discriminate |].
    rewrite bind_run. destruct (create_embeddings W _ t1) as [[e | b] t2];
      [discriminate |].
    rewrite bind_run. destruct (weaviate_docs_loop W _ _ _ _ _ t2) as [[e | c] t3];
      [discriminate |].
    rewrite bind_run. destruct (add_documents W _ _ t3) as [[e | d] t4];
      [discriminate |].
    unfold ret. intros [= <- _]. discriminate.
Qed.

Lemma split_documents_run documents tr :
  split_documents W documents tr =
    (split_documents_answer W tr documents, (tr ++ [SplitDocuments documents])%list).
Proof.
  unfold split_documents. rewrite log_and_reraise_id. unfold bind, extern, ret.
  destruct (split_documents_answer W tr documents); reflexivity.
Qed.

(** The loader call [load_document] makes for a type that has a loader. *)
Lemma load_document_with file_path file_type tr loader :
  loader_of W file_type loader ->
  load_document W file_path file_type tr =
    (load_answer W tr loader file_path, (tr ++ [LoaderLoad loader file_path])%list).
Proof.
  intros Hloader.
  assert (Hload : forall l,
    bind (ret l)
         (fun loader => bind (extern (LoaderLoad loader file_path)
                                     (fun tr => load_answer W tr loader file_path))
                             (fun documents => ret documents)) tr =
    (load_answer W tr l file_path, (tr ++ [LoaderLoad l file_path])%list)).
  { intros l. unfold bind, ret, extern.
    destruct (load_answer W tr l file_path); reflexivity. }
  unfold load_document. rewrite log_and_reraise_id.
  destruct Hloader as [[Heq ->] | [[Heq ->] | [[Heq | Heq] ->]]];
    rewrite Heq; apply Hload.
Qed.

(** Every type has a loader or is unsupported. *)
Lemma loader_of_cases file_type :
  (exists loader, loader_of W file_type loader) \/ ~ supported_file_type W file_type.
Proof.
  unfold supported_file_type, loader_of.
  destruct (decide (str_lower W file_type ∈ [".pdf"; ".md"; ".txt"; ".text"]))
    as [Hin | Hout]; [left | right; exact Hout].
  repeat (apply elem_of_cons in Hin as [Hin | Hin]; [eauto 10 |]).
  apply elem_of_nil in Hin. contradiction.
Qed.

(** The store refuses the insert of the pair after [done_pairs]: the loop
    raises what the store raised, right after that insert. *)
Lemma add_documents_loop_refused done_pairs failed rest tr ids trk e :
  inserted W tr done_pairs ids trk ->
  insert_answer W trk (without_reserved failed.1) failed.2 = inl e ->
  forall uuids,
    add_documents_loop W (done_pairs ++ failed :: rest) uuids tr =
      (inl e, (trk ++ [insert_of failed])%list).
Proof.
  intros Hins.
  induction Hins as [tr | tr doc vector rest' uuid uuids' tr' Hanswer Hrest IH];
    intros Hfail uuids.
  - destruct failed as [doc vector]. simpl in *.
    rewrite bind_run. unfold extern at 1. rewrite Hfail. reflexivity.
  - simpl. rewrite bind_run. unfold extern at 1. rewrite Hanswer.
    apply IH, Hfail.
Qed.

(** The raw-text pipeline, stage by stage. *)
Lemma ingest_text_content_run text filename tr :
  let document := {| page_content := text;
                     doc_metadata := {[ "source" := VStr filename ]} |} in
  let failure e := {| r_success := false;
                      r_message := "Failed to ingest text content: " +:+ str_exn e;
                      r_filename := filename;
                      r_chunks_created := 0;
                      r_file_size := None;
                      r_document_ids := None |} in
  ingest_text_content W text filename tr =
    match split_documents_answer W tr [document] with
    | inl e => (inr (failure e), (tr ++ [SplitDocuments [document]])%list)
    | inr chunks =>
        let embed := EmbeddingsCreate (azure_openai_embedding_deployment (settings W))
                                      (map page_content chunks) in
        match embeddings_answer W (tr ++ [SplitDocuments [document]])%list
                (map page_content chunks) with
        | inl e => (inr (failure e), (tr ++ [SplitDocuments [document]; embed])%list)
        | inr response =>
            let embeddings := map embedding (data response) in
            let tr2 := (tr ++ [SplitDocuments [document]; embed])%list in
            let objects := prepared_objects W filename ".txt" tr2 (zip chunks embeddings) in
            match add_documents_loop W (zip objects embeddings) []
                    (tr2 ++ replicate (length objects) DatetimeNow)%list with
            | (inl e, tr4) => (inr (failure e), tr4)
            | (inr ids, tr4) =>
                (inr {| r_success := true;
                        r_message := "Successfully ingested text content";
                        r_filename := filename;
                        r_chunks_created := Z.of_nat (length chunks);
                        r_file_size := None;
                        r_document_ids := Some ids |}, tr4)
            end
        end
    end.
Proof.
  intros document failure. unfold ingest_text_content.
  rewrite try_except_run, bind_run, process_text_content_run. fold document.
  destruct (split_documents_answer W tr [document]) as [e | chunks]; [reflexivity |].
  rewrite bind_run, create_embeddings_run.
  destruct (embeddings_answer W _ _) as [e | response];
    [rewrite <- app_assoc; reflexivity |].
  rewrite bind_run, weaviate_docs_loop_run. cbn [app]. rewrite bind_run.
  unfold add_documents. rewrite log_and_reraise_id.
  unfold prepared_objects. rewrite length_imap.
  replace ((tr ++ [SplitDocuments [document]]) ++
           [EmbeddingsCreate (azure_openai_embedding_deployment (settings W))
              (map page_content chunks)])%list
    with (tr ++ [SplitDocuments [document];
                 EmbeddingsCreate (azure_openai_embedding_deployment (settings W))
                   (map page_content chunks)])%list
    by (rewrite <- app_assoc; reflexivity).
  cbv zeta.
  match goal with
  | |- context [add_documents_loop W ?pairs [] ?t] =>
      match goal with
      | |- _ = match ?y with _ => _ end =>
          change (add_documents_loop W pairs [] t) with y;
          destruct y as [[e | ids] tr4]
      end
  end; reflexivity.
Qed.

(** The file pipeline, stage by stage. *)
Lemma ingest_document_run file_path filename tr :
  let name := effective_filename file_path filename in
  let file_type := snd (splitext name) in
  let failure e := {| r_success := false;
                      r_message := "Failed to ingest document: " +:+ str_exn e;
                      r_filename := name;
                      r_chunks_created := 0;
                      r_file_size := None;
                      r_document_ids := None |} in
  ingest_document W file_path filename tr =
    match getsize_answer W tr file_path with
    | inl e => (inr (failure e), (tr ++ [PathGetsize file_path])%list)
    | inr file_size =>
        match load_document W file_path file_type (tr ++ [PathGetsize file_path])%list with
        | (inl e, tr1) => (inr (failure e), tr1)
        | (inr documents, tr1) =>
            match split_documents_answer W tr1 documents with
            | inl e => (inr (failure e), (tr1 ++ [SplitDocuments documents])%list)
            | inr chunks =>
                let embed :=
                  EmbeddingsCreate (azure_openai_embedding_deployment (settings W))
                                   (map page_content chunks) in
                match embeddings_answer W (tr1 ++ [SplitDocuments documents])%list
                        (map page_content chunks) with
                | inl e =>
                    (inr (failure e), (tr1 ++ [SplitDocuments documents; embed])%list)
                | inr response =>
                    let embeddings := map embedding (data response) in
                    let tr3 := (tr1 ++ [SplitDocuments documents; embed])%list in
                    let objects :=
                      prepared_objects W name file_type tr3 (zip chunks embeddings) in
                    match add_documents_loop W (zip objects embeddings) []
                            (tr3 ++ replicate (length objects) DatetimeNow)%list with
                    | (inl e, tr4) => (inr (failure e), tr4)
                    | (inr ids, tr4) =>
                        (inr {| r_success := true;
                                r_message := "Successfully ingested " +:+ name;
                                r_filename := name;
                                r_chunks_created := Z.of_nat (length chunks);
                                r_file_size := Some file_size;
                                r_document_ids := Some ids |}, tr4)
                    end
                end
            end
        end
    end.
Proof.
  intros name file_type failure. unfold ingest_document. fold name file_type.
  rewrite try_except_run, bind_run. unfold extern at 1.
  destruct (getsize_answer W tr file_path) as [e | file_size]; [reflexivity |].
  rewrite bind_run.
  destruct (load_document W file_path file_type _) as [[e | documents] tr1];
    [reflexivity |].
  rewrite bind_run, split_documents_run.
  destruct (split_documents_answer W tr1 documents) as [e | chunks]; [reflexivity |].
  rewrite bind_run, create_embeddings_run.
  destruct (embeddings_answer W _ _) as [e | response];
    [rewrite <- app_assoc; reflexivity |].
  rewrite bind_run, weaviate_docs_loop_run. cbn [app]. rewrite bind_run.
  unfold add_documents. rewrite log_and_reraise_id.
  unfold prepared_objects. rewrite length_imap.
  replace ((tr1 ++ [SplitDocuments documents]) ++
           [EmbeddingsCreate (azure_openai_embedding_deployment (settings W))
              (map page_content chunks)])%list
    with (tr1 ++ [SplitDocuments documents;
                  EmbeddingsCreate (azure_openai_embedding_deployment (settings W))
                    (map page_content chunks)])%list
    by (rewrite <- app_assoc; reflexivity).
  cbv zeta.
  match goal with
  | |- context [add_documents_loop W ?pairs [] ?t] =>
      match goal with
      | |- _ = match ?y with _ => _ end =>
          change (add_documents_loop W pairs [] t) with y;
          destruct y as [[e | ids] tr4]
      end
  end; reflexivity.
Qed.

End pipelines.

(** X5: the objects the pipelines prepare for the store are one per
    (chunk, vector) pair, in the order of the pairs; object [k] holds the
    content of chunk [k], the filename, the file type, the time read for it
    and the chunk index [k], counted from 0. *)
Theorem chunk_numbering (W : World) (filename file_type : string)
    (pairs : list (Document * list float)) (tr : list call) :
  exists docs,
    weaviate_docs_loop W filename file_type pairs 0 [] tr =
      (inr docs, (tr ++ replicate (length pairs) DatetimeNow)%list) /\
    length docs = length pairs /\
    forall k chunk vector,
      pairs !! k = Some (chunk, vector) ->
      exists doc upload_date,
        docs !! k = Some doc /\
        doc !! "content" = Some (VStr (page_content chunk)) /\
        doc !! "filename" = Some (VStr filename) /\
        doc !! "chunk_index" = Some (VInt (Z.of_nat k)) /\
        doc !! "file_type" = Some (VStr file_type) /\
        doc !! "upload_date" = Some (VStr upload_date) /\
        dom doc = {[ "content"; "filename"; "chunk_index"; "file_type"; "upload_date" ]}.
Proof.
  destruct (weaviate_docs_loop_spec W filename file_type pairs 0 [] tr)
    as (docs & Hrun & Hlen & Hdocs).
  exists docs. split; [exact Hrun |]. split; [exact Hlen |].
  intros k chunk vector Hk. destruct (Hdocs k chunk vector Hk) as [date Hd].
  eexists _, date. split; [exact Hd |].
  split; [now simplify_map_eq |]. split; [now simplify_map_eq |].
  split; [now simplify_map_eq |]. split; [now simplify_map_eq |].
  split; [now simplify_map_eq |].
  rewrite !dom_insert_L, dom_empty_L, (right_id_L ∅ (∪)).
  apply set_eq. intros key. rewrite !elem_of_union, !elem_of_singleton. tauto.
Qed.

(** The calls and the counts of a successful raw-text ingestion. *)
Lemma ingest_text_content_trace (W : World) text filename tr r tr' :
  ingest_text_content W text filename tr = (inr r, tr') ->
  r_success r = true ->
  let document := {| page_content := text;
                     doc_metadata := {[ "source" := VStr filename ]} |} in
  exists chunks response weaviate_docs ids,
    split_documents_answer W tr [document] = inr chunks /\
    embeddings_answer W (tr ++ [SplitDocuments [document]])%list
      (map page_content chunks) = inr response /\
    let embeddings := map embedding (data response) in
    let n := Nat.min (length chunks) (length embeddings) in
    length weaviate_docs = n /\
    length ids = n /\
    r_document_ids r = Some ids /\
    r_chunks_created r = Z.of_nat (length chunks) /\
    tr' = (tr ++ [ SplitDocuments [document];
                   EmbeddingsCreate (azure_openai_embedding_deployment (settings W))
                                    (map page_content chunks) ]
              ++ replicate n DatetimeNow
              ++ map insert_of (zip weaviate_docs embeddings))%list.
Proof.
  intros Hrun Hok document.
  destruct (ingest_text_content_success W text filename tr r tr' Hrun Hok)
    as (chunks & tr1 & embeddings & tr2 & weaviate_docs & tr3 & ids
        & H1 & H2 & H3 & H4 & ->).
  rewrite process_text_content_run in H1. fold document in H1.
  injection H1 as Hsplit <-.
  rewrite create_embeddings_run in H2.
  destruct (embeddings_answer W _ _) as [e | response] eqn:Hembed; [discriminate |].
  injection H2 as <- <-.
  destruct (weaviate_docs_loop_spec W filename ".txt"
              (zip chunks (map embedding (data response))) 0 []
              ((tr ++ [SplitDocuments [document]]) ++
               [EmbeddingsCreate (azure_openai_embedding_deployment (settings W))
                  (map page_content chunks)])%list)
    as (docs & Hloop & Hlen & _).
  rewrite Hloop in H3. injection H3 as <- <-.
  unfold add_documents in H4. rewrite log_and_reraise_id in H4.
  apply add_documents_loop_returns in H4 as (new & -> & Hins).
  pose proof (inserted_length W _ _ _ _ Hins) as Hids.
  pose proof (inserted_log W _ _ _ _ Hins) as ->.
  simpl in Hids. rewrite length_zip_with in Hlen. rewrite length_zip_with in Hids.
  exists chunks, response, docs, new. simpl.
  split; [exact Hsplit |]. split; [exact Hembed |].
  repeat split; try lia.
  rewrite length_zip_with, <- !app_assoc. reflexivity.
Qed.

(** X6: a successful raw-text ingestion makes, in this order, one call to
    the splitter, one call to the embedding service with the texts of all
    chunks in chunk order, then one clock reading per stored object and one
    insert per stored object; the stored objects and the returned
    identifiers are as many as the smaller of the number of chunks and the
    number of vectors answered. *)
Theorem text_ingestion_trace (W : World) (text filename : string)
    (tr tr' : list call) (r : IngestResult) :
  ingest_text_content W text filename tr = (inr r, tr') ->
  r_success r = true ->
  let document := {| page_content := text;
                     doc_metadata := {[ "source" := VStr filename ]} |} in
  exists chunks response weaviate_docs ids,
    split_documents_answer W tr [document] = inr chunks /\
    embeddings_answer W (tr ++ [SplitDocuments [document]])%list
      (map page_content chunks) = inr response /\
    let embeddings := map embedding (data response) in
    let n := Nat.min (length chunks) (length embeddings) in
    length weaviate_docs = n /\
    length ids = n /\
    r_document_ids r = Some ids /\
    r_chunks_created r = Z.of_nat (length chunks) /\
    tr' = (tr ++ [ SplitDocuments [document];
                   EmbeddingsCreate (azure_openai_embedding_deployment (settings W))
                                    (map page_content chunks) ]
              ++ replicate n DatetimeNow
              ++ map insert_of (zip weaviate_docs embeddings))%list.
Proof.
  intros Hrun Hok document.
  destruct (ingest_text_content_success W text filename tr r tr' Hrun Hok)
    as (chunks & tr1 & embeddings & tr2 & weaviate_docs & tr3 & ids
        & H1 & H2 & H3 & H4 & ->).
  rewrite process_text_content_run in H1. fold document in H1.
  injection H1 as Hsplit <-.
  rewrite create_embeddings_run in H2.
  destruct (embeddings_answer W _ _) as [e | response] eqn:Hembed; [discriminate |].
  injection H2 as <- <-.
  destruct (weaviate_docs_loop_spec W filename ".txt"
              (zip chunks (map embedding (data response))) 0 []
              ((tr ++ [SplitDocuments [document]]) ++
               [EmbeddingsCreate (azure_openai_embedding_deployment (settings W))
                  (map page_content chunks)])%list)
    as (docs & Hloop & Hlen & _).
  rewrite Hloop in H3. injection H3 as <- <-.
  unfold add_documents in H4. rewrite log_and_reraise_id in H4.
  apply add_documents_loop_returns in H4 as (new & -> & Hins).
  pose proof (inserted_length W _ _ _ _ Hins) as Hids.
  pose proof (inserted_log W _ _ _ _ Hins) as ->.
  simpl in Hids. rewrite length_zip_with in Hlen. rewrite length_zip_with in Hids.
  exists chunks, response, docs, new. simpl.
  split; [exact Hsplit |]. split; [exact Hembed |].
  repeat split; try lia.
  rewrite length_zip_with, <- !app_assoc. reflexivity.
Qed.

Lemma text_ingestion_trace_witness :
  exists r tr',
    ingest_text_content scenario.calm "Install with pip." "note" [] = (inr r, tr') /\
    r_success r = true /\
    exists chunks response weaviate_docs ids,
      split_documents_answer scenario.calm []
        [ {| page_content := "Install with pip.";
             doc_metadata := {[ "source" := VStr "note" ]} |} ] = inr chunks /\
      embeddings_answer scenario.calm
        ([] ++ [ SplitDocuments
                   [ {| page_content := "Install with pip.";
                        doc_metadata := {[ "source" := VStr "note" ]} |} ] ])%list
        (map page_content chunks) = inr response /\
      let embeddings := map embedding (data response) in
      let n := Nat.min (length chunks) (length embeddings) in
      length weaviate_docs = n /\
      length ids = n /\
      r_document_ids r = Some ids /\
      r_chunks_created r = Z.of_nat (length chunks) /\
      tr' = ([] ++ [ SplitDocuments
                       [ {| page_content := "Install with pip.";
                            doc_metadata := {[ "source" := VStr "note" ]} |} ];
                     EmbeddingsCreate
                       (azure_openai_embedding_deployment (settings scenario.calm))
                       (map page_content chunks) ]
                ++ replicate n DatetimeNow
                ++ map insert_of (zip weaviate_docs embeddings))%list.
Proof.
  destruct (ingest_text_content_returns scenario.calm "Install with pip." "note" [])
    as (r & tr' & Hrun).
  assert (Hok : r_success r = true).
  { revert Hrun. vm_compute. intros [= <- _]. reflexivity. }
  exists r, tr'. split; [exact Hrun |]. split; [exact Hok |].
  exact (text_ingestion_trace scenario.calm "Install with pip." "note" [] tr' r Hrun Hok).
Defined.

(** X7: [chunks_created] counts the chunks of the splitter, not the objects
    stored: when the embedding service answers fewer vectors than it was
    sent texts, a successful raw-text ingestion stores one object per
    vector and still reports the larger number of chunks. *)
Theorem fewer_vectors_than_chunks (W : World) (text filename : string)
    (tr tr' : list call) (r : IngestResult)
    (chunks : list Document) (response : CreateEmbeddingResponse) :
  ingest_text_content W text filename tr = (inr r, tr') ->
  r_success r = true ->
  split_documents_answer W tr
    [ {| page_content := text; doc_metadata := {[ "source" := VStr filename ]} |} ]
    = inr chunks ->
  embeddings_answer W
    (tr ++ [ SplitDocuments
               [ {| page_content := text;
                    doc_metadata := {[ "source" := VStr filename ]} |} ] ])%list
    (map page_content chunks) = inr response ->
  (length (data response) < length chunks)%nat ->
  exists ids,
    r_document_ids r = Some ids /\
    length ids = length (data response) /\
    (Z.of_nat (length ids) < r_chunks_created r)%Z.
Proof.
  intros Hrun Hok Hsplit Hembed Hfewer.
  destruct (ingest_text_content_trace W text filename tr r tr' Hrun Hok)
    as (chunks' & response' & docs & ids & Hsplit' & Hembed' & Hdocs & Hids
        & Hreported & Hcount & _).
  rewrite Hsplit in Hsplit'. injection Hsplit' as <-.
  rewrite Hembed in Hembed'. injection Hembed' as <-.
  rewrite length_map in Hids.
  exists ids. split; [exact Hreported |]. split; lia.
Qed.

Lemma fewer_vectors_than_chunks_witness :
  exists ids,
    r_document_ids
      {| r_success := true;
         r_message := "Successfully ingested text content";
         r_filename := "note";
         r_chunks_created := 2;
         r_file_size := None;
         r_document_ids := Some ["uuid-3"] |} = Some ids /\
    length ids = 1%nat /\
    (Z.of_nat (length ids) < 2)%Z.
Proof.
  apply (fewer_vectors_than_chunks scenario_more.short_changed
           "Install with pip." "note" []
           (log_after (ingest_text_content scenario_more.short_changed
                         "Install with pip." "note") [])
           {| r_success := true;
              r_message := "Successfully ingested text content";
              r_filename := "note";
              r_chunks_created := 2;
              r_file_size := None;
              r_document_ids := Some ["uuid-3"] |}
           [ {| page_content := "Install ";
                doc_metadata := {[ "source" := VStr "note" ]} |};
             {| page_content := "with pip.";
                doc_metadata := {[ "source" := VStr "note" ]} |} ]
           {| data := [ {| embedding := [scenario.half] |} ] |}).
  - vm_compute. reflexivity.
  - reflexivity.
  - vm_compute. reflexivity.
  - vm_compute. reflexivity.
  - simpl. lia.
Defined.

(** X8: the two pipelines never raise: they always return a result dict
    that names the file.  When a stage fails - the size request or the
    loading of a file, the splitter, the embedding service, an insert into
    the store - the dict is the failure dict: [success = False], the
    message made of the fixed prefix and the text of the exception of that
    stage, [chunks_created = 0], no identifiers and no size; and no call is
    made after the one that failed. *)
Theorem pipelines_report_failures (W : World) :
  (forall text filename tr,
     let document := {| page_content := text;
                        doc_metadata := {[ "source" := VStr filename ]} |} in
     let failure e := {| r_success := false;
                         r_message := "Failed to ingest text content: " +:+ str_exn e;
                         r_filename := filename;
                         r_chunks_created := 0;
                         r_file_size := None;
                         r_document_ids := None |} in
     let embed chunks :=
       EmbeddingsCreate (azure_openai_embedding_deployment (settings W))
                        (map page_content chunks) in
     (exists r tr',
        ingest_text_content W text filename tr = (inr r, tr') /\
        r_filename r = filename) /\
     (forall e,
        split_documents_answer W tr [document] = inl e ->
        ingest_text_content W text filename tr =
          (inr (failure e), (tr ++ [SplitDocuments [document]])%list)) /\
     (forall chunks e,
        split_documents_answer W tr [document] = inr chunks ->
        embeddings_answer W (tr ++ [SplitDocuments [document]])%list
          (map page_content chunks) = inl e ->
        ingest_text_content W text filename tr =
          (inr (failure e),
           (tr ++ [SplitDocuments [document]; embed chunks])%list)) /\
     (forall chunks response done_pairs failed rest ids trk e,
        split_documents_answer W tr [document] = inr chunks ->
        embeddings_answer W (tr ++ [SplitDocuments [document]])%list
          (map page_content chunks) = inr response ->
        let embeddings := map embedding (data response) in
        let tr2 := (tr ++ [SplitDocuments [document]; embed chunks])%list in
        let objects := prepared_objects W filename ".txt" tr2 (zip chunks embeddings) in
        zip objects embeddings = (done_pairs ++ failed :: rest)%list ->
        inserted W (tr2 ++ replicate (length objects) DatetimeNow)%list
          done_pairs ids trk ->
        insert_answer W trk (without_reserved failed.1) failed.2 = inl e ->
        ingest_text_content W text filename tr =
          (inr (failure e), (trk ++ [insert_of failed])%list))) /\
  (forall file_path filename tr,
     let name := match filename with
                 | Some f => if String.eqb f "" then basename file_path else f
                 | None => basename file_path
                 end in
     let file_type := snd (splitext name) in
     let failure e := {| r_success := false;
                         r_message := "Failed to ingest document: " +:+ str_exn e;
                         r_filename := name;
                         r_chunks_created := 0;
                         r_file_size := None;
                         r_document_ids := None |} in
     let embed chunks :=
       EmbeddingsCreate (azure_openai_embedding_deployment (settings W))
                        (map page_content chunks) in
     (exists r tr',
        ingest_document W file_path filename tr = (inr r, tr') /\
        r_filename r = name) /\
     (forall e,
        getsize_answer W tr file_path = inl e ->
        ingest_document W file_path filename tr =
          (inr (failure e), (tr ++ [PathGetsize file_path])%list)) /\
     (forall file_size,
        getsize_answer W tr file_path = inr file_size ->
        ~ supported_file_type W file_type ->
        ingest_document W file_path filename tr =
          (inr (failure (ValueError ("Unsupported file type: " +:+ file_type))),
           (tr ++ [PathGetsize file_path])%list)) /\
     (forall file_size loader,
        getsize_answer W tr file_path = inr file_size ->
        loader_of W file_type loader ->
        let tr1 := (tr ++ [PathGetsize file_path; LoaderLoad loader file_path])%list in
        (forall e,
           load_answer W (tr ++ [PathGetsize file_path])%list loader file_path = inl e ->
           ingest_document W file_path filename tr = (inr (failure e), tr1)) /\
        (forall documents e,
           load_answer W (tr ++ [PathGetsize file_path])%list loader file_path
             = inr documents ->
           split_documents_answer W tr1 documents = inl e ->
           ingest_document W file_path filename tr =
             (inr (failure e), (tr1 ++ [SplitDocuments documents])%list)) /\
        (forall documents chunks e,
           load_answer W (tr ++ [PathGetsize file_path])%list loader file_path
             = inr documents ->
           split_documents_answer W tr1 documents = inr chunks ->
           embeddings_answer W (tr1 ++ [SplitDocuments documents])%list
             (map page_content chunks) = inl e ->
           ingest_document W file_path filename tr =
             (inr (failure e),
              (tr1 ++ [SplitDocuments documents; embed chunks])%list)) /\
        (forall documents chunks response done_pairs failed rest ids trk e,
           load_answer W (tr ++ [PathGetsize file_path])%list loader file_path
             = inr documents ->
           split_documents_answer W tr1 documents = inr chunks ->
           embeddings_answer W (tr1 ++ [SplitDocuments documents])%list
             (map page_content chunks) = inr response ->
           let embeddings := map embedding (data response) in
           let tr3 := (tr1 ++ [SplitDocuments documents; embed chunks])%list in
           let objects :=
             prepared_objects W name file_type tr3 (zip chunks embeddings) in
           zip objects embeddings = (done_pairs ++ failed :: rest)%list ->
           inserted W (tr3 ++ replicate (length objects) DatetimeNow)%list
             done_pairs ids trk ->
           insert_answer W trk (without_reserved failed.1) failed.2 = inl e ->
           ingest_document W file_path filename tr =
             (inr (failure e), (trk ++ [insert_of failed])%list)))).
Proof.
  split.
  - intros text filename tr document failure embed.
    pose proof (ingest_text_content_run W text filename tr) as Hrun.
    cbv zeta in Hrun. fold document in Hrun.
    split; [| split; [| split]].
    + destruct (ingest_text_content_returns W text filename tr) as (r & tr' & Hr).
      exists r, tr'. split; [exact Hr |].
      rewrite Hrun in Hr. revert Hr.
      destruct (split_documents_answer W tr [document]) as [e | chunks];
        [intros [= <- _]; reflexivity |].
      destruct (embeddings_answer W _ _) as [e | response];
        [intros [= <- _]; reflexivity |].
      match goal with
      | |- context [add_documents_loop W ?pairs [] ?t] =>
          destruct (add_documents_loop W pairs [] t) as [[e | ids] tr4]
      end; intros [= <- _]; reflexivity.
    + intros e Hsplit. rewrite Hrun, Hsplit. reflexivity.
    + intros chunks e Hsplit Hembed. rewrite Hrun, Hsplit, Hembed. reflexivity.
    + intros chunks response done_pairs failed rest ids trk e Hsplit Hembed
        embeddings tr2 objects Hpairs Hins Hfail.
      rewrite Hrun, Hsplit, Hembed.
      match goal with
      | |- context [add_documents_loop W ?pairs [] ?t] =>
          change (add_documents_loop W pairs [] t) with
            (add_documents_loop W (zip objects embeddings) []
               (tr2 ++ replicate (length objects) DatetimeNow)%list)
      end.
      rewrite Hpairs.
      rewrite (add_documents_loop_refused W done_pairs failed rest _ ids trk e Hins Hfail).
      reflexivity.
  - intros file_path filename tr name file_type failure embed.
    assert (Hname : effective_filename file_path filename = name).
    { unfold effective_filename, name, str_truthy.
      destruct filename as [f |]; [| reflexivity].
      destruct (String.eqb f ""); reflexivity. }
    pose proof (ingest_document_run W file_path filename tr) as Hrun.
    cbv zeta in Hrun. rewrite Hname in Hrun. fold file_type in Hrun.
    split; [| split; [| split]].
    + destruct (ingest_document_returns W file_path filename tr) as (r & tr' & Hr).
      exists r, tr'. split; [exact Hr |].
      rewrite Hrun in Hr. revert Hr.
      destruct (getsize_answer W tr file_path) as [e | file_size];
        [intros [= <- _]; reflexivity |].
      destruct (load_document W file_path file_type _) as [[e | documents] tr1];
        [intros [= <- _]; reflexivity |].
      destruct (split_documents_answer W tr1 documents) as [e | chunks];
        [intros [= <- _]; reflexivity |].
      destruct (embeddings_answer W _ _) as [e | response];
        [intros [= <- _]; reflexivity |].
      match goal with
      | |- context [add_documents_loop W ?pairs [] ?t] =>
          destruct (add_documents_loop W pairs [] t) as [[e | ids] tr4]
      end; intros [= <- _]; reflexivity.
    + intros e Hsize. rewrite Hrun, Hsize. reflexivity.
    + intros file_size Hsize Hunsupported.
      rewrite Hrun, Hsize, (load_document_unsupported W _ _ _ Hunsupported).
      reflexivity.
    + intros file_size loader Hsize Hloader tr1.
      rewrite Hrun, Hsize, (load_document_with W _ _ _ _ Hloader).
      replace ((tr ++ [PathGetsize file_path]) ++ [LoaderLoad loader file_path])%list
        with tr1 by (unfold tr1; rewrite <- app_assoc; reflexivity).
      split; [| split; [| split]].
      * intros e ->. reflexivity.
      * intros documents e -> ->. reflexivity.
      * intros documents chunks e -> -> ->. reflexivity.
      * intros documents chunks response done_pairs failed rest ids trk e
          -> -> -> embeddings tr3 objects Hpairs Hins Hfail.
        match goal with
        | |- context [add_documents_loop W ?pairs [] ?t] =>
            change (add_documents_loop W pairs [] t) with
              (add_documents_loop W (zip objects embeddings) []
                 (tr3 ++ replicate (length objects) DatetimeNow)%list)
        end.
        rewrite Hpairs.
        rewrite (add_documents_loop_refused W done_pairs failed rest _ ids trk e
                   Hins Hfail).
        reflexivity.
Qed.

Lemma pipelines_report_failures_witness :
  ingest_text_content scenario.calm "   " "text_input" [] =
    (inr {| r_success := false;
            r_message :=
              "Failed to ingest text content: Error code: 400 - input must not be empty";
            r_filename := "text_input";
            r_chunks_created := 0;
            r_file_size := None;
            r_document_ids := None |},
     [ SplitDocuments
         [ {| page_content := "   ";
              doc_metadata := {[ "source" := VStr "text_input" ]} |} ];
       EmbeddingsCreate "text-embedding-ada-002" [] ]) /\
  ingest_document scenario.calm "/data/table.csv" None [] =
    (inr {| r_success := false;
            r_message := "Failed to ingest document: Unsupported file type: .csv";
            r_filename := "table.csv";
            r_chunks_created := 0;
            r_file_size := None;
            r_document_ids := None |},
     [ PathGetsize "/data/table.csv" ]).
Proof.
  destruct (pipelines_report_failures scenario.calm) as [Htext Hfile].
  split.
  - apply (proj1 (proj2 (proj2 (Htext "   " "text_input" []))) []
             (ExternalError "Error code: 400 - input must not be empty"));
      reflexivity.
  - apply (proj1 (proj2 (proj2 (Hfile "/data/table.csv" None []))) 2048);
      [reflexivity |].
    unfold supported_file_type. vm_compute. intros Hin.
    repeat (apply elem_of_cons in Hin as [Hin | Hin]; [discriminate Hin |]).
    apply elem_of_nil in Hin. exact Hin.
Defined.

(** X9: a successful file ingestion names the file by the given filename
    or, without one, by the base name of the path, and reports the size the
    file system gave for the path, the number of chunks the splitter made of
    the loaded documents, and the identifiers the store generated, in
    order, for the inserts of this ingestion. *)
Theorem file_ingestion_result (W : World) (file_path : string)
    (filename : option string) (tr tr' : list call) (r : IngestResult) :
  ingest_document W file_path filename tr = (inr r, tr') ->
  r_success r = true ->
  let name := match filename with
              | Some f => if String.eqb f "" then basename file_path else f
              | None => basename file_path
              end in
  let file_type := snd (splitext name) in
  exists file_size loader documents chunks response ids,
    getsize_answer W tr file_path = inr file_size /\
    loader_of W file_type loader /\
    load_answer W (tr ++ [PathGetsize file_path])%list loader file_path
      = inr documents /\
    let tr1 := (tr ++ [PathGetsize file_path; LoaderLoad loader file_path])%list in
    split_documents_answer W tr1 documents = inr chunks /\
    embeddings_answer W (tr1 ++ [SplitDocuments documents])%list
      (map page_content chunks) = inr response /\
    let embeddings := map embedding (data response) in
    let tr3 :=
      (tr1 ++ [ SplitDocuments documents;
                EmbeddingsCreate (azure_openai_embedding_deployment (settings W))
                                 (map page_content chunks) ])%list in
    let objects := prepared_objects W name file_type tr3 (zip chunks embeddings) in
    inserted W (tr3 ++ replicate (length objects) DatetimeNow)%list
      (zip objects embeddings) ids tr' /\
    r = {| r_success := true;
           r_message := "Successfully ingested " +:+ name;
           r_filename := name;
           r_chunks_created := Z.of_nat (length chunks);
           r_file_size := Some file_size;
           r_document_ids := Some ids |}.
Proof.
  intros Hr Hok name file_type.
  assert (Hname : effective_filename file_path filename = name).
  { unfold effective_filename, name, str_truthy.
    destruct filename as [f |]; [| reflexivity].
    destruct (String.eqb f ""); reflexivity. }
  pose proof (ingest_document_run W file_path filename tr) as Hrun.
  cbv zeta in Hrun. rewrite Hname in Hrun. fold file_type in Hrun.
  rewrite Hrun in Hr. clear Hrun. revert Hr.
  destruct (getsize_answer W tr file_path) as [e | file_size];
    [intros [= <- _]; discriminate |].
  destruct (loader_of_cases W file_type) as [[loader Hloader] | Hunsupported].
  2: { rewrite (load_document_unsupported W _ _ _ Hunsupported).
       intros [= <- _]. discriminate. }
  rewrite (load_document_with W _ _ _ _ Hloader).
  destruct (load_answer W _ loader file_path) as [e | documents] eqn:Hload;
    [intros [= <- _]; discriminate |].
  replace ((tr ++ [PathGetsize file_path]) ++ [LoaderLoad loader file_path])%list
    with (tr ++ [PathGetsize file_path; LoaderLoad loader file_path])%list
    by (rewrite <- app_assoc; reflexivity).
  destruct (split_documents_answer W _ documents) as [e | chunks] eqn:Hsplit;
    [intros [= <- _]; discriminate |].
  destruct (embeddings_answer W _ _) as [e | response] eqn:Hembed;
    [intros [= <- _]; discriminate |].
  match goal with
  | |- context [add_documents_loop W ?pairs [] ?t] =>
      destruct (add_documents_loop W pairs [] t) as [[e | ids] tr4] eqn:Hadd
  end; [intros [= <- _]; discriminate |].
  intros [= <- <-].
  apply add_documents_loop_returns in Hadd as (new & -> & Hins).
  exists file_size, loader, documents, chunks, response, new.
  split; [reflexivity |]. split; [exact Hloader |]. split; [exact Hload |].
  cbv zeta. split; [exact Hsplit |]. split; [exact Hembed |].
  split; [exact Hins | reflexivity].
Qed.

Lemma file_ingestion_result_witness :
  ingest_document scenario.calm "/srv/in/figures.txt" None [] =
    (inr {| r_success := true;
            r_message := "Successfully ingested figures.txt";
            r_filename := "figures.txt";
            r_chunks_created := 1;
            r_file_size := Some 2048;
            r_document_ids := Some ["uuid-5"] |},
     [ PathGetsize "/srv/in/figures.txt";
       LoaderLoad TextLoader "/srv/in/figures.txt";
       SplitDocuments [ {| page_content := "Quarterly figures."; doc_metadata := ∅ |} ];
       EmbeddingsCreate "text-embedding-ada-002" ["Quarterly figures."];
       DatetimeNow;
       DataInsert
         (<[ "content" := VStr "Quarterly figures." ]>
          (<[ "filename" := VStr "figures.txt" ]>
          (<[ "chunk_index" := VInt 0 ]>
          (<[ "file_type" := VStr ".txt" ]>
          (<[ "upload_date" := VStr "2024-05-02T08:30:00Z" ]> ∅)))))
         [float_of_Z 18] ]) /\
  exists ids,
    inserted scenario.calm
      [ PathGetsize "/srv/in/figures.txt";
        LoaderLoad TextLoader "/srv/in/figures.txt";
        SplitDocuments [ {| page_content := "Quarterly figures."; doc_metadata := ∅ |} ];
        EmbeddingsCreate "text-embedding-ada-002" ["Quarterly figures."];
        DatetimeNow ]
      [ (<[ "content" := VStr "Quarterly figures." ]>
         (<[ "filename" := VStr "figures.txt" ]>
         (<[ "chunk_index" := VInt 0 ]>
         (<[ "file_type" := VStr ".txt" ]>
         (<[ "upload_date" := VStr "2024-05-02T08:30:00Z" ]> ∅)))),
         [float_of_Z 18]) ]
      ids
      [ PathGetsize "/srv/in/figures.txt";
        LoaderLoad TextLoader "/srv/in/figures.txt";
        SplitDocuments [ {| page_content := "Quarterly figures."; doc_metadata := ∅ |} ];
        EmbeddingsCreate "text-embedding-ada-002" ["Quarterly figures."];
        DatetimeNow;
        DataInsert
          (<[ "content" := VStr "Quarterly figures." ]>
           (<[ "filename" := VStr "figures.txt" ]>
           (<[ "chunk_index" := VInt 0 ]>
           (<[ "file_type" := VStr ".txt" ]>
           (<[ "upload_date" := VStr "2024-05-02T08:30:00Z" ]> ∅)))))
          [float_of_Z 18] ] /\
    ids = ["uuid-5"].
Proof.
  split; [vm_compute; reflexivity |].
  destruct (file_ingestion_result scenario.calm "/srv/in/figures.txt" None []
              [ PathGetsize "/srv/in/figures.txt";
                LoaderLoad TextLoader "/srv/in/figures.txt";
                SplitDocuments
                  [ {| page_content := "Quarterly figures."; doc_metadata := ∅ |} ];
                EmbeddingsCreate "text-embedding-ada-002" ["Quarterly figures."];
                DatetimeNow;
                DataInsert
                  (<[ "content" := VStr "Quarterly figures." ]>
                   (<[ "filename" := VStr "figures.txt" ]>
                   (<[ "chunk_index" := VInt 0 ]>
                   (<[ "file_type" := VStr ".txt" ]>
                   (<[ "upload_date" := VStr "2024-05-02T08:30:00Z" ]> ∅)))))
                  [float_of_Z 18] ]
              {| r_success := true;
                 r_message := "Successfully ingested figures.txt";
                 r_filename := "figures.txt";
                 r_chunks_created := 1;
                 r_file_size := Some 2048;
                 r_document_ids := Some ["uuid-5"] |})
    as (file_size & loader & documents & chunks & response & ids
        & Hsize & Hloader & Hload & Hsplit & Hembed & Hins & Hr);
    [vm_compute; reflexivity | reflexivity |].
  exists ids. split; [| congruence].
  assert (Hl : loader = TextLoader).
  { destruct Hloader as [[Heq _] | [[Heq _] | [_ ->]]];
      [discriminate Heq | discriminate Heq | reflexivity]. }
  subst loader. cbn in Hload. injection Hload as <-.
  cbn in Hsplit. injection Hsplit as <-.
  cbn in Hembed. injection Hembed as <-.
  exact Hins.
Defined.

(** ** Errors of the endpoints *)

(** X10: the ingest-by-text endpoint fails in two ways only.  It raises
    status 400, [Text content is required], exactly when the text is missing
    or empty; otherwise it raises exactly when the pipeline returns a
    failure dict, and then with status 500 and the message of that dict,
    which is the fixed prefix followed by the text of the exception the
    pipeline caught. *)
Theorem ingest_text_errors (W : World) (request : IngestRequest) (tr : list call) :
  let name := match req_filename request with
              | Some f => if String.eqb f "" then "text_input" else f
              | None => "text_input"
              end in
  (forall e,
     outcome (ingest_text W request) tr = inl e ->
     (e = HTTPException 400 "Text content is required" /\
      (text_content request = None \/ text_content request = Some "")) \/
     (exists text r cause,
        text_content request = Some text /\
        text <> "" /\
        outcome (ingest_text_content W text name) tr = inr r /\
        r_success r = false /\
        r_message r = "Failed to ingest text content: " +:+ str_exn cause /\
        e = HTTPException 500 (r_message r))) /\
  (text_content request = None \/ text_content request = Some "" ->
   ingest_text W request tr =
     (inl (HTTPException 400 "Text content is required"), tr)) /\
  (forall text r tr',
     text_content request = Some text ->
     text <> "" ->
     ingest_text_content W text name tr = (inr r, tr') ->
     r_success r = false ->
     ingest_text W request tr = (inl (HTTPException 500 (r_message r)), tr')).
Proof.
  intros name.
  assert (Hname : match req_filename request with
                  | Some f => if str_truthy f then f else "text_input"
                  | None => "text_input"
                  end = name).
  { unfold name, str_truthy. destruct (req_filename request) as [f |]; [| reflexivity].
    destruct (String.eqb f ""); reflexivity. }
  assert (Hpipeline : forall text, text_content request = Some text -> text <> "" ->
    ingest_text W request tr =
      match ingest_text_content W text name tr with
      | (inl e, tr') =>
          (if is_http e then inl e
           else inl (HTTPException 500 ("Failed to ingest text: " +:+ str_exn e)), tr')
      | (inr r, tr') =>
          if r_success r
          then (inr {| success := true;
                       message := r_message r;
                       document_id := first_document_id r;
                       chunks_created := r_chunks_created r |}, tr')
          else (inl (HTTPException 500 (r_message r)), tr')
      end).
  { intros text Htext Hne. unfold ingest_text, http_errors.
    rewrite try_except_run, Htext.
    assert (Htruthy : negb (str_truthy text) = false).
    { unfold str_truthy.
      destruct (String.eqb_spec text ""); [contradiction | reflexivity]. }
    rewrite Htruthy, bind_run, Hname.
    destruct (ingest_text_content W text name tr) as [[e | r] tr'].
    - destruct (is_http e); reflexivity.
    - destruct (r_success r); reflexivity. }
  split; [| split].
  - intros e Herr.
    destruct (text_content request) as [text |] eqn:Htext.
    2: { left. unfold outcome in Herr.
         rewrite (ingest_text_without_text W request tr) in Herr by auto.
         simpl in Herr. split; [congruence | auto]. }
    destruct (String.eqb_spec text "") as [-> | Hne].
    { left. unfold outcome in Herr.
      rewrite (ingest_text_without_text W request tr) in Herr by auto.
      simpl in Herr. split; [congruence | auto]. }
    right. unfold outcome in Herr. rewrite (Hpipeline text eq_refl Hne) in Herr.
    destruct (ingest_text_content_returns W text name tr) as (r & tr' & Hrun).
    rewrite Hrun in Herr.
    destruct (r_success r) eqn:Hok; [discriminate |].
    destruct (ingest_text_content_failure W _ _ _ _ _ Hrun Hok) as [cause Hr].
    exists text, r, cause. unfold outcome. rewrite Hrun.
    split; [reflexivity |]. split; [exact Hne |]. split; [reflexivity |].
    split; [exact Hok |]. split; [rewrite Hr; reflexivity |].
    simpl in Herr. congruence.
  - apply ingest_text_without_text.
  - intros text r tr' Htext Hne Hrun Hfail.
    rewrite (Hpipeline text Htext Hne), Hrun, Hfail. reflexivity.
Qed.

Lemma ingest_text_errors_witness :
  ingest_text_content scenario.calm "   " "text_input" [] =
    (inr {| r_success := false;
            r_message :=
              "Failed to ingest text content: Error code: 400 - input must not be empty";
            r_filename := "text_input";
            r_chunks_created := 0;
            r_file_size := None;
            r_document_ids := None |},
     [ SplitDocuments
         [ {| page_content := "   ";
              doc_metadata := {[ "source" := VStr "text_input" ]} |} ];
       EmbeddingsCreate "text-embedding-ada-002" [] ]) /\
  ingest_text scenario.calm scenario.blank_text [] =
    (inl (HTTPException 500
            "Failed to ingest text content: Error code: 400 - input must not be empty"),
     [ SplitDocuments
         [ {| page_content := "   ";
              doc_metadata := {[ "source" := VStr "text_input" ]} |} ];
       EmbeddingsCreate "text-embedding-ada-002" [] ]).
Proof.
  split; [vm_compute; reflexivity |].
  apply (proj2 (proj2 (ingest_text_errors scenario.calm scenario.blank_text []))
           "   "
           {| r_success := false;
              r_message :=
                "Failed to ingest text content: Error code: 400 - input must not be empty";
              r_filename := "text_input";
              r_chunks_created := 0;
              r_file_size := None;
              r_document_ids := None |}).
  - reflexivity.
  - discriminate.
  - vm_compute. reflexivity.
  - reflexivity.
Defined.

(** X11: when no oracle of the file system raises an HTTP error of its own,
    every failure of the upload endpoint is an HTTP error of status 400 or
    500. *)
Theorem ingest_file_errors (W : World) (file : UploadFile) (tr : list call) (e : exn) :
  plain_file_errors W ->
  outcome (ingest_file W file) tr = inl e ->
  http_status_in [400; 500] e.
Proof.
  intros [Htemp Hunlink].
  assert (H400 : forall d, http_status_in [400; 500] (HTTPException 400 d)).
  { intros d. exists 400, d. split; [reflexivity |]. rewrite !elem_of_cons. auto. }
  assert (H500 : forall d, http_status_in [400; 500] (HTTPException 500 d)).
  { intros d. exists 500, d. split; [reflexivity |]. rewrite !elem_of_cons. auto. }
  unfold outcome, ingest_file, http_errors. rewrite try_except_run.
  destruct (bool_decide _); cbn [negb]; [| intros [= <-]; apply H400].
  rewrite bind_run. unfold extern at 1.
  destruct (_ <? _)%Z; [intros [= <-]; apply H400 |].
  rewrite bind_run. unfold extern at 1.
  destruct (tempfile_answer W _ _ _) as [e0 | temp_file_path] eqn:Hanswer.
  { rewrite (Htemp _ _ _ _ Hanswer). intros [= <-]. apply H500. }
  unfold try_finally. rewrite bind_run.
  match goal with
  | |- context [ingest_document W ?p ?f ?t] =>
      destruct (ingest_document_returns W p f t) as (r & tr' & ->)
  end.
  unfold extern.
  destruct (r_success r); cbn [negb]; unfold raise, ret; cbn beta iota;
    match goal with
    | |- context [unlink_answer W ?t ?p] =>
        destruct (unlink_answer W t p) as [e1 | []] eqn:Hgone;
        [rewrite (Hunlink _ _ _ Hgone); intros [= <-]; apply H500 |]
    end.
  - discriminate.
  - intros [= <-]. apply H500.
Qed.

Lemma calm_plain_file_errors : plain_file_errors scenario.calm.
Proof. split; intros; discriminate. Qed.

Lemma ingest_file_errors_witness :
  plain_file_errors scenario.calm /\
  outcome (ingest_file scenario.calm scenario.docx_upload) [] =
    inl (HTTPException 500 "Failed to ingest document: Unsupported file type: .docx") /\
  http_status_in [400; 500]
    (HTTPException 500 "Failed to ingest document: Unsupported file type: .docx").
Proof.
  split; [exact calm_plain_file_errors |]. split; [vm_compute; reflexivity |].
  apply (ingest_file_errors scenario.calm scenario.docx_upload []).
  - exact calm_plain_file_errors.
  - vm_compute. reflexivity.
Defined.

(** X12: when the retrieval step of a chat request fails, the endpoint
    answers with status 500 and the text of the failure, and the chat model
    is not called: the calls made are those of the retrieval step. *)
Theorem chat_retrieval_failure (W : World) (request : ChatRequest)
    (tr tr1 : list call) (cause : exn) :
  retrieve_relevant_documents W (req_message request) None tr = (inl cause, tr1) ->
  chat_stream W request tr =
    (inl (HTTPException 500 ("Chat failed: " +:+ str_exn cause)), tr1) /\
  exists new, tr1 = (tr ++ new)%list /\ forallb retrieval_call new = true.
Proof.
  intros Hfail. split.
  - unfold chat_stream. rewrite try_except_run, bind_run, Hfail. reflexivity.
  - destruct (emits_retrieve_relevant_documents W (req_message request) None tr)
      as (new & Hnew & Hcalls).
    unfold log_after in Hnew. rewrite Hfail in Hnew. eauto.
Qed.

Lemma chat_retrieval_failure_witness :
  chat_stream scenario_more.refusing scenario.long_chat [] =
    (inl (HTTPException 500 "Chat failed: connection refused"),
     [ EmbeddingsCreate "text-embedding-ada-002" ["How do I install it?"];
       QueryNearVector [float_of_Z 20] 5 ]).
Proof.
  apply (chat_retrieval_failure scenario_more.refusing scenario.long_chat []
           [ EmbeddingsCreate "text-embedding-ada-002" ["How do I install it?"];
             QueryNearVector [float_of_Z 20] 5 ]
           (ExternalError "connection refused")).
  vm_compute. reflexivity.
Defined.

(** X13: a streaming chat request fails only when its retrieval step fails;
    once the retrieval results are there, a failure of the chat model is
    reported inside the stream and the endpoint returns normally. *)
Theorem streaming_chat_fails_on_retrieval_only (W : World) (request : ChatRequest)
    (tr : list call) (e : exn) :
  req_stream request = true ->
  outcome (chat_stream W request) tr = inl e ->
  exists cause,
    outcome (retrieve_relevant_documents W (req_message request) None) tr = inl cause /\
    e = HTTPException 500 ("Chat failed: " +:+ str_exn cause).
Proof.
  intros Hstream Herr. unfold outcome in *.
  destruct (retrieve_relevant_documents W (req_message request) None tr)
    as [[cause | relevant_docs] tr1] eqn:Hdocs.
  - exists cause. split; [reflexivity |].
    destruct (chat_retrieval_failure W request tr tr1 cause Hdocs) as [Hrun _].
    rewrite Hrun in Herr. simpl in Herr. congruence.
  - destruct (chat_stream_streaming W request tr relevant_docs tr1 Hstream Hdocs)
      as (messages & body & tr' & _ & Hrun).
    rewrite Hrun in Herr. discriminate.
Qed.

Lemma streaming_chat_fails_on_retrieval_only_witness :
  exists cause,
    outcome (retrieve_relevant_documents scenario_more.refusing
               (req_message scenario.long_chat) None) [] = inl cause /\
    HTTPException 500 "Chat failed: connection refused"
      = HTTPException 500 ("Chat failed: " +:+ str_exn cause).
Proof.
  apply (streaming_chat_fails_on_retrieval_only scenario_more.refusing
           scenario.long_chat []).
  - reflexivity.
  - vm_compute. reflexivity.
Defined.

(** ** The store gateway *)

Lemma without_reserved_lookup (doc : gmap string value) (key : string) :
  without_reserved doc !! key =
  if bool_decide (key ∈ ["id"; "vector"]) then None else doc !! key.
Proof.
  unfold without_reserved.
  destruct (doc !! key) as [v |] eqn:Hkey.
  - case_bool_decide as Hreserved.
    + apply map_lookup_filter_None. right. intros v' Hv'. simpl. tauto.
    + apply map_lookup_filter_Some. split; [exact Hkey | exact Hreserved].
  - destruct (bool_decide _); apply map_lookup_filter_None; auto.
Qed.

(** X14: what [add_documents] sends to the store never has the key [id] or
    the key [vector]; every other key of the document is sent with its
    value. *)
Theorem reserved_keys_not_stored (W : World)
    (documents : list (gmap string value)) (vectors : list (list float))
    (tr : list call) :
  exists new,
    log_after (add_documents W documents vectors) tr = (tr ++ new)%list /\
    forall c, c ∈ new ->
      exists doc vector,
        doc ∈ documents /\
        c = DataInsert (without_reserved doc) vector /\
        without_reserved doc !! "id" = None /\
        without_reserved doc !! "vector" = None /\
        forall key, key <> "id" -> key <> "vector" ->
                    without_reserved doc !! key = doc !! key.
Proof.
  unfold log_after, add_documents. rewrite log_and_reraise_id.
  assert (Hloop : forall pairs uuids tr0,
    exists new,
      snd (add_documents_loop W pairs uuids tr0) = (tr0 ++ new)%list /\
      forall c, c ∈ new -> exists pair, pair ∈ pairs /\ c = insert_of pair).
  { induction pairs as [|[doc vector] rest IH]; intros uuids tr0.
    - exists []. simpl. rewrite app_nil_r. split; [reflexivity |].
      intros c Hc. apply elem_of_nil in Hc. contradiction.
    - simpl. rewrite bind_run. unfold extern at 1.
      destruct (insert_answer W tr0 (without_reserved doc) vector) as [e | uuid].
      + exists [insert_of (doc, vector)]. split; [reflexivity |].
        intros c Hc. apply list_elem_of_singleton in Hc as ->.
        exists (doc, vector). split; [left | reflexivity].
      + destruct (IH (uuids ++ [uuid])%list
                     (tr0 ++ [DataInsert (without_reserved doc) vector])%list)
          as (new & Hnew & Hcalls).
        exists (insert_of (doc, vector) :: new). split.
        * rewrite Hnew, <- app_assoc. reflexivity.
        * intros c Hc. apply elem_of_cons in Hc as [-> | Hc].
          -- exists (doc, vector). split; [left | reflexivity].
          -- destruct (Hcalls c Hc) as (pair & Hpair & ->).
             exists pair. split; [right; exact Hpair | reflexivity]. }
  destruct (Hloop (zip documents vectors) [] tr) as (new & Hnew & Hcalls).
  exists new. split; [exact Hnew |].
  intros c Hc. destruct (Hcalls c Hc) as ([doc vector] & Hpair & ->).
  exists doc, vector. split; [eapply elem_of_zip_l, Hpair |].
  split; [reflexivity |].
  rewrite !without_reserved_lookup.
  split; [reflexivity |]. split; [reflexivity |].
  intros key Hid Hvector.
  rewrite without_reserved_lookup, bool_decide_eq_false_2; [reflexivity |].
  rewrite !elem_of_cons, elem_of_nil. tauto.
Qed.

(** X15: when the store refuses the insert of a pair, [add_documents]
    raises that exception and returns no identifier, although the inserts
    of the pairs before it were made and accepted; no insert is tried for
    the pairs after it.  And [add_documents] raises in no other way. *)
Theorem insert_failure_keeps_earlier_inserts (W : World)
    (documents : list (gmap string value)) (vectors : list (list float))
    (tr : list call) :
  (forall done_pairs failed rest ids trk e,
     zip documents vectors = (done_pairs ++ failed :: rest)%list ->
     inserted W tr done_pairs ids trk ->
     insert_answer W trk (without_reserved failed.1) failed.2 = inl e ->
     add_documents W documents vectors tr =
       (inl e, (tr ++ map insert_of done_pairs ++ [insert_of failed])%list)) /\
  (forall e tr',
     add_documents W documents vectors tr = (inl e, tr') ->
     exists done_pairs failed rest ids trk,
       zip documents vectors = (done_pairs ++ failed :: rest)%list /\
       inserted W tr done_pairs ids trk /\
       insert_answer W trk (without_reserved failed.1) failed.2 = inl e /\
       tr' = (tr ++ map insert_of done_pairs ++ [insert_of failed])%list).
Proof.
  unfold add_documents. split.
  - intros done_pairs failed rest ids trk e Hpairs Hins Hfail.
    rewrite log_and_reraise_id, Hpairs.
    rewrite (add_documents_loop_refused W done_pairs failed rest tr ids trk e Hins Hfail).
    rewrite (inserted_log W _ _ _ _ Hins), <- app_assoc. reflexivity.
  - intros e tr'. rewrite log_and_reraise_id.
    generalize (zip documents vectors) as pairs, (@nil string) as uuids.
    intros pairs. revert tr.
    induction pairs as [|[doc vector] rest IH]; intros tr uuids Hrun;
      [discriminate |].
    simpl in Hrun. rewrite bind_run in Hrun. unfold extern at 1 in Hrun.
    destruct (insert_answer W tr (without_reserved doc) vector) as [e0 | uuid] eqn:Hanswer.
    + injection Hrun as <- <-.
      exists [], (doc, vector), rest, [], tr.
      split; [reflexivity |]. split; [constructor |]. split; [exact Hanswer |].
      reflexivity.
    + apply IH in Hrun as (done_pairs & failed & rest' & ids & trk & -> & Hins & Hfail & ->).
      exists ((doc, vector) :: done_pairs), failed, rest', (uuid :: ids), trk.
      split; [reflexivity |]. split; [now apply inserted_cons |].
      split; [exact Hfail |]. simpl. now rewrite <- !app_assoc.
Qed.

Lemma insert_failure_keeps_earlier_inserts_witness :
  zip scenario.three_docs [ [scenario.half]; [scenario.half]; [scenario.half] ] =
    ([ (scenario.plain_doc "alpha" 0, [scenario.half]) ] ++
     (<[ "id" := VStr "caller-chosen" ]> (scenario.plain_doc "beta" 1), [scenario.half])
     :: [ (scenario.plain_doc "gamma" 2, [scenario.half]) ])%list /\
  inserted scenario_more.refusing []
    [ (scenario.plain_doc "alpha" 0, [scenario.half]) ] ["uuid-0"]
    [ DataInsert (scenario.plain_doc "alpha" 0) [scenario.half] ] /\
  insert_answer scenario_more.refusing
    [ DataInsert (scenario.plain_doc "alpha" 0) [scenario.half] ]
    (without_reserved (<[ "id" := VStr "caller-chosen" ]> (scenario.plain_doc "beta" 1)))
    [scenario.half] = inl (ExternalError "store is read-only") /\
  add_documents scenario_more.refusing scenario.three_docs
    [ [scenario.half]; [scenario.half]; [scenario.half] ] [] =
    (inl (ExternalError "store is read-only"),
     [ DataInsert (scenario.plain_doc "alpha" 0) [scenario.half];
       DataInsert (scenario.plain_doc "beta" 1) [scenario.half] ]).
Proof.
  assert (Hpairs :
    zip scenario.three_docs [ [scenario.half]; [scenario.half]; [scenario.half] ] =
      ([ (scenario.plain_doc "alpha" 0, [scenario.half]) ] ++
       (<[ "id" := VStr "caller-chosen" ]> (scenario.plain_doc "beta" 1), [scenario.half])
       :: [ (scenario.plain_doc "gamma" 2, [scenario.half]) ])%list)
    by reflexivity.
  assert (Hins :
    inserted scenario_more.refusing []
      [ (scenario.plain_doc "alpha" 0, [scenario.half]) ] ["uuid-0"]
      [ DataInsert (scenario.plain_doc "alpha" 0) [scenario.half] ]).
  { apply (inserted_cons scenario_more.refusing [] (scenario.plain_doc "alpha" 0)
             [scenario.half] [] "uuid-0" []
             [ DataInsert (scenario.plain_doc "alpha" 0) [scenario.half] ]).
    - vm_compute. reflexivity.
    - replace (without_reserved (scenario.plain_doc "alpha" 0))
        with (scenario.plain_doc "alpha" 0) by (vm_compute; reflexivity).
      apply inserted_nil. }
  assert (Hfail :
    insert_answer scenario_more.refusing
      [ DataInsert (scenario.plain_doc "alpha" 0) [scenario.half] ]
      (without_reserved
         (<[ "id" := VStr "caller-chosen" ]> (scenario.plain_doc "beta" 1)))
      [scenario.half] = inl (ExternalError "store is read-only"))
    by reflexivity.
  split; [exact Hpairs |]. split; [exact Hins |]. split; [exact Hfail |].
  rewrite (proj1 (insert_failure_keeps_earlier_inserts scenario_more.refusing
                    scenario.three_docs
                    [ [scenario.half]; [scenario.half]; [scenario.half] ] [])
             _ _ _ _ _ _ Hpairs Hins Hfail).
  vm_compute. reflexivity.
Defined.

(** ** Retrieval and chat *)

(** X16: retrieval embeds the query alone, then searches with the first
    vector of the answer and with the given limit or, without one, the
    configured [max_retrieved_docs]; the results are those of the store, in
    its order.  When the embedding call fails or answers no vector, the
    store is not searched. *)
Theorem retrieval_steps (W : World) (query : string) (limit : option Z)
    (tr : list call) :
  let asked := EmbeddingsCreate (azure_openai_embedding_deployment (settings W)) [query] in
  let limit' := default (max_retrieved_docs (settings W)) limit in
  retrieve_relevant_documents W query limit tr =
  match embeddings_answer W tr [query] with
  | inl e => (inl e, (tr ++ [asked])%list)
  | inr response =>
      match data response with
      | [] => (inl (IndexError "list index out of range"), (tr ++ [asked])%list)
      | first :: _ =>
          (match near_vector_answer W (tr ++ [asked])%list (embedding first) limit' with
           | inl e => inl e
           | inr objects => inr (map search_result objects)
           end,
           (tr ++ [asked; QueryNearVector (embedding first) limit'])%list)
      end
  end.
Proof.
  intros asked limit'.
  unfold retrieve_relevant_documents. rewrite log_and_reraise_id.
  replace (match limit with
           | Some l => l
           | None => max_retrieved_docs (settings W)
           end) with limit' by (destruct limit; reflexivity).
  rewrite bind_run. unfold create_embedding.
  rewrite bind_run, create_embeddings_run. fold asked.
  destruct (embeddings_answer W tr [query]) as [e | response]; [reflexivity |].
  destruct (data response) as [|first others]; [reflexivity |].
  cbn [map]. unfold ret at 1. rewrite bind_run.
  unfold similarity_search. rewrite log_and_reraise_id.
  unfold bind, extern, ret. rewrite <- app_assoc.
  destruct (near_vector_answer W _ _ _); reflexivity.
Qed.

(** The messages [chat_stream] assembles, whatever the history is. *)
Lemma chat_stream_log (W : World) (request : ChatRequest) tr relevant_docs tr1 :
  retrieve_relevant_documents W (req_message request) None tr = (inr relevant_docs, tr1) ->
  exists system user,
    create_rag_prompt (req_message request) relevant_docs = [system; user] /\
    log_after (chat_stream W request) tr =
      (tr1 ++ [ChatCompletionsCreate (azure_openai_deployment_name (settings W))
                 (system :: map history_message
                              (slice_last 10 (default [] (conversation_history request)))
                         ++ [user])
                 (temperature (settings W)) (max_tokens (settings W))
                 (req_stream request)])%list.
Proof.
  intros Hdocs. eexists _, _. split; [reflexivity |].
  unfold log_after, chat_stream. rewrite try_except_run, bind_run, Hdocs.
  assert (Htail : forall messages,
    snd (let (s, tr') :=
           (if req_stream request
            then bind (generate_response W relevant_docs messages)
                      (fun body => ret (StreamingResponse body))
            else bind (chat_completion W messages (temperature (settings W))
                         (max_tokens (settings W)))
                      (fun response_content =>
                         ret (JSONResponse
                                {| response := response_content;
                                   sources := map (fun doc => md_filename (rr_metadata doc))
                                                relevant_docs;
                                   conversation_id := None |}))) tr1 in
         match s with
         | inl e => raise (HTTPException 500 ("Chat failed: " +:+ str_exn e)) tr'
         | inr a => (inr a, tr')
         end) =
    (tr1 ++ [ChatCompletionsCreate (azure_openai_deployment_name (settings W)) messages
               (temperature (settings W)) (max_tokens (settings W))
               (req_stream request)])%list).
  { intros messages. destruct (req_stream request).
    - unfold generate_response. rewrite !bind_run, chat_completion_stream_run.
      reflexivity.
    - unfold chat_completion. rewrite bind_run, log_and_reraise_id.
      unfold bind, extern, ret.
      destruct (chat_answer W tr1 _ _ _) as [e | completion]; [reflexivity |].
      destruct (choices completion) as [|c cs]; [reflexivity |].
      destruct (message_content (choice_message c)); reflexivity. }
  destruct (conversation_history request) as [[|first_turn turns] |];
    rewrite bind_run; unfold getitem, create_rag_prompt;
    cbn [lookup list_lookup default].
  - unfold ret at 1. apply Htail.
  - unfold bind at 1 2, ret at 1 2 3. cbn beta iota. apply Htail.
  - unfold ret at 1. apply Htail.
Qed.

(** X17: with a history of at most 10 messages, the prompt sent to the
    model is the system message, all history messages in their order, each
    with its role and its content and without its timestamp, and the user
    message; with no history it is the two messages alone. *)
Theorem short_history_kept (W : World) (request : ChatRequest)
    (tr tr1 : list call) (relevant_docs : list RetrievalResult) :
  (length (default [] (conversation_history request)) <= 10)%nat ->
  retrieve_relevant_documents W (req_message request) None tr = (inr relevant_docs, tr1) ->
  exists system user,
    create_rag_prompt (req_message request) relevant_docs = [system; user] /\
    log_after (chat_stream W request) tr =
      (tr1 ++ [ChatCompletionsCreate (azure_openai_deployment_name (settings W))
                 (system ::
                  map (fun m => {| msg_role := cm_role m; msg_content := cm_content m |})
                    (default [] (conversation_history request))
                  ++ [user])
                 (temperature (settings W)) (max_tokens (settings W))
                 (req_stream request)])%list.
Proof.
  intros Hshort Hdocs.
  destruct (chat_stream_log W request tr relevant_docs tr1 Hdocs)
    as (system & user & Hprompt & Hlog).
  exists system, user. split; [exact Hprompt |]. rewrite Hlog.
  unfold slice_last.
  replace (length (default [] (conversation_history request)) - 10)%nat with 0%nat by lia.
  reflexivity.
Qed.

Lemma short_history_kept_witness :
  (length (default [] (conversation_history scenario_more.short_chat)) <= 10)%nat /\
  exists system user,
    create_rag_prompt "How do I install it?" (map search_result scenario.hits)
      = [system; user] /\
    log_after (chat_stream scenario.calm scenario_more.short_chat) [] =
      ([ EmbeddingsCreate "text-embedding-ada-002" ["How do I install it?"];
         QueryNearVector [float_of_Z 20] 5 ] ++
       [ ChatCompletionsCreate "gpt-35-turbo"
           (system ::
            map (fun m => {| msg_role := cm_role m; msg_content := cm_content m |})
              (map scenario.turn (seq 0 3))
            ++ [user])
           (temperature default_settings) 1000 false ])%list.
Proof.
  split; [simpl; lia |].
  apply (short_history_kept scenario.calm scenario_more.short_chat []
           [ EmbeddingsCreate "text-embedding-ada-002" ["How do I install it?"];
             QueryNearVector [float_of_Z 20] 5 ]
           (map search_result scenario.hits)).
  - simpl; lia.
  - reflexivity.
Defined.

(** X18: a non-streaming chat request whose retrieval succeeded is answered
    with the text of the first choice of the model (the empty string when
    that choice has no content, a fixed sentence when there is no choice)
    and with the filename of every retrieval result, in their order,
    repeats kept; a failure of the model becomes status 500. *)
Theorem complete_chat_answer (W : World) (request : ChatRequest)
    (tr tr1 : list call) (relevant_docs : list RetrievalResult) :
  req_stream request = false ->
  retrieve_relevant_documents W (req_message request) None tr = (inr relevant_docs, tr1) ->
  exists messages,
    log_after (chat_stream W request) tr =
      (tr1 ++ [ChatCompletionsCreate (azure_openai_deployment_name (settings W))
                 messages (temperature (settings W)) (max_tokens (settings W)) false])%list /\
    outcome (chat_stream W request) tr =
      match chat_answer W tr1 messages (temperature (settings W)) (max_tokens (settings W)) with
      | inl e => inl (HTTPException 500 ("Chat failed: " +:+ str_exn e))
      | inr completion =>
          inr (JSONResponse
                 {| response :=
                      match choices completion with
                      | [] => "No response generated"
                      | first :: _ => default "" (message_content (choice_message first))
                      end;
                    sources := map (fun doc => md_filename (rr_metadata doc)) relevant_docs;
                    conversation_id := None |})
      end.
Proof.
  intros Hstream Hdocs.
  destruct (chat_stream_log W request tr relevant_docs tr1 Hdocs)
    as (system & user & Hprompt & Hlog).
  rewrite Hstream in Hlog. eexists. split; [exact Hlog |].
  unfold outcome, chat_stream. rewrite try_except_run, bind_run, Hdocs, Hstream.
  assert (Hanswer : forall messages,
    chat_completion W messages (temperature (settings W)) (max_tokens (settings W)) tr1 =
    (match chat_answer W tr1 messages (temperature (settings W)) (max_tokens (settings W)) with
     | inl e => inl e
     | inr completion =>
         inr match choices completion with
             | [] => "No response generated"
             | first :: _ => default "" (message_content (choice_message first))
             end
     end,
     (tr1 ++ [ChatCompletionsCreate (azure_openai_deployment_name (settings W))
                messages (temperature (settings W)) (max_tokens (settings W)) false])%list)).
  { intros messages. unfold chat_completion. rewrite log_and_reraise_id.
    unfold bind, extern, ret.
    destruct (chat_answer W tr1 _ _ _) as [e | completion]; [reflexivity |].
    destruct (choices completion) as [|c cs]; [reflexivity |].
    destruct (message_content (choice_message c)) as [text |]; [| reflexivity].
    unfold str_truthy. destruct (String.eqb_spec text "") as [-> | _]; reflexivity. }
  rewrite Hprompt.
  destruct (conversation_history request) as [[|first_turn turns] |];
    rewrite bind_run; unfold getitem; cbn [lookup list_lookup default].
  - unfold ret at 1. rewrite bind_run, Hanswer.
    destruct (chat_answer W tr1 _ _ _) as [e | completion]; reflexivity.
  - unfold bind at 1 2, ret at 1 2 3. cbn beta iota. rewrite bind_run, Hanswer.
    destruct (chat_answer W tr1 _ _ _) as [e | completion]; reflexivity.
  - unfold ret at 1. rewrite bind_run, Hanswer.
    destruct (chat_answer W tr1 _ _ _) as [e | completion]; reflexivity.
Qed.

Lemma complete_chat_answer_witness :
  exists messages,
    log_after (chat_stream scenario.calm scenario_more.short_chat) [] =
      ([ EmbeddingsCreate "text-embedding-ada-002" ["How do I install it?"];
         QueryNearVector [float_of_Z 20] 5 ] ++
       [ ChatCompletionsCreate
           (azure_openai_deployment_name (settings scenario.calm))
           messages (temperature (settings scenario.calm))
           (max_tokens (settings scenario.calm)) false ])%list /\
    outcome (chat_stream scenario.calm scenario_more.short_chat) [] =
      match chat_answer scenario.calm
              [ EmbeddingsCreate "text-embedding-ada-002" ["How do I install it?"];
                QueryNearVector [float_of_Z 20] 5 ]
              messages (temperature (settings scenario.calm))
              (max_tokens (settings scenario.calm)) with
      | inl e => inl (HTTPException 500 ("Chat failed: " +:+ str_exn e))
      | inr completion =>
          inr (JSONResponse
                 {| response :=
                      match choices completion with
                      | [] => "No response generated"
                      | first :: _ => default "" (message_content (choice_message first))
                      end;
                    sources := map (fun doc => md_filename (rr_metadata doc))
                                 (map search_result scenario.hits);
                    conversation_id := None |})
      end.
Proof.
  apply (complete_chat_answer scenario.calm scenario_more.short_chat []
           [ EmbeddingsCreate "text-embedding-ada-002" ["How do I install it?"];
             QueryNearVector [float_of_Z 20] 5 ]
           (map search_result scenario.hits)).
  - reflexivity.
  - reflexivity.
Defined.

(** ** Responses of the text endpoint *)

(** X19: a response of the ingest-by-text endpoint always has
    [success = True]; it repeats the message and the chunk count of the
    pipeline result, names the text by the given filename or [text_input],
    and its [document_id] is the first identifier of the result, or absent
    when the result has no identifier. *)
Theorem ingest_text_response (W : World) (request : IngestRequest)
    (tr : list call) (resp : IngestResponse) :
  outcome (ingest_text W request) tr = inr resp ->
  exists text r ids,
    text_content request = Some text /\
    text <> "" /\
    outcome (ingest_text_content W text
               (if str_truthy (default "" (req_filename request))
                then default "" (req_filename request) else "text_input")) tr = inr r /\
    r_success r = true /\
    r_document_ids r = Some ids /\
    resp = {| success := true;
              message := "Successfully ingested text content";
              document_id := head ids;
              chunks_created := r_chunks_created r |}.
Proof.
  intros Hresp.
  destruct (text_content request) as [text |] eqn:Htext.
  2: { unfold outcome in Hresp.
       rewrite (ingest_text_without_text W request tr) in Hresp by auto. discriminate. }
  destruct (String.eqb_spec text "") as [-> | Hne].
  { unfold outcome in Hresp.
    rewrite (ingest_text_without_text W request tr) in Hresp by auto. discriminate. }
  revert Hresp. unfold outcome, ingest_text, http_errors.
  rewrite try_except_run, Htext.
  assert (Htruthy : negb (str_truthy text) = false).
  { unfold str_truthy. destruct (String.eqb_spec text ""); [contradiction | reflexivity]. }
  rewrite Htruthy, bind_run.
  assert (Hname : match req_filename request with
                  | Some f => if str_truthy f then f else "text_input"
                  | None => "text_input"
                  end =
                  if str_truthy (default "" (req_filename request))
                  then default "" (req_filename request) else "text_input")
    by (destruct (req_filename request); reflexivity).
  rewrite Hname.
  match goal with
  | |- context [ingest_text_content W text ?name tr] =>
      destruct (ingest_text_content_returns W text name tr) as (r & tr' & Hrun);
      rewrite Hrun
  end.
  destruct (r_success r) eqn:Hok.
  - destruct (ingest_text_content_success W _ _ _ _ _ Hrun Hok)
      as (chunks & ? & ? & ? & ? & ? & ids & _ & _ & _ & _ & ->).
    simpl. intros [= <-]. eexists text, _, ids.
    split; [reflexivity |]. split; [exact Hne |].
    unfold outcome. rewrite Hrun.
    split; [reflexivity |]. split; [reflexivity |]. split; [reflexivity |].
    unfold first_document_id. simpl. destruct ids; reflexivity.
  - cbn [negb]. unfold raise. simpl.
    destruct (ingest_text_content_failure W _ _ _ _ _ Hrun Hok) as [cause ->].
    discriminate.
Qed.

Lemma ingest_text_response_witness :
  outcome (ingest_text scenario.calm scenario.note_text) [] =
    inr {| success := true;
           message := "Successfully ingested text content";
           document_id := Some "uuid-3";
           chunks_created := 1 |} /\
  exists text r ids,
    text_content scenario.note_text = Some text /\
    text <> "" /\
    outcome (ingest_text_content scenario.calm text
               (if str_truthy (default "" (req_filename scenario.note_text))
                then default "" (req_filename scenario.note_text)
                else "text_input")) [] = inr r /\
    r_success r = true /\
    r_document_ids r = Some ids /\
    {| success := true;
       message := "Successfully ingested text content";
       document_id := Some "uuid-3";
       chunks_created := 1 |} =
    {| success := true;
       message := "Successfully ingested text content";
       document_id := head ids;
       chunks_created := r_chunks_created r |}.
Proof.
  split; [vm_compute; reflexivity |].
  apply (ingest_text_response scenario.calm scenario.note_text []).
  vm_compute. reflexivity.
Defined.

(** ** The connectivity test *)

(** X20: the connectivity test never raises: it answers with a [success]
    dict after the chat call and then the embedding call both succeeded, or
    with an [error] dict carrying the text of the first failure; when the
    chat call fails the embedding call is not made.  Without a [message] in
    the request the two dicts echo different default messages, and
    [embedding_dimensions] is the length of the first vector, 0 when no
    vector came back. *)
Theorem connectivity_test_result (W : World) (request : gmap string string)
    (tr : list call) :
  let asked :=
    default
      "Hello, this is a test message. Please respond with 'Azure OpenAI is working correctly!'"
      (request !! "message") in
  let messages :=
    [ {| msg_role := "system";
         msg_content := "You are a helpful assistant. Respond exactly as requested." |};
      {| msg_role := "user"; msg_content := asked |} ] in
  let failed e :=
    {| t_status := "error";
       t_azure_openai_chat_response := None;
       t_embedding_dimensions := None;
       t_error := Some (str_exn e);
       t_test_message :=
         default "Hello, this is a test message." (request !! "message") |} in
  test_azure_openai W request tr =
  match chat_completion W messages one_tenth 100 tr with
  | (inl e, tr1) => (inr (failed e), tr1)
  | (inr response, tr1) =>
      match embeddings_answer W tr1 [asked] with
      | inl e =>
          (inr (failed e),
           (tr1 ++ [EmbeddingsCreate (azure_openai_embedding_deployment (settings W))
                      [asked]])%list)
      | inr answer =>
          (inr {| t_status := "success";
                  t_azure_openai_chat_response := Some response;
                  t_embedding_dimensions :=
                    Some (Z.of_nat (length (default [] (head (map embedding (data answer))))));
                  t_error := None;
                  t_test_message := asked |},
           (tr1 ++ [EmbeddingsCreate (azure_openai_embedding_deployment (settings W))
                      [asked]])%list)
      end
  end.
Proof.
  intros asked messages failed.
  unfold test_azure_openai. fold asked. fold messages.
  rewrite try_except_run, bind_run.
  destruct (chat_completion W messages one_tenth 100 tr) as [[e | response] tr1];
    [reflexivity |].
  rewrite bind_run, create_embeddings_run.
  destruct (embeddings_answer W tr1 [asked]) as [e | answer]; [reflexivity |].
  unfold ret. destruct (map embedding (data answer)); reflexivity.
Qed.

(** ** The collection and the endpoints that only use it *)

Lemma and_then_run {C X A B} (m : Run C X A) (k : A -> Run C X B) tr :
  and_then m k tr = match m tr with
                    | (inl e, tr') => (inl e, tr')
                    | (inr a, tr') => k a tr'
                    end.
Proof. reflexivity. Qed.

Lemma rescue_run {C X A} (m : Run C X A) (h : X -> Run C X A) tr :
  rescue m h tr = match m tr with
                  | (inl e, tr') => h e tr'
                  | (inr a, tr') => (inr a, tr')
                  end.
Proof. reflexivity. Qed.

Lemma get_document_count_run (S : Store) tr :
  get_document_count S tr =
  (inr match aggregate_answer S tr collection_name with
       | inl _ => 0
       | inr total_count => total_count
       end,
   (tr ++ [AggregateOverAll collection_name])%list).
Proof.
  unfold get_document_count. rewrite rescue_run, and_then_run. unfold ask, done.
  destruct (aggregate_answer S tr collection_name); reflexivity.
Qed.

(** X21: counting never fails: [get_document_count] answers 0 when the
    store cannot be asked, so the health check always reports [healthy] and
    [weaviate_connected = True] and never status 503, and the count
    endpoint never reports status 500; both show a count of 0 for a store
    that is down. *)
Theorem health_check_always_healthy (S : Store) (tr : list store_call) :
  let count := match aggregate_answer S tr collection_name with
               | inl _ => 0
               | inr total_count => total_count
               end in
  get_document_count S tr =
    (inr count, (tr ++ [AggregateOverAll collection_name])%list) /\
  health_check S tr =
    (inr {| h_status := "healthy";
            h_weaviate_connected := true;
            h_documents_count := count;
            h_version := app_version S |},
     (tr ++ [AggregateOverAll collection_name])%list) /\
  documents_count S tr =
    (inr count, (tr ++ [AggregateOverAll collection_name])%list).
Proof.
  intros count. split; [apply get_document_count_run |]. split.
  - unfold health_check. rewrite rescue_run, and_then_run, get_document_count_run.
    reflexivity.
  - unfold documents_count. rewrite rescue_run, and_then_run, get_document_count_run.
    reflexivity.
Qed.

Example health_check_unreachable :
  health_check scenario_more.unreachable [] =
    (inr {| h_status := "healthy";
            h_weaviate_connected := true;
            h_documents_count := 0;
            h_version := "1.0.0" |},
     [AggregateOverAll "Documents"]).
Proof. reflexivity. Qed.

Lemma create_collection_run (S : Store) tr :
  _create_collection_if_not_exists S tr =
  match exists_answer S tr collection_name with
  | inl e => (inl e, (tr ++ [CollectionsExists collection_name])%list)
  | inr true => (inr tt, (tr ++ [CollectionsExists collection_name])%list)
  | inr false =>
      (create_answer S (tr ++ [CollectionsExists collection_name])%list
         collection_name schema,
       (tr ++ [CollectionsExists collection_name;
               CollectionsCreate collection_name schema])%list)
  end.
Proof.
  unfold _create_collection_if_not_exists. rewrite rescue_run, and_then_run.
  unfold ask at 1.
  destruct (exists_answer S tr collection_name) as [e | [|]]; try reflexivity.
  cbn [negb]. unfold ask, fail. rewrite <- app_assoc.
  destruct (create_answer S _ _ _); reflexivity.
Qed.

(** X22: on a server that answers the existence test by what was created
    before, creating the collection if it does not exist is idempotent: the
    first run creates the collection at most once, with the five declared
    properties, and a second run only tests for existence. *)
Theorem collection_created_once (S : Store) (tr : list store_call) :
  remembers S ->
  exists tr1,
    _create_collection_if_not_exists S tr = (inr tt, tr1) /\
    (tr1 = (tr ++ [CollectionsExists collection_name])%list \/
     tr1 = (tr ++ [CollectionsExists collection_name;
                   CollectionsCreate collection_name schema])%list) /\
    scenario_more.created collection_name tr1 = true /\
    _create_collection_if_not_exists S tr1 =
      (inr tt, (tr1 ++ [CollectionsExists collection_name])%list).
Proof.
  intros [Hexists Hcreate].
  assert (Hagain : forall tr1,
    scenario_more.created collection_name tr1 = true ->
    _create_collection_if_not_exists S tr1 =
      (inr tt, (tr1 ++ [CollectionsExists collection_name])%list)).
  { intros tr1 Hthere. rewrite create_collection_run, Hexists, Hthere. reflexivity. }
  rewrite create_collection_run, Hexists.
  destruct (scenario_more.created collection_name tr) eqn:Hthere.
  - eexists. split; [reflexivity |]. split; [left; reflexivity |].
    assert (Hkept : scenario_more.created collection_name
                      (tr ++ [CollectionsExists collection_name])%list = true).
    { unfold scenario_more.created in *. rewrite existsb_app, Hthere. reflexivity. }
    split; [exact Hkept | apply Hagain, Hkept].
  - rewrite Hcreate. eexists. split; [reflexivity |]. split; [right; reflexivity |].
    assert (Hnow : scenario_more.created collection_name
                     (tr ++ [CollectionsExists collection_name;
                             CollectionsCreate collection_name schema])%list = true).
    { unfold scenario_more.created. rewrite existsb_app. simpl.
      apply orb_true_r. }
    split; [exact Hnow | apply Hagain, Hnow].
Qed.

Lemma server_remembers : remembers scenario_more.server.
Proof. split; intros; reflexivity. Qed.

Lemma collection_created_once_witness :
  remembers scenario_more.server /\
  exists tr1,
    _create_collection_if_not_exists scenario_more.server
      [ConnectToLocal "localhost" 8080 true] = (inr tt, tr1) /\
    (tr1 = ([ConnectToLocal "localhost" 8080 true]
            ++ [CollectionsExists collection_name])%list \/
     tr1 = ([ConnectToLocal "localhost" 8080 true]
            ++ [CollectionsExists collection_name;
                CollectionsCreate collection_name schema])%list) /\
    scenario_more.created collection_name tr1 = true /\
    _create_collection_if_not_exists scenario_more.server tr1 =
      (inr tt, (tr1 ++ [CollectionsExists collection_name])%list).
Proof.
  split; [exact server_remembers |].
  apply (collection_created_once scenario_more.server
           [ConnectToLocal "localhost" 8080 true]).
  exact server_remembers.
Defined.

(** X23: clearing the knowledge base makes exactly one delete call; its
    failure is reported as status 500 with the text of the exception, and
    otherwise the confirmation message is returned. *)
Theorem clear_documents_result (S : Store) (tr : list store_call) :
  clear_documents S tr =
  (match delete_many_answer S tr collection_name with
   | inl e => inl (HTTPException 500 ("Failed to clear documents: " +:+ str_exn e))
   | inr _ => inr "All documents cleared successfully"
   end,
   (tr ++ [DataDeleteMany collection_name])%list).
Proof.
  unfold clear_documents, delete_all_documents.
  rewrite !rescue_run, and_then_run, rescue_run. unfold ask, fail, done.
  destruct (delete_many_answer S tr collection_name) as [e | []]; reflexivity.
Qed.

(** ** The avatar routes *)

Lemma heygen_errors_outcome (A : Type) (m : Run http_call raised A) tr e :
  fst (heygen_errors m tr) = inl e ->
  exists detail, e = Raised (HTTPException 500 detail).
Proof.
  unfold heygen_errors. rewrite rescue_run.
  destruct (m tr) as [[cause | a] tr']; [| discriminate].
  destruct cause; unfold fail; simpl; intros [= <-]; eauto.
Qed.

(** X24: every failure of the three avatar routes is an HTTP error of
    status 500: the status of the avatar service is never passed on. *)
Theorem avatar_routes_fail_with_500 (H : Heygen) (tr : list http_call) :
  (forall e, fst (create_heygen_token H tr) = inl e ->
             exists detail, e = Raised (HTTPException 500 detail)) /\
  (forall e, fst (list_avatars H tr) = inl e ->
             exists detail, e = Raised (HTTPException 500 detail)) /\
  (forall e, fst (list_voices H tr) = inl e ->
             exists detail, e = Raised (HTTPException 500 detail)).
Proof.
  split; [| split]; intros e;
    unfold create_heygen_token, list_avatars, list_voices;
    apply heygen_errors_outcome.
Qed.

(** X25: when the avatar service answers the token request with a status
    other than 200, the route raises the HTTP error of that status inside
    its own [try], catches it as an unexpected error and answers with
    status 500, the original status and detail being quoted in the text. *)
Theorem token_upstream_status_wrapped (H : Heygen) (tr : list http_call)
    (response : Response) :
  post_answer H tr "https://api.heygen.com/v1/streaming.create_token" (headers H)
    = inr response ->
  status_code response <> 200 ->
  create_heygen_token H tr =
    (inl (Raised (HTTPException 500
                    ("Internal error: " +:+ pretty (status_code response) +:+ ": "
                     +:+ "Failed to create HeyGen token: " +:+ text response))),
     (tr ++ [RequestsPost "https://api.heygen.com/v1/streaming.create_token"
               (headers H)])%list).
Proof.
  intros Hanswer Hstatus.
  unfold create_heygen_token, heygen_errors.
  rewrite rescue_run, and_then_run. unfold ask at 1. rewrite Hanswer.
  destruct (Z.eqb_spec (status_code response) 200) as [Heq | _]; [contradiction |].
  reflexivity.
Qed.

Lemma token_upstream_status_wrapped_witness :
  create_heygen_token (scenario_more.avatar_service (inr scenario_more.unauthorized)) [] =
    (inl (Raised (HTTPException 500
                    "Internal error: 401: Failed to create HeyGen token: Unauthorized")),
     [ RequestsPost "https://api.heygen.com/v1/streaming.create_token"
         [ ("x-api-key", "key-123"); ("Content-Type", "application/json") ] ]).
Proof.
  apply (token_upstream_status_wrapped
           (scenario_more.avatar_service (inr scenario_more.unauthorized)) []
           scenario_more.unauthorized).
  - reflexivity.
  - vm_compute. discriminate.
Defined.

(** X26: on status 200 with a JSON object as body, the token route reads
    the token and the expiry from the object under [data]: a key that is
    missing there gives [None], a missing [data] gives [None] for both, and
    a [data] that is not an object makes the route fail with status 500. *)
Theorem token_from_body (H : Heygen) (tr : list http_call)
    (response : Response) (items : list (string * json)) :
  post_answer H tr "https://api.heygen.com/v1/streaming.create_token" (headers H)
    = inr response ->
  status_code response = 200 ->
  json_body response = inr (JObj items) ->
  fst (create_heygen_token H tr) =
    match default (JObj []) (items_get "data" items) with
    | JObj inner =>
        inr {| tk_success := true;
               tk_token := default JNull (items_get "token" inner);
               tk_expires_at := default JNull (items_get "expires_at" inner) |}
    | other =>
        inl (Raised (HTTPException 500
                       ("Internal error: '" +:+ type_name other
                        +:+ "' object has no attribute 'get'")))
    end.
Proof.
  intros Hanswer Hstatus Hbody.
  unfold create_heygen_token, heygen_errors.
  rewrite rescue_run, and_then_run. unfold ask at 1.
  rewrite Hanswer, Hstatus, Hbody.
  unfold and_then, lift_result, json_get, done, fail.
  destruct (items_get "data" items) as [[] |]; reflexivity.
Qed.

Lemma token_from_body_witness :
  fst (create_heygen_token
         (scenario_more.avatar_service (inr scenario_more.token_issued)) []) =
    inr {| tk_success := true; tk_token := JStr "tok-9f2c"; tk_expires_at := JNull |} /\
  fst (create_heygen_token
         (scenario_more.avatar_service (inr scenario_more.null_data)) []) =
    inl (Raised (HTTPException 500
                   "Internal error: 'NoneType' object has no attribute 'get'")).
Proof.
  split.
  - apply (token_from_body
             (scenario_more.avatar_service (inr scenario_more.token_issued)) []
             scenario_more.token_issued
             [ ("error", JNull); ("data", JObj [ ("token", JStr "tok-9f2c") ]) ]);
      reflexivity.
  - apply (token_from_body
             (scenario_more.avatar_service (inr scenario_more.null_data)) []
             scenario_more.null_data [ ("data", JNull) ]);
      reflexivity.
Defined.

(** X27: the two list routes pass the parsed body of a 200 answer on
    unchanged; a failed request or a body that is not JSON is reported as
    status 500 with a [Network error] text when [requests] raised it. *)
Theorem avatar_lists (H : Heygen) (tr : list http_call) :
  let answered (prefix : string) (r : raised + Response) : raised + json :=
    match r with
    | inl (RequestException m) =>
        inl (Raised (HTTPException 500 ("Network error: " +:+ m)))
    | inl e => inl (Raised (HTTPException 500 ("Internal error: " +:+ str_raised e)))
    | inr response =>
        if (status_code response =? 200)%Z
        then match json_body response with
             | inr body => inr body
             | inl (RequestException m) =>
                 inl (Raised (HTTPException 500 ("Network error: " +:+ m)))
             | inl e =>
                 inl (Raised (HTTPException 500 ("Internal error: " +:+ str_raised e)))
             end
        else inl (Raised (HTTPException 500
                            ("Internal error: " +:+ pretty (status_code response)
                             +:+ ": " +:+ prefix +:+ text response)))
    end in
  list_avatars H tr =
    (answered "Failed to list avatars: "
       (get_answer H tr "https://api.heygen.com/v2/avatars" (headers H)),
     (tr ++ [RequestsGet "https://api.heygen.com/v2/avatars" (headers H)])%list) /\
  list_voices H tr =
    (answered "Failed to list voices: "
       (get_answer H tr "https://api.heygen.com/v2/voices" (headers H)),
     (tr ++ [RequestsGet "https://api.heygen.com/v2/voices" (headers H)])%list).
Proof.
  intros answered. split.
  - unfold list_avatars, heygen_errors. rewrite rescue_run, and_then_run.
    unfold ask at 1, answered.
    destruct (get_answer H tr _ _) as [[] | response]; try reflexivity.
    destruct (status_code response =? 200)%Z; [| reflexivity].
    unfold lift_result. destruct (json_body response) as [[] |]; reflexivity.
  - unfold list_voices, heygen_errors. rewrite rescue_run, and_then_run.
    unfold ask at 1, answered.
    destruct (get_answer H tr _ _) as [[] | response]; try reflexivity.
    destruct (status_code response =? 200)%Z; [| reflexivity].
    unfold lift_result. destruct (json_body response) as [[] |]; reflexivity.
Qed.

(** ** Loading *)

(** X28: [load_document] picks the loader by the extension without regard
    to case: the PDF loader for [.pdf], the Markdown loader for [.md], the
    text loader for [.txt] and [.text]; it makes that one load call and
    passes its documents or its exception on. *)
Theorem loader_selection (W : World) (file_path file_type : string) (tr : list call) :
  (str_lower W file_type = ".pdf" ->
   load_document W file_path file_type tr =
     (load_answer W tr PyPDFLoader file_path,
      (tr ++ [LoaderLoad PyPDFLoader file_path])%list)) /\
  (str_lower W file_type = ".md" ->
   load_document W file_path file_type tr =
     (load_answer W tr UnstructuredMarkdownLoader file_path,
      (tr ++ [LoaderLoad UnstructuredMarkdownLoader file_path])%list)) /\
  (str_lower W file_type = ".txt" \/ str_lower W file_type = ".text" ->
   load_document W file_path file_type tr =
     (load_answer W tr TextLoader file_path,
      (tr ++ [LoaderLoad TextLoader file_path])%list)).
Proof.
  assert (Hload : forall loader,
    bind (ret loader)
         (fun loader => bind (extern (LoaderLoad loader file_path)
                                     (fun tr => load_answer W tr loader file_path))
                             (fun documents => ret documents)) tr =
    (load_answer W tr loader file_path, (tr ++ [LoaderLoad loader file_path])%list)).
  { intros loader. unfold bind, ret, extern.
    destruct (load_answer W tr loader file_path); reflexivity. }
  unfold load_document. rewrite log_and_reraise_id.
  split; [| split].
  - intros ->. apply Hload.
  - intros ->. apply Hload.
  - intros [-> | ->]; apply Hload.
Qed.

Lemma loader_selection_witness :
  ascii_lower ".PDF" = ".pdf" /\
  load_document scenario.calm "/tmp/tmpk3x9.pdf" ".PDF" [] =
    (load_answer scenario.calm [] PyPDFLoader "/tmp/tmpk3x9.pdf",
     ([] ++ [LoaderLoad PyPDFLoader "/tmp/tmpk3x9.pdf"])%list).
Proof.
  split; [reflexivity |].
  apply (proj1 (loader_selection scenario.calm "/tmp/tmpk3x9.pdf" ".PDF" [])).
  reflexivity.
Defined.

(** ** The further properties on the scripted collaborators *)

Lemma chunk_numbering_witness :
  exists docs,
    weaviate_docs_loop scenario.calm "guide.md" ".md"
      [ ({| page_content := "Install."; doc_metadata := ∅ |}, [scenario.half]);
        ({| page_content := "Run."; doc_metadata := ∅ |}, [scenario.quarter]) ] 0 [] [] =
      (inr docs, ([] ++ replicate 2 DatetimeNow)%list) /\
    length docs = 2%nat /\
    exists doc upload_date,
      docs !! 1%nat = Some doc /\
      doc !! "content" = Some (VStr "Run.") /\
      doc !! "chunk_index" = Some (VInt 1) /\
      doc !! "upload_date" = Some (VStr upload_date).
Proof.
  destruct (chunk_numbering scenario.calm "guide.md" ".md"
              [ ({| page_content := "Install."; doc_metadata := ∅ |}, [scenario.half]);
                ({| page_content := "Run."; doc_metadata := ∅ |}, [scenario.quarter]) ] [])
    as (docs & Hrun & Hlen & Hdocs).
  exists docs. split; [exact Hrun |]. split; [exact Hlen |].
  destruct (Hdocs 1%nat {| page_content := "Run."; doc_metadata := ∅ |}
              [scenario.quarter] eq_refl)
    as (doc & date & Hdoc & Hcontent & _ & Hindex & _ & Hdate & _).
  exists doc, date. auto.
Defined.

Lemma reserved_keys_not_stored_witness :
  exists new,
    log_after (add_documents scenario.calm scenario.three_docs scenario.two_vectors) [] =
      ([] ++ new)%list /\
    forall c, c ∈ new ->
      exists doc vector,
        doc ∈ scenario.three_docs /\
        c = DataInsert (without_reserved doc) vector /\
        without_reserved doc !! "id" = None /\
        without_reserved doc !! "vector" = None /\
        forall key, key <> "id" -> key <> "vector" ->
                    without_reserved doc !! key = doc !! key.
Proof.
  exact (reserved_keys_not_stored scenario.calm scenario.three_docs
           scenario.two_vectors []).
Defined.

Lemma avatar_routes_fail_with_500_witness :
  fst (list_avatars (scenario_more.avatar_service (inr scenario_more.unauthorized)) []) =
    inl (Raised (HTTPException 500
                   "Internal error: 401: Failed to list avatars: Unauthorized")) /\
  exists detail,
    Raised (HTTPException 500 "Internal error: 401: Failed to list avatars: Unauthorized")
      = Raised (HTTPException 500 detail).
Proof.
  split; [reflexivity |].
  apply (proj1 (proj2 (avatar_routes_fail_with_500
                         (scenario_more.avatar_service (inr scenario_more.unauthorized))
                         []))).
  reflexivity.
Defined.
